(** * The Room: booking lifecycle and room availability

    A shallow embedding of the booking page of the hotel front desk
    ([src/pages/Bookings.tsx]) together with the part of the relational
    schema it talks to ([supabase/migrations]), and the properties of the
    booking lifecycle stated over it.

    Conventions of the embedding.
    - Instants (JavaScript time values, [timestamptz] columns) are integers,
      milliseconds since 1970-01-01T00:00:00Z.
    - Money ([price_per_night], [total_price], SQL [DECIMAL(10,2)]) is counted
      in cents.  The JavaScript product [nights * room.price_per_night] is a
      floating point product; it is modelled by the exact product, which is
      the value the [DECIMAL(10,2)] column keeps.
    - A table with a primary key is a finite map from the key to the row.
    - Row level security policies are not modelled: every request is made by
      an actor the policies let through.  Failures of the storage service are
      an explicit input ([Faults]). *)

From stdpp Require Import gmap strings list relations sorting.

Local Open Scope Z_scope.

(** ** Identifiers, dates and times *)

(** [UUID] columns.  [None] in a form field stands for a string that is not a
    UUID (the empty selection). *)
Abbreviation uuid := positive.

Definition msPerDay : Z := 1000 * 60 * 60 * 24.
Definition msPerMinute : Z := 1000 * 60.

(** Day number (days since 1970-01-01) of a proleptic Gregorian date: what
    both [new Date("YYYY-MM-DD")] and the [timestamptz] input routine make of
    the date part of a string. *)
Definition days_from_civil (y m d : Z) : Z :=
  let y' := if m <=? 2 then y - 1 else y in
  let era := y' / 400 in
  let yoe := y' - era * 400 in
  let mp := (m + 9) mod 12 in
  let doy := (153 * mp + 2) / 5 + d - 1 in
  let doe := yoe * 365 + yoe / 4 - yoe / 100 + doy in
  era * 146097 + doe - 719468.

(** The strings the page handles as dates: the value of an
    [<input type="date">] (empty, or ["YYYY-MM-DD"]) and the concatenation
    [`${date}T${time}:00`] built by [handleSubmit].  [day] is the day number
    of the date written with a year of four digits. *)
Inductive DateString : Type :=
  | Blank                                  (* "" *)
  | ISODate (day : Z)                      (* "YYYY-MM-DD" *)
  | ISODateTime (day : Z) (hh mm : Z).     (* "YYYY-MM-DDTHH:MM:00" *)

(** The value of an [<input type="time">]. *)
Inductive TimeString : Type :=
  | BlankTime                              (* "" *)
  | HHMM (hh mm : Z).                      (* "HH:MM" *)

#[global] Instance DateString_eq_dec : EqDecision DateString.
Proof. solve_decision. Defined.
#[global] Instance TimeString_eq_dec : EqDecision TimeString.
Proof. solve_decision. Defined.

Definition ymd (y m d : Z) : DateString := ISODate (days_from_civil y m d).

(** The clocks an operation reads: the browser's clock and time zone
    ([utc_offset]: local time minus UTC, in milliseconds) and the database
    server's [NOW()]. *)
Record Clock : Type := mkClock {
  now : Z;
  utc_offset : Z;
  db_now : Z;
}.

(** The day numbers of the dates with a year of four digits, ["0001-01-01"]
    to ["9999-12-31"].  A date field also takes years of five and six
    digits; such a value is no date string of ECMAScript's format, and what
    [new Date] makes of it is left to the engine (V8 reads it as local
    time).  [getTime] describes [new Date] on the four-digit years only, and
    a statement that rests on the reading of a date beyond them takes
    [four_digit_year] as a hypothesis. *)
Definition four_digit_year (day : Z) : Prop :=
  days_from_civil 1 1 1 <= day <= days_from_civil 9999 12 31.

(** [new Date(s).getTime()]; [None] is [NaN].  A date-only string is read as
    UTC midnight, a date-time string without a zone as local time. *)
Definition getTime (clk : Clock) (s : DateString) : option Z :=
  match s with
  | Blank => None
  | ISODate d => Some (d * msPerDay)
  | ISODateTime d h m =>
      Some (d * msPerDay + (h * 60 + m) * msPerMinute - utc_offset clk)
  end.

(** [const today = new Date(); today.setHours(0, 0, 0, 0)]: local midnight. *)
Definition today_midnight (clk : Clock) : Z :=
  (now clk + utc_offset clk) / msPerDay * msPerDay - utc_offset clk.

(** [format(new Date(), "yyyy-MM-dd")]: the current local date. *)
Definition getTodayMinDate (clk : Clock) : DateString :=
  ISODate ((now clk + utc_offset clk) / msPerDay).

(** Relational operators of JavaScript on time values: false on [NaN]. *)
Definition js_lt (a b : option Z) : bool :=
  match a, b with Some x, Some y => bool_decide (x < y) | _, _ => false end.
Definition js_le (a b : option Z) : bool :=
  match a, b with Some x, Some y => bool_decide (x <= y) | _, _ => false end.

(** [Math.ceil(a / b)] for [0 < b]. *)
Definition Math_ceil_div (a b : Z) : Z := - ((- a) / b).

(** ** The entity store *)

Module Db.

Inductive room_status : Type := available | occupied | maintenance | cleaning.
Inductive booking_status : Type := active | checked_out | cancelled.

#[global] Instance room_status_eq_dec : EqDecision room_status.
Proof. solve_decision. Defined.
#[global] Instance booking_status_eq_dec : EqDecision booking_status.
Proof. solve_decision. Defined.

(** [public.guests] *)
Record guest : Type := mkGuest {
  g_full_name : string;
  g_document_number : string;
  g_email : option string;
  g_phone : option string;
  g_address : option string;
  g_notes : option string;
  g_created_by : option uuid;
  g_created_at : option Z;
  g_updated_at : option Z;
}.

(** [public.rooms] *)
Record room : Type := mkRoom {
  r_room_number : string;
  r_room_type : string;
  r_description : option string;
  r_capacity : Z;
  r_price_per_night : Z;
  r_status : room_status;
  r_floor : option Z;
  r_amenities : option (list string);
  r_created_at : option Z;
  r_updated_at : option Z;
}.

(** [public.bookings] *)
Record booking : Type := mkBooking {
  b_guest_id : uuid;
  b_room_id : uuid;
  b_check_in_date : Z;
  b_check_out_date : Z;
  b_actual_check_out : option Z;
  b_total_price : Z;
  b_status : booking_status;
  b_notes : option string;
  b_created_by : option uuid;
  b_created_at : option Z;
  b_updated_at : option Z;
}.

Record t : Type := mkDb {
  guests : gmap positive guest;
  rooms : gmap positive room;
  bookings : gmap positive booking;
}.

(** Input routine of [timestamp with time zone], session time zone UTC;
    [None] is the error raised on a string that is not a timestamp. *)
Definition timestamptz_in (s : DateString) : option Z :=
  match s with
  | Blank => None
  | ISODate d => Some (d * msPerDay)
  | ISODateTime d h m => Some (d * msPerDay + (h * 60 + m) * msPerMinute)
  end.

(** Range of [DECIMAL(10,2)], in cents. *)
Definition numeric_10_2 (cents : Z) : Prop := - 10 ^ 10 < cents < 10 ^ 10.

(** The filter of the availability query:
    [.eq("room_id", roomId).eq("status", "active")
     .or(`and(check_in_date.lte.${checkOut},check_out_date.gte.${checkIn})`)]
    with the two literals already read as timestamps. *)
Definition blocks (roomId : uuid) (checkIn checkOut : Z) (b : booking) : Prop :=
  b_room_id b = roomId ∧ b_status b = active ∧
  b_check_in_date b <= checkOut ∧ b_check_out_date b >= checkIn.

#[global] Instance blocks_dec roomId checkIn checkOut b :
  Decision (blocks roomId checkIn checkOut b).
Proof. unfold blocks. apply _. Defined.

(** [from("bookings").select("id")] under that filter: the ids found, or
    [None] when the store answers with an error. *)
Definition select_blocking (db : t) (roomId : uuid)
    (checkIn checkOut : DateString) : option (list positive) :=
  match timestamptz_in checkOut, timestamptz_in checkIn with
  | Some hi, Some lo =>
      Some ((filter (λ ib, blocks roomId lo hi ib.2)
               (map_to_list (bookings db))).*1)
  | _, _ => None
  end.

(** The object [handleSubmit] inserts. *)
Record booking_insert : Type := mkInsert {
  i_guest_id : uuid;
  i_room_id : uuid;
  i_check_in_date : DateString;
  i_check_out_date : DateString;
  i_notes : option string;
  i_total_price : Z;
  i_status : booking_status;
}.

(** [gen_random_uuid()], modelled by a key no row of the table has. *)
Definition gen_random_uuid (db : t) : positive := fresh (dom (bookings db)).

(** [from("bookings").insert([bookingData])]: the columns are read, the
    foreign keys, the check constraint [valid_dates] and the range of
    [total_price] are enforced, the remaining columns take their defaults.
    [None] is an error; nothing is written then. *)
Definition insert_booking (clk : Clock) (d : booking_insert) (db : t) : option t :=
  match timestamptz_in (i_check_in_date d), timestamptz_in (i_check_out_date d) with
  | Some ci, Some co =>
      if bool_decide (is_Some (guests db !! i_guest_id d) ∧
                      is_Some (rooms db !! i_room_id d) ∧
                      co > ci ∧
                      numeric_10_2 (i_total_price d))
      then
        let row := {| b_guest_id := i_guest_id d;
                      b_room_id := i_room_id d;
                      b_check_in_date := ci;
                      b_check_out_date := co;
                      b_actual_check_out := None;
                      b_total_price := i_total_price d;
                      b_status := i_status d;
                      b_notes := i_notes d;
                      b_created_by := None;
                      b_created_at := Some (db_now clk);
                      b_updated_at := Some (db_now clk) |} in
        Some {| guests := guests db;
                rooms := rooms db;
                bookings := <[gen_random_uuid db := row]> (bookings db) |}
      else None
  | _, _ => None
  end.

(** Row images of the two updates, with the [BEFORE UPDATE] triggers
    ([update_updated_at_column]) applied. *)
Definition set_room_status (clk : Clock) (s : room_status) (r : room) : room :=
  {| r_room_number := r_room_number r;
     r_room_type := r_room_type r;
     r_description := r_description r;
     r_capacity := r_capacity r;
     r_price_per_night := r_price_per_night r;
     r_status := s;
     r_floor := r_floor r;
     r_amenities := r_amenities r;
     r_created_at := r_created_at r;
     r_updated_at := Some (db_now clk) |}.

Definition set_checked_out (clk : Clock) (at_ : Z) (b : booking) : booking :=
  {| b_guest_id := b_guest_id b;
     b_room_id := b_room_id b;
     b_check_in_date := b_check_in_date b;
     b_check_out_date := b_check_out_date b;
     b_actual_check_out := Some at_;
     b_total_price := b_total_price b;
     b_status := checked_out;
     b_notes := b_notes b;
     b_created_by := b_created_by b;
     b_created_at := b_created_at b;
     b_updated_at := Some (db_now clk) |}.

(** [from("rooms").update({ status }).eq("id", id)] *)
Definition update_room_status (clk : Clock) (id : uuid) (s : room_status)
    (db : t) : t :=
  {| guests := guests db;
     rooms := alter (set_room_status clk s) id (rooms db);
     bookings := bookings db |}.

(** [from("bookings").update({ status: "checked_out", actual_check_out })
     .eq("id", id)] *)
Definition update_booking_checked_out (clk : Clock) (id : uuid) (at_ : Z)
    (db : t) : t :=
  {| guests := guests db;
     rooms := rooms db;
     bookings := alter (set_checked_out clk at_) id (bookings db) |}.

End Db.

(** Which requests to the store fail (network, service). *)
Record Faults : Type := mkFaults {
  select_fails : bool;
  insert_fails : bool;
  booking_update_fails : bool;
  room_update_fails : bool;
}.

Definition no_faults : Faults := mkFaults false false false false.

(** ** The page: [Bookings.tsx] *)

(** [interface Room] *)
Module Room.
Record t : Type := mk {
  id : uuid;
  room_number : string;
  room_type : string;
  price_per_night : Z;
  status : Db.room_status;
}.
End Room.

(** [interface Booking] (the joined [guests] and [rooms] columns, only
    displayed, are left out). *)
Module Booking.
Record t : Type := mk {
  id : uuid;
  guest_id : uuid;
  room_id : uuid;
  check_in_date : Z;
  check_out_date : Z;
  actual_check_out : option Z;
  total_price : Z;
  status : Db.booking_status;
  notes : option string;
}.
End Booking.

(** The [formData] state. *)
Module Form.
Record t : Type := mk {
  guest_id : option uuid;
  room_id : option uuid;
  check_in_date : DateString;
  check_in_time : TimeString;
  check_out_date : DateString;
  check_out_time : TimeString;
  notes : string;
}.
End Form.

(** What a handler shows or logs, in the order it does. *)
Inductive ZodIssue : Type :=
  | guest_invalid            (* "Selecione um hóspede válido" *)
  | room_invalid             (* "Selecione um quarto válido" *)
  | check_in_date_required   (* "Data de check-in é obrigatória" *)
  | check_in_time_invalid    (* "Horário de check-in inválido" *)
  | check_out_date_required  (* "Data de check-out é obrigatória" *)
  | check_out_time_invalid   (* "Horário de check-out inválido" *)
  | notes_too_long.          (* "Observações devem ter no máximo 1000 caracteres" *)

Inductive Message : Type :=
  | toast_zod (i : ZodIssue)
  | toast_check_in_past         (* "A data de check-in não pode ser no passado" *)
  | toast_check_out_not_after   (* "A data de check-out deve ser posterior ao check-in" *)
  | toast_room_reserved         (* "Este quarto já está reservado para o período selecionado" *)
  | toast_create_failed         (* "Erro ao criar hospedagem" *)
  | toast_created               (* "Hospedagem criada com sucesso!" *)
  | toast_check_out_failed      (* "Erro ao realizar check-out" *)
  | toast_checked_out           (* "Check-out realizado com sucesso!" *)
  | toast_load_failed           (* "Erro ao carregar hospedagens" *)
  | console_availability_error  (* console.error("Error checking availability:", error) *)
  | console_insert_error.       (* console.error(error) *)

#[global] Instance ZodIssue_eq_dec : EqDecision ZodIssue.
Proof. solve_decision. Defined.
#[global] Instance Message_eq_dec : EqDecision Message.
Proof. solve_decision. Defined.

(** [rooms.find((r) => r.id === roomId)] *)
Definition find_room (rooms : list Room.t) (roomId : uuid) : option Room.t :=
  List.find (λ r, bool_decide (Room.id r = roomId)) rooms.

Definition calculateTotalPrice (clk : Clock) (rooms : list Room.t)
    (roomId : uuid) (checkIn checkOut : DateString) : Z :=
  match find_room rooms roomId with
  | None => 0
  | Some room =>
      match checkIn, checkOut with
      | Blank, _ | _, Blank => 0
      | _, _ =>
          match getTime clk checkOut, getTime clk checkIn with
          | Some out_ms, Some in_ms =>
              let nights := Math_ceil_div (out_ms - in_ms) msPerDay in
              nights * Room.price_per_night room
          | _, _ => 0
          end
      end
  end.

(** [bookingSchema.parse(formData)]: the validated object, or the first issue
    of the [ZodError] (issues come in the order of the schema's keys). *)
Module Validated.
Record t : Type := mk {
  guest_id : uuid;
  room_id : uuid;
  check_in_date : DateString;
  check_in_time : TimeString;
  check_out_date : DateString;
  check_out_time : TimeString;
  notes : string;
}.
End Validated.

(** [/^([0-1][0-9]|2[0-3]):[0-5][0-9]$/] *)
Definition time_regex (t : TimeString) : bool :=
  match t with
  | BlankTime => false
  | HHMM h m => bool_decide (0 <= h <= 23 ∧ 0 <= m <= 59)
  end.

(** [z.string().min(1, ...)] *)
Definition min_1 (s : DateString) : bool :=
  match s with Blank => false | _ => true end.

(** [s.length], which [z.string().max(1000, ...)] compares with its bound: the
    number of UTF-16 code units of the text.  A [string] holds the bytes of
    the text in UTF-8: a continuation byte adds nothing, the first byte of a
    sequence of four stands for a surrogate pair. *)
Definition utf16_units (c : Ascii.ascii) : nat :=
  let n := Ascii.nat_of_ascii c in
  if (n <? 128)%nat then 1%nat
  else if (n <? 192)%nat then 0%nat
  else if (n <? 240)%nat then 1%nat
  else 2%nat.

Fixpoint utf16_length (s : string) : nat :=
  match s with
  | EmptyString => 0%nat
  | String c s' => (utf16_units c + utf16_length s')%nat
  end.

Definition bookingSchema_parse (f : Form.t) : ZodIssue + Validated.t :=
  match Form.guest_id f with
  | None => inl guest_invalid
  | Some guest =>
  match Form.room_id f with
  | None => inl room_invalid
  | Some room =>
  if negb (min_1 (Form.check_in_date f)) then inl check_in_date_required
  else if negb (time_regex (Form.check_in_time f)) then inl check_in_time_invalid
  else if negb (min_1 (Form.check_out_date f)) then inl check_out_date_required
  else if negb (time_regex (Form.check_out_time f)) then inl check_out_time_invalid
  else if bool_decide (utf16_length (Form.notes f) ≤ 1000)%nat then
    inr {| Validated.guest_id := guest;
           Validated.room_id := room;
           Validated.check_in_date := Form.check_in_date f;
           Validated.check_in_time := Form.check_in_time f;
           Validated.check_out_date := Form.check_out_date f;
           Validated.check_out_time := Form.check_out_time f;
           Validated.notes := Form.notes f |}
  else inl notes_too_long
  end end.

Definition checkRoomAvailability (faults : Faults) (db : Db.t) (roomId : uuid)
    (checkIn checkOut : DateString) : bool * list Message :=
  let response :=
    if select_fails faults then None
    else Db.select_blocking db roomId checkIn checkOut in
  match response with
  | None => (false, [console_availability_error])
  | Some data => (bool_decide (length data = 0%nat), [])
  end.

Definition validateDates (clk : Clock) (checkIn checkOut : DateString)
    : bool * list Message :=
  let today := Some (today_midnight clk) in
  let checkInDate := getTime clk checkIn in
  let checkOutDate := getTime clk checkOut in
  if js_lt checkInDate today then (false, [toast_check_in_past])
  else if js_le checkOutDate checkInDate then (false, [toast_check_out_not_after])
  else (true, []).

(** [`${date}T${time}:00`].  Only a date followed by a time is a timestamp;
    any other concatenation is a string the store refuses, like [Blank]. *)
Definition date_T_time (date : DateString) (time : TimeString) : DateString :=
  match date, time with
  | ISODate d, HHMM h m => ISODateTime d h m
  | _, _ => Blank
  end.

(** [validatedData.notes || null] *)
Definition notes_or_null (s : string) : option string :=
  if bool_decide (s = EmptyString) then None else Some s.

Definition bookingData (clk : Clock) (rooms : list Room.t) (v : Validated.t)
    : Db.booking_insert :=
  let totalPrice :=
    calculateTotalPrice clk rooms (Validated.room_id v)
      (Validated.check_in_date v) (Validated.check_out_date v) in
  let checkInDateTime :=
    date_T_time (Validated.check_in_date v) (Validated.check_in_time v) in
  let checkOutDateTime :=
    date_T_time (Validated.check_out_date v) (Validated.check_out_time v) in
  {| Db.i_guest_id := Validated.guest_id v;
     Db.i_room_id := Validated.room_id v;
     Db.i_check_in_date := checkInDateTime;
     Db.i_check_out_date := checkOutDateTime;
     Db.i_notes := notes_or_null (Validated.notes v);
     Db.i_total_price := totalPrice;
     Db.i_status := Db.active |}.

(** [handleSubmit]: the store it leaves and what it showed.  [rooms] and
    [formData] are the page's state when the form is submitted.  The
    [catch] branch for an exception other than a [ZodError] has no
    counterpart: nothing else in the body throws.  [resetForm], which
    follows a success, only touches the page's state.  The success branch
    ends by starting [loadData], without awaiting it: what [loadData] reads
    and shows comes after the handler's own toast and is described by
    [loadData] and [handleSubmit_loadData] below. *)
Definition handleSubmit (clk : Clock) (faults : Faults) (rooms : list Room.t)
    (formData : Form.t) (db : Db.t) : Db.t * list Message :=
  match bookingSchema_parse formData with
  | inl issue => (db, [toast_zod issue])
  | inr validatedData =>
      let '(valid, shown) :=
        validateDates clk (Validated.check_in_date validatedData)
          (Validated.check_out_date validatedData) in
      if negb valid then (db, shown)
      else
        let '(isAvailable, logged) :=
          checkRoomAvailability faults db (Validated.room_id validatedData)
            (Validated.check_in_date validatedData)
            (Validated.check_out_date validatedData) in
        if negb isAvailable then (db, logged ++ [toast_room_reserved])
        else
          let inserted :=
            if insert_fails faults then None
            else Db.insert_booking clk (bookingData clk rooms validatedData) db in
          match inserted with
          | None => (db, [toast_create_failed; console_insert_error])
          | Some db1 =>
              let db2 :=
                if room_update_fails faults then db1
                else Db.update_room_status clk (Validated.room_id validatedData)
                       Db.occupied db1 in
              (db2, [toast_created])
          end
  end.

(** An earlier revision of the page, kept in the repository: the form has no
    times of day and [handleSubmit] sends it to the store unchecked.  [None]
    for [guest_id] or [room_id] is a string the store refuses as a UUID. *)
Module Legacy.

Record FormData : Type := mkForm {
  guest_id : option uuid;
  room_id : option uuid;
  check_in_date : DateString;
  check_out_date : DateString;
  notes : string;
}.

Definition handleSubmit (clk : Clock) (faults : Faults) (rooms : list Room.t)
    (formData : FormData) (db : Db.t) : Db.t * list Message :=
  let totalPrice :=
    match room_id formData with
    | Some roomId =>
        calculateTotalPrice clk rooms roomId
          (check_in_date formData) (check_out_date formData)
    | None => 0
    end in
  let inserted :=
    if insert_fails faults then None
    else
      match guest_id formData, room_id formData with
      | Some guest, Some room =>
          Db.insert_booking clk
            {| Db.i_guest_id := guest;
               Db.i_room_id := room;
               Db.i_check_in_date := check_in_date formData;
               Db.i_check_out_date := check_out_date formData;
               Db.i_notes := Some (notes formData);
               Db.i_total_price := totalPrice;
               Db.i_status := Db.active |} db
      | _, _ => None
      end in
  match inserted with
  | None => (db, [toast_create_failed])
  | Some db1 =>
      match room_id formData with
      | Some room =>
          let db2 :=
            if room_update_fails faults then db1
            else Db.update_room_status clk room Db.occupied db1 in
          (db2, [toast_created])
      | None => (db1, [toast_created])
      end
  end.

End Legacy.

(** [handleCheckOut]; [confirmed] is the answer to the [confirm] dialog.
    After the success toast it starts [loadData], without awaiting it, as
    [handleSubmit] does. *)
Definition handleCheckOut (clk : Clock) (faults : Faults) (confirmed : bool)
    (booking : Booking.t) (db : Db.t) : Db.t * list Message :=
  if negb confirmed then (db, [])
  else if booking_update_fails faults then (db, [toast_check_out_failed])
  else
    let db1 := Db.update_booking_checked_out clk (Booking.id booking) (now clk) db in
    let db2 :=
      if room_update_fails faults then db1
      else Db.update_room_status clk (Booking.room_id booking) Db.cleaning db1 in
    (db2, [toast_checked_out]).

(** The table cell [{booking.status === "active" && <Button ...>}]: the
    check-out button exists only on rows shown as active. *)
Definition check_out_button (booking : Booking.t) : bool :=
  bool_decide (Booking.status booking = Db.active).

(** The object [select("*")] yields for a row of [bookings]. *)
Definition booking_of_row (id : uuid) (b : Db.booking) : Booking.t :=
  {| Booking.id := id;
     Booking.guest_id := Db.b_guest_id b;
     Booking.room_id := Db.b_room_id b;
     Booking.check_in_date := Db.b_check_in_date b;
     Booking.check_out_date := Db.b_check_out_date b;
     Booking.actual_check_out := Db.b_actual_check_out b;
     Booking.total_price := Db.b_total_price b;
     Booking.status := Db.b_status b;
     Booking.notes := Db.b_notes b |}.

(** The object [select("id, room_number, room_type, price_per_night, status")]
    yields for a row of [rooms]. *)
Definition room_of_row (id : uuid) (r : Db.room) : Room.t :=
  {| Room.id := id;
     Room.room_number := Db.r_room_number r;
     Room.room_type := Db.r_room_type r;
     Room.price_per_night := Db.r_price_per_night r;
     Room.status := Db.r_status r |}.

(** What the user sees: the toasts, without the console. *)
Definition is_toast (m : Message) : bool :=
  match m with
  | console_availability_error | console_insert_error => false
  | _ => true
  end.

Definition toasts (shown : list Message) : list Message :=
  List.filter is_toast shown.

(** Two images of a room row that agree on every column other than [status]
    and [updated_at]. *)
Definition room_frame (r r' : Db.room) : Prop :=
  Db.r_room_number r' = Db.r_room_number r ∧
  Db.r_room_type r' = Db.r_room_type r ∧
  Db.r_description r' = Db.r_description r ∧
  Db.r_capacity r' = Db.r_capacity r ∧
  Db.r_price_per_night r' = Db.r_price_per_night r ∧
  Db.r_floor r' = Db.r_floor r ∧
  Db.r_amenities r' = Db.r_amenities r ∧
  Db.r_created_at r' = Db.r_created_at r.

(** [rooms.filter((r) => r.status === "available")]: the rooms the form's
    select lists. *)
Definition availableRooms (rooms : list Room.t) : list Room.t :=
  filter (λ r, Room.status r = Db.available) rooms.

(** The room of a form, if one is selected, was picked from that list. *)
Definition room_offered (rooms : list Room.t) (formData : Form.t) : Prop :=
  ∀ id, Form.room_id formData = Some id →
        ∃ room, room ∈ availableRooms rooms ∧ Room.id room = id.

(** ** Sequential executions *)

(** One operation of the lifecycle, run to completion, as the page lets a
    user start it.  The page's state ([rooms], the listed [booking]) is what
    some earlier [loadData] left; it need not be the store's current state. *)
Inductive step : Db.t → Db.t → Prop :=
  | step_CreateBooking clk faults rooms formData db :
      room_offered rooms formData →
      step db (handleSubmit clk faults rooms formData db).1
  | step_CheckOut clk faults confirmed booking db :
      check_out_button booking = true →
      step db (handleCheckOut clk faults confirmed booking db).1.

(** The overlap test of the availability checker, between two stored rows. *)
Definition overlap (existing other : Db.booking) : Prop :=
  Db.b_check_in_date existing <= Db.b_check_out_date other ∧
  Db.b_check_out_date existing >= Db.b_check_in_date other.

Definition no_active_bookings (db : Db.t) : Prop :=
  ∀ i b, Db.bookings db !! i = Some b → Db.b_status b ≠ Db.active.

Definition no_double_booking (db : Db.t) : Prop :=
  ∀ i j b1 b2,
    i ≠ j →
    Db.bookings db !! i = Some b1 → Db.bookings db !! j = Some b2 →
    Db.b_status b1 = Db.active → Db.b_status b2 = Db.active →
    Db.b_room_id b1 = Db.b_room_id b2 →
    ¬ overlap b1 b2.

(** Active rows have not been checked out. *)
Definition active_not_checked_out (db : Db.t) : Prop :=
  ∀ i b, Db.bookings db !! i = Some b → Db.b_status b = Db.active →
         Db.b_actual_check_out b = None.

(** ** Fresh pages *)

(** The [rooms] state [loadData] sets from the store:
    [from("rooms").select("id, room_number, room_type, price_per_night, status")]. *)
Definition loadRooms (db : Db.t) : list Room.t :=
  (λ ir, room_of_row ir.1 ir.2) <$> map_to_list (Db.rooms db).

(** The operations when every form is filled on a page that has just loaded
    the store, and the update of the room reaches the store. *)
Inductive fresh_step : Db.t → Db.t → Prop :=
  | fresh_CreateBooking clk faults formData db :
      room_update_fails faults = false →
      room_offered (loadRooms db) formData →
      fresh_step db (handleSubmit clk faults (loadRooms db) formData db).1
  | fresh_CheckOut clk faults confirmed booking db :
      fresh_step db (handleCheckOut clk faults confirmed booking db).1.

(** No room has two active bookings. *)
Definition one_active_per_room (db : Db.t) : Prop :=
  ∀ i j b1 b2,
    Db.bookings db !! i = Some b1 → Db.bookings db !! j = Some b2 →
    Db.b_status b1 = Db.active → Db.b_status b2 = Db.active →
    Db.b_room_id b1 = Db.b_room_id b2 → i = j.

(** No room with an active booking is available. *)
Definition booked_rooms_unavailable (db : Db.t) : Prop :=
  ∀ i b r, Db.bookings db !! i = Some b → Db.b_status b = Db.active →
           Db.rooms db !! Db.b_room_id b = Some r →
           Db.r_status r ≠ Db.available.

Definition fresh_inv (db : Db.t) : Prop :=
  one_active_per_room db ∧ booked_rooms_unavailable db.

(** ** House times *)

(** Rows whose stay arrives [t_in] and leaves [t_out] milliseconds after
    midnight. *)
Definition keeps_house_times (t_in t_out : Z) (b : Db.booking) : Prop :=
  ∃ d1 d2, Db.b_check_in_date b = d1 * msPerDay + t_in ∧
           Db.b_check_out_date b = d2 * msPerDay + t_out.

Definition house_inv (t_in t_out : Z) (db : Db.t) : Prop :=
  no_double_booking db ∧
  ∀ i b, Db.bookings db !! i = Some b → Db.b_status b = Db.active →
         keeps_house_times t_in t_out b.

(** The operations, with forms that all carry the same two times of day. *)
Inductive house_step (h_in m_in h_out m_out : Z) : Db.t → Db.t → Prop :=
  | house_CreateBooking clk faults rooms formData db :
      Form.check_in_time formData = HHMM h_in m_in →
      Form.check_out_time formData = HHMM h_out m_out →
      house_step h_in m_in h_out m_out db
        (handleSubmit clk faults rooms formData db).1
  | house_CheckOut clk faults confirmed booking db :
      house_step h_in m_in h_out m_out db
        (handleCheckOut clk faults confirmed booking db).1.

(** ** A small hotel, for the concrete runs *)

Module Example.

Definition G1 : Db.guest :=
  {| Db.g_full_name := "Ana Souza"; Db.g_document_number := "123";
     Db.g_email := None; Db.g_phone := None; Db.g_address := None;
     Db.g_notes := None; Db.g_created_by := None;
     Db.g_created_at := Some 0; Db.g_updated_at := Some 0 |}.

Definition G2 : Db.guest :=
  {| Db.g_full_name := "Rui Lima"; Db.g_document_number := "456";
     Db.g_email := None; Db.g_phone := None; Db.g_address := None;
     Db.g_notes := None; Db.g_created_by := None;
     Db.g_created_at := Some 0; Db.g_updated_at := Some 0 |}.

(** Room "101", 200.00 a night, available. *)
Definition room101 : Db.room :=
  {| Db.r_room_number := "101"; Db.r_room_type := "Standard";
     Db.r_description := None; Db.r_capacity := 2;
     Db.r_price_per_night := 20000; Db.r_status := Db.available;
     Db.r_floor := Some 1; Db.r_amenities := None;
     Db.r_created_at := Some 0; Db.r_updated_at := Some 0 |}.

Definition hotel : Db.t :=
  {| Db.guests := <[2%positive := G2]> {[1%positive := G1]};
     Db.rooms := {[1%positive := room101]};
     Db.bookings := ∅ |}.

(** The page's [rooms] state after [loadData]. *)
Definition rooms : list Room.t := [room_of_row 1 room101].

Definition noon (y m d : Z) : Z :=
  days_from_civil y m d * msPerDay + 12 * 60 * msPerMinute.

(** 2024-05-20, 12:00 UTC, browser and server in UTC. *)
Definition clk : Clock :=
  {| now := noon 2024 5 20; utc_offset := 0; db_now := noon 2024 5 20 |}.

Definition form (guest : positive) (from : DateString) (at_in : TimeString)
    (to : DateString) (at_out : TimeString) : Form.t :=
  {| Form.guest_id := Some guest; Form.room_id := Some 1%positive;
     Form.check_in_date := from; Form.check_in_time := at_in;
     Form.check_out_date := to; Form.check_out_time := at_out;
     Form.notes := "" |}.

(** Two stays in room 101 that meet on 2024-06-12: one arrives at 08:00,
    the other leaves at 12:00. *)
Definition stay_A : Form.t :=
  form 1 (ymd 2024 6 12) (HHMM 8 0) (ymd 2024 6 14) (HHMM 12 0).
Definition stay_B : Form.t :=
  form 2 (ymd 2024 6 10) (HHMM 14 0) (ymd 2024 6 12) (HHMM 12 0).

Definition hotel_A : Db.t := (handleSubmit clk no_faults rooms stay_A hotel).1.
Definition hotel_AB : Db.t := (handleSubmit clk no_faults rooms stay_B hotel_A).1.

(** The stays of the specification's scenario. *)
Definition stay_1 : Form.t :=
  form 1 (ymd 2024 6 1) (HHMM 14 0) (ymd 2024 6 3) (HHMM 12 0).
Definition stay_2 : Form.t :=
  form 2 (ymd 2024 6 2) (HHMM 14 0) (ymd 2024 6 4) (HHMM 12 0).

Definition hotel_1 : Db.t := (handleSubmit clk no_faults rooms stay_1 hotel).1.

(** 2024-06-01, 12:00 in a browser three hours behind UTC. *)
Definition clk_west : Clock :=
  {| now := noon 2024 6 1 + 3 * 60 * msPerMinute;
     utc_offset := - (3 * 60 * msPerMinute);
     db_now := noon 2024 6 1 + 3 * 60 * msPerMinute |}.

Definition select_down : Faults := mkFaults true false false false.

(** The first stay as a page lists it while it is active. *)
Definition listed_1 : Booking.t :=
  {| Booking.id := 1; Booking.guest_id := 1; Booking.room_id := 1;
     Booking.check_in_date := days_from_civil 2024 6 1 * msPerDay + 14 * 60 * msPerMinute;
     Booking.check_out_date := noon 2024 6 3;
     Booking.actual_check_out := None;
     Booking.total_price := 40000;
     Booking.status := Db.active;
     Booking.notes := None |}.

(** Two later moments: 2024-06-03 11:00 and 2024-06-05 09:00 UTC. *)
Definition clk_3rd : Clock :=
  {| now := noon 2024 6 3 - 60 * msPerMinute; utc_offset := 0;
     db_now := noon 2024 6 3 - 60 * msPerMinute |}.
Definition clk_5th : Clock :=
  {| now := noon 2024 6 5 - 180 * msPerMinute; utc_offset := 0;
     db_now := noon 2024 6 5 - 180 * msPerMinute |}.

(** The first stay checked out on the 3rd, and once more on the 5th from
    a page that still lists it as active. *)
Definition checked_out_once : Db.t * list Message :=
  handleCheckOut clk_3rd no_faults true listed_1 hotel_1.
Definition checked_out_twice : Db.t * list Message :=
  handleCheckOut clk_5th no_faults true listed_1 checked_out_once.1.

End Example.

(** ** The rest of the bookings page *)

(** The object [resetForm] stores in [formData]; it is the initial state of
    the form as well. *)
Definition resetForm : Form.t :=
  {| Form.guest_id := None;
     Form.room_id := None;
     Form.check_in_date := Blank;
     Form.check_in_time := HHMM 14 0;
     Form.check_out_date := Blank;
     Form.check_out_time := HHMM 12 0;
     Form.notes := "" |}.

(** The store sends a [timestamptz] as text in its session time zone, UTC:
    ["YYYY-MM-DDTHH:MM:SS+00:00"].  [iso_date_part] is the calendar day of
    that text, which both [check_in_date.startsWith(today)] and
    [check_in_date.split("T")[0] === today] compare with [today]. *)
Definition iso_date_part (ts : Z) : DateString := ISODate (ts / msPerDay).

(** [const activeBookings = bookings.filter((b) => b.status === "active")] *)
Definition activeBookings (bookings : list Booking.t) : list Booking.t :=
  filter (λ b, Booking.status b = Db.active) bookings.

(** [const today = format(new Date(), "yyyy-MM-dd")] and the two counters of
    the summary cards. *)
Definition todayCheckIns (clk : Clock) (bookings : list Booking.t) : list Booking.t :=
  filter (λ b, iso_date_part (Booking.check_in_date b) = getTodayMinDate clk)
    (activeBookings bookings).

Definition todayCheckOuts (clk : Clock) (bookings : list Booking.t) : list Booking.t :=
  filter (λ b, iso_date_part (Booking.check_out_date b) = getTodayMinDate clk)
    (activeBookings bookings).

(** The [filterStatus] state and [filteredBookings]. *)
Inductive FilterStatus : Type := filter_all | filter_active | filter_checked_out.

Definition shown_under (filterStatus : FilterStatus) (booking : Booking.t) : Prop :=
  match filterStatus with
  | filter_all => True
  | filter_active => Booking.status booking = Db.active
  | filter_checked_out => Booking.status booking = Db.checked_out
  end.

#[global] Instance shown_under_dec filterStatus booking :
  Decision (shown_under filterStatus booking).
Proof. destruct filterStatus; simpl; apply _. Defined.

Definition filteredBookings (filterStatus : FilterStatus)
    (bookings : list Booking.t) : list Booking.t :=
  filter (shown_under filterStatus) bookings.

(** The badges of a table row: ["Chegada hoje"] and ["Saída hoje"]. *)
Definition arrival_badge (clk : Clock) (booking : Booking.t) : bool :=
  bool_decide (iso_date_part (Booking.check_in_date booking) = getTodayMinDate clk).

Definition departure_badge (clk : Clock) (booking : Booking.t) : bool :=
  bool_decide (iso_date_part (Booking.check_out_date booking) = getTodayMinDate clk)
  && bool_decide (Booking.status booking = Db.active).

(** [format(new Date(ts), "dd/MM/yyyy HH:mm")]: the local calendar day, hour
    and minute of an instant; the text is made of these three. *)
Definition format_day_hour_minute (clk : Clock) (ts : Z) : Z * Z * Z :=
  let local := ts + utc_offset clk in
  (local / msPerDay,
   local mod msPerDay / (60 * msPerMinute),
   local mod (60 * msPerMinute) / msPerMinute).

(** The check-in and check-out cells of a row; the second shows the actual
    check-out once there is one. *)
Definition check_in_cell (clk : Clock) (booking : Booking.t) : Z * Z * Z :=
  format_day_hour_minute clk (Booking.check_in_date booking).

Definition check_out_cell (clk : Clock) (booking : Booking.t) : Z * Z * Z :=
  match Booking.actual_check_out booking with
  | Some at_ => format_day_hour_minute clk at_
  | None => format_day_hour_minute clk (Booking.check_out_date booking)
  end.

(** [.order("created_at", { ascending: false })]: descending, nulls first. *)
Definition created_desc (x y : uuid * Db.booking) : Prop :=
  match Db.b_created_at x.2, Db.b_created_at y.2 with
  | None, _ => True
  | Some _, None => False
  | Some a, Some b => b <= a
  end.

(** The [bookings] state a successful read of [loadData] sets: the rows of
    the table, newest first.  Rows created at the same instant come in an
    order the store chooses. *)
Definition loads_bookings (db : Db.t) (bookings : list Booking.t) : Prop :=
  ∃ rows,
    rows ≡ₚ map_to_list (Db.bookings db) ∧
    Sorted created_desc rows ∧
    bookings = (λ ir, booking_of_row ir.1 ir.2) <$> rows.

(** What [loadData] shows.  Of its three reads only a failed read of
    [bookings] is reported (and leaves the listed bookings as they were);
    failed reads of guests and rooms leave empty lists without a word. *)
Definition loadData (bookings_read_fails : bool) : list Message :=
  if bookings_read_fails then [toast_load_failed] else [].

(** A submission together with the [loadData] that its success branch
    starts right after the creation toast. *)
Definition handleSubmit_loadData (clk : Clock) (faults : Faults)
    (bookings_read_fails : bool) (rooms : list Room.t) (formData : Form.t)
    (db : Db.t) : Db.t * list Message :=
  let r := handleSubmit clk faults rooms formData db in
  (r.1, r.2 ++ (if bool_decide (toast_created ∈ r.2)
                then loadData bookings_read_fails else [])).

(** ** The dashboard: [Dashboard.tsx] *)

Module Dashboard.

Record Stats : Type := mkStats {
  totalGuests : nat;
  totalRooms : nat;
  availableRooms : nat;
  activeBookings : nat;
}.

(** Which of the four counting requests fail. *)
Record CountFaults : Type := mkCountFaults {
  guests_count_fails : bool;
  rooms_count_fails : bool;
  available_count_fails : bool;
  bookings_count_fails : bool;
}.

Definition all_answered : CountFaults := mkCountFaults false false false false.

(** [res.count || 0]: the count of a failed request is [null]. *)
Definition count_or_0 (fails : bool) (count : nat) : nat :=
  if fails then 0%nat else count.

Definition loadStats (faults : CountFaults) (db : Db.t) : Stats :=
  {| totalGuests := count_or_0 (guests_count_fails faults) (size (Db.guests db));
     totalRooms := count_or_0 (rooms_count_fails faults) (size (Db.rooms db));
     availableRooms :=
       count_or_0 (available_count_fails faults)
         (size (filter (λ ir, Db.r_status ir.2 = Db.available) (Db.rooms db)));
     activeBookings :=
       count_or_0 (bookings_count_fails faults)
         (size (filter (λ ib, Db.b_status ib.2 = Db.active) (Db.bookings db))) |}.

End Dashboard.

(** ** Deleting rooms and guests: [Rooms.tsx], the guests page *)

(** [DELETE FROM rooms WHERE id = ...]; [bookings.room_id] is declared
    [ON DELETE CASCADE]. *)
Definition delete_room (id : uuid) (db : Db.t) : Db.t :=
  {| Db.guests := Db.guests db;
     Db.rooms := delete id (Db.rooms db);
     Db.bookings := filter (λ ib, Db.b_room_id ib.2 ≠ id) (Db.bookings db) |}.

(** [DELETE FROM guests WHERE id = ...]; [bookings.guest_id] is declared
    [ON DELETE CASCADE]. *)
Definition delete_guest (id : uuid) (db : Db.t) : Db.t :=
  {| Db.guests := delete id (Db.guests db);
     Db.rooms := Db.rooms db;
     Db.bookings := filter (λ ib, Db.b_guest_id ib.2 ≠ id) (Db.bookings db) |}.

Module RoomsPage.

Inductive Message : Type :=
  | toast_delete_failed   (* "Erro ao excluir quarto" *)
  | toast_deleted.        (* "Quarto excluído com sucesso!" *)

(** [handleDelete]; [confirmed] answers the [confirm] dialog, [fails] says
    whether the store answers the request with an error. *)
Definition handleDelete (fails confirmed : bool) (id : uuid) (db : Db.t)
    : Db.t * list Message :=
  if negb confirmed then (db, [])
  else if fails then (db, [toast_delete_failed])
  else (delete_room id db, [toast_deleted]).

End RoomsPage.

Module GuestsPage.

Inductive Message : Type :=
  | toast_delete_failed   (* "Erro ao excluir hóspede" *)
  | toast_deleted.        (* "Hóspede excluído com sucesso!" *)

Definition handleDelete (fails confirmed : bool) (id : uuid) (db : Db.t)
    : Db.t * list Message :=
  if negb confirmed then (db, [])
  else if fails then (db, [toast_delete_failed])
  else (delete_guest id db, [toast_deleted]).

End GuestsPage.

(** Every booking refers to a guest and a room of the store. *)
Definition referential_integrity (db : Db.t) : Prop :=
  ∀ i b, Db.bookings db !! i = Some b →
         is_Some (Db.guests db !! Db.b_guest_id b) ∧
         is_Some (Db.rooms db !! Db.b_room_id b).

(** Any operation of the three pages. *)
Inductive page_step : Db.t → Db.t → Prop :=
  | page_CreateBooking clk faults rooms formData db :
      page_step db (handleSubmit clk faults rooms formData db).1
  | page_CreateBooking_legacy clk faults rooms formData db :
      page_step db (Legacy.handleSubmit clk faults rooms formData db).1
  | page_CheckOut clk faults confirmed booking db :
      page_step db (handleCheckOut clk faults confirmed booking db).1
  | page_DeleteRoom fails confirmed id db :
      page_step db (RoomsPage.handleDelete fails confirmed id db).1
  | page_DeleteGuest fails confirmed id db :
      page_step db (GuestsPage.handleDelete fails confirmed id db).1.

(** The operations that create and check out bookings, started with any
    page state. *)
Inductive lifecycle_step : Db.t → Db.t → Prop :=
  | lifecycle_CreateBooking clk faults rooms formData db :
      lifecycle_step db (handleSubmit clk faults rooms formData db).1
  | lifecycle_CreateBooking_legacy clk faults rooms formData db :
      lifecycle_step db (Legacy.handleSubmit clk faults rooms formData db).1
  | lifecycle_CheckOut clk faults confirmed booking db :
      lifecycle_step db (handleCheckOut clk faults confirmed booking db).1.

(** Bookings that differ at most in [status], [actual_check_out] and
    [updated_at]. *)
Definition booking_frame (b b' : Db.booking) : Prop :=
  Db.b_guest_id b' = Db.b_guest_id b ∧
  Db.b_room_id b' = Db.b_room_id b ∧
  Db.b_check_in_date b' = Db.b_check_in_date b ∧
  Db.b_check_out_date b' = Db.b_check_out_date b ∧
  Db.b_total_price b' = Db.b_total_price b ∧
  Db.b_notes b' = Db.b_notes b ∧
  Db.b_created_by b' = Db.b_created_by b ∧
  Db.b_created_at b' = Db.b_created_at b.

(** The shape of a store after an insert into [bookings] followed, or not, by
    a status update of one room. *)
Definition grown_from (db db' : Db.t) : Prop :=
  Db.guests db' = Db.guests db ∧
  (∀ i b, Db.bookings db !! i = Some b → Db.bookings db' !! i = Some b) ∧
  (∀ i r, Db.rooms db !! i = Some r →
     ∃ r', Db.rooms db' !! i = Some r' ∧ room_frame r r' ∧
           (Db.r_status r ≠ Db.available → Db.r_status r' ≠ Db.available)).

(** ** Further runs of the small hotel *)

Module Tour.

(** The form as [resetForm] leaves it, filled for guest 1 and room 101 with
    the dates of the first stay; the times of day are the defaults. *)
Definition default_stay : Form.t :=
  {| Form.guest_id := Some 1%positive;
     Form.room_id := Some 1%positive;
     Form.check_in_date := ymd 2024 6 1;
     Form.check_in_time := Form.check_in_time resetForm;
     Form.check_out_date := ymd 2024 6 3;
     Form.check_out_time := Form.check_out_time resetForm;
     Form.notes := Form.notes resetForm |}.

(** The page's list after the first stay was created. *)
Definition listed : list Booking.t := [Example.listed_1].

(** 2024-06-01, 09:00 UTC, in a browser three hours behind and in one at
    UTC. *)
Definition clk_june_1_west : Clock :=
  {| now := Example.noon 2024 6 1 - 3 * 60 * msPerMinute;
     utc_offset := - (3 * 60 * msPerMinute);
     db_now := Example.noon 2024 6 1 - 3 * 60 * msPerMinute |}.

Definition clk_june_1 : Clock :=
  {| now := Example.noon 2024 6 1 - 3 * 60 * msPerMinute;
     utc_offset := 0;
     db_now := Example.noon 2024 6 1 - 3 * 60 * msPerMinute |}.

(** The page's list after the first stay was checked out on the 3rd. *)
Definition listed_checked_out : list Booking.t :=
  [ {| Booking.id := 1; Booking.guest_id := 1; Booking.room_id := 1;
       Booking.check_in_date :=
         days_from_civil 2024 6 1 * msPerDay + 14 * 60 * msPerMinute;
       Booking.check_out_date := Example.noon 2024 6 3;
       Booking.actual_check_out := Some (now Example.clk_3rd);
       Booking.total_price := 40000;
       Booking.status := Db.checked_out;
       Booking.notes := None |} ].

(** A row of a page that lists a booking, number 9, the store does not
    have. *)
Definition listed_gone : Booking.t :=
  {| Booking.id := 9; Booking.guest_id := 2; Booking.room_id := 1;
     Booking.check_in_date := Example.noon 2024 5 1;
     Booking.check_out_date := Example.noon 2024 5 3;
     Booking.actual_check_out := None;
     Booking.total_price := 40000;
     Booking.status := Db.active;
     Booking.notes := None |}.

(** The store after the default stay was created from a freshly loaded
    page. *)
Definition hotel_default : Db.t :=
  (handleSubmit Example.clk no_faults (loadRooms Example.hotel) default_stay
     Example.hotel).1.

(** A second stay in room 101 at the default times, 2024-06-04 to
    2024-06-06, submitted from a page loaded before the first stay was
    created (it lists room 101 as available still). *)
Definition later_stay : Form.t :=
  Example.form 2 (ymd 2024 6 4) (Form.check_in_time resetForm)
    (ymd 2024 6 6) (Form.check_out_time resetForm).

Definition hotel_two_stays : Db.t :=
  (handleSubmit Example.clk no_faults Example.rooms later_stay hotel_default).1.

(** The small hotel with a second room, "102", and a stay of guest 2 there
    over the dates of the default stay. *)
Definition room102 : Db.room :=
  {| Db.r_room_number := "102"; Db.r_room_type := "Standard";
     Db.r_description := None; Db.r_capacity := 2;
     Db.r_price_per_night := 25000; Db.r_status := Db.available;
     Db.r_floor := Some 1; Db.r_amenities := None;
     Db.r_created_at := Some 0; Db.r_updated_at := Some 0 |}.

Definition two_rooms : Db.t :=
  {| Db.guests := Db.guests Example.hotel;
     Db.rooms := <[2%positive := room102]> (Db.rooms Example.hotel);
     Db.bookings := ∅ |}.

Definition stay_102 : Form.t :=
  {| Form.guest_id := Some 2%positive;
     Form.room_id := Some 2%positive;
     Form.check_in_date := ymd 2024 6 1;
     Form.check_in_time := HHMM 9 0;
     Form.check_out_date := ymd 2024 6 3;
     Form.check_out_time := HHMM 18 0;
     Form.notes := "" |}.

Definition two_rooms_1 : Db.t :=
  (handleSubmit Example.clk no_faults (loadRooms two_rooms) default_stay two_rooms).1.

Definition two_rooms_2 : Db.t :=
  (handleSubmit Example.clk no_faults (loadRooms two_rooms_1) stay_102 two_rooms_1).1.

End Tour.

(** * Properties *)

(** ** Arithmetic of nights *)

Lemma msPerDay_pos : 0 < msPerDay.
Proof. reflexivity. Qed.

(** [Math_ceil_div a b] is the least integer [n] with [a <= n * b]. *)
Lemma Math_ceil_div_bounds (a b : Z) :
  0 < b → (Math_ceil_div a b - 1) * b < a <= Math_ceil_div a b * b.
Proof.
  intros Hb. unfold Math_ceil_div.
  pose proof (Z.div_mod (- a) b ltac:(lia)) as Hdm.
  pose proof (Z.mod_pos_bound (- a) b Hb) as Hm.
  nia.
Qed.

Lemma Math_ceil_div_pos (a b : Z) : 0 < b → 0 < a → 1 <= Math_ceil_div a b.
Proof.
  intros Hb Ha. pose proof (Math_ceil_div_bounds a b Hb) as [_ Hle]. nia.
Qed.

Lemma Math_ceil_div_exact (n b : Z) : 0 < b → Math_ceil_div (n * b) b = n.
Proof.
  intros Hb. unfold Math_ceil_div.
  replace (- (n * b)) with ((- n) * b) by lia.
  rewrite Z.div_mul by lia. lia.
Qed.

(** ** The page's room list *)

Lemma find_room_Some rooms roomId room :
  find_room rooms roomId = Some room → room ∈ rooms ∧ Room.id room = roomId.
Proof.
  unfold find_room. intros H. apply List.find_some in H as [Hin Hid].
  split; [by apply list_elem_of_In | by apply bool_decide_eq_true in Hid].
Qed.

Lemma find_room_None rooms roomId :
  find_room rooms roomId = None ↔ ∀ room, room ∈ rooms → Room.id room ≠ roomId.
Proof.
  unfold find_room. split.
  - intros H room Hin Hid.
    apply list_elem_of_In in Hin.
    pose proof (List.find_none _ _ H room Hin) as Hb. simpl in Hb.
    by apply bool_decide_eq_false in Hb.
  - intros H. destruct (List.find _ rooms) as [room|] eqn:Hf; [|done].
    apply List.find_some in Hf as [Hin Hid].
    apply bool_decide_eq_true in Hid. apply list_elem_of_In in Hin.
    by destruct (H room Hin).
Qed.

Lemma getTime_is_Some clk s : s ≠ Blank → is_Some (getTime clk s).
Proof. destruct s; [done | eauto | eauto]. Qed.

Lemma calculateTotalPrice_eq clk rooms roomId checkIn checkOut room in_ms out_ms :
  find_room rooms roomId = Some room →
  getTime clk checkIn = Some in_ms → getTime clk checkOut = Some out_ms →
  calculateTotalPrice clk rooms roomId checkIn checkOut =
  Math_ceil_div (out_ms - in_ms) msPerDay * Room.price_per_night room.
Proof.
  intros Hroom Hin Hout. unfold calculateTotalPrice. rewrite Hroom.
  destruct checkIn, checkOut; simplify_eq/=; done.
Qed.

(** C8.  [calculateTotalPrice] returns nights times the nightly price of the
    room found in the page's room list, where nights is the ceiling of the
    time between the two dates in days (the least number of whole days that
    covers it); it returns 0 when no room of the list has the id or when
    either date is the empty string; room 101 at 200.00 a night from
    2024-06-01 to 2024-06-03 costs 400.00. *)
Theorem calculateTotalPrice_spec clk rooms roomId checkIn checkOut :
  (∀ room in_ms out_ms,
     find_room rooms roomId = Some room →
     getTime clk checkIn = Some in_ms → getTime clk checkOut = Some out_ms →
     ∃ nights,
       calculateTotalPrice clk rooms roomId checkIn checkOut
         = nights * Room.price_per_night room ∧
       (nights - 1) * msPerDay < out_ms - in_ms <= nights * msPerDay) ∧
  ((∀ room, room ∈ rooms → Room.id room ≠ roomId) ∨
   checkIn = Blank ∨ checkOut = Blank →
     calculateTotalPrice clk rooms roomId checkIn checkOut = 0) ∧
  calculateTotalPrice clk Example.rooms 1 (ymd 2024 6 1) (ymd 2024 6 3) = 40000.
Proof.
  split; [|split].
  - intros room in_ms out_ms Hroom Hin Hout.
    exists (Math_ceil_div (out_ms - in_ms) msPerDay). split.
    + by apply calculateTotalPrice_eq.
    + apply Math_ceil_div_bounds, msPerDay_pos.
  - intros [Hroom | [-> | ->]]; unfold calculateTotalPrice.
    + apply find_room_None in Hroom. by rewrite Hroom.
    + by destruct (find_room rooms roomId).
    + by destruct (find_room rooms roomId), checkIn.
  - reflexivity.
Qed.

Lemma calculateTotalPrice_spec_witness :
  find_room Example.rooms 1 = Some (room_of_row 1 Example.room101) ∧
  ∃ nights,
    calculateTotalPrice Example.clk Example.rooms 1
      (ISODate 10) (ISODateTime 11 6 30) = nights * 20000 ∧
    (nights - 1) * msPerDay < 11 * msPerDay + 390 * msPerMinute - 10 * msPerDay
      <= nights * msPerDay.
Proof.
  split; [reflexivity|].
  exact (proj1 (calculateTotalPrice_spec Example.clk Example.rooms 1
                  (ISODate 10) (ISODateTime 11 6 30))
           (room_of_row 1 Example.room101) (10 * msPerDay)
           (11 * msPerDay + 390 * msPerMinute)
           eq_refl eq_refl eq_refl).
Defined.

(** ** The availability checker *)

Lemma select_blocking_spec db roomId checkIn checkOut lo hi :
  Db.timestamptz_in checkIn = Some lo → Db.timestamptz_in checkOut = Some hi →
  ∃ data, Db.select_blocking db roomId checkIn checkOut = Some data ∧
    ∀ id, id ∈ data ↔
      ∃ existing, Db.bookings db !! id = Some existing ∧
                  Db.blocks roomId lo hi existing.
Proof.
  intros Hlo Hhi. unfold Db.select_blocking. rewrite Hlo, Hhi.
  eexists. split; [done|]. intros id.
  rewrite list_elem_of_fmap. split.
  - intros [[id' b] [-> Hin]]. apply list_elem_of_filter in Hin as [Hb Hin].
    apply elem_of_map_to_list in Hin. eauto.
  - intros (b & Hb & Hblocks). exists (id, b). split; [done|].
    apply list_elem_of_filter. split; [done|]. by apply elem_of_map_to_list.
Qed.

Lemma checkRoomAvailability_false faults db roomId checkIn checkOut lo hi :
  select_fails faults = false →
  Db.timestamptz_in checkIn = Some lo → Db.timestamptz_in checkOut = Some hi →
  (checkRoomAvailability faults db roomId checkIn checkOut).1 = false ↔
  ∃ id existing, Db.bookings db !! id = Some existing ∧
                 Db.blocks roomId lo hi existing.
Proof.
  intros Hf Hlo Hhi. unfold checkRoomAvailability. rewrite Hf.
  destruct (select_blocking_spec db roomId _ _ _ _ Hlo Hhi) as (data & -> & Hdata).
  simpl. rewrite bool_decide_eq_false. split.
  - intros Hlen. destruct data as [|id data]; [done|].
    exists id. apply Hdata. left.
  - intros (id & existing & Hb & Hblocks) Hlen.
    assert (id ∈ data) as Hin by (apply Hdata; eauto).
    destruct data; [by apply elem_of_nil in Hin | done].
Qed.

(** C4.  When the store answers the availability query, the checker returns
    false exactly when some booking of the room with status active satisfies
    [check_in_date <= checkOut] and [check_out_date >= checkIn], and true
    when there is none; bookings that are checked out or cancelled never
    make a room unavailable. *)
Theorem checkRoomAvailability_spec faults db roomId checkIn checkOut lo hi :
  select_fails faults = false →
  Db.timestamptz_in checkIn = Some lo → Db.timestamptz_in checkOut = Some hi →
  let isAvailable := (checkRoomAvailability faults db roomId checkIn checkOut).1 in
  (isAvailable = false ↔
     ∃ id existing,
       Db.bookings db !! id = Some existing ∧
       Db.b_room_id existing = roomId ∧ Db.b_status existing = Db.active ∧
       Db.b_check_in_date existing <= hi ∧ Db.b_check_out_date existing >= lo) ∧
  (isAvailable = true ↔
     ¬ ∃ id existing,
       Db.bookings db !! id = Some existing ∧
       Db.b_room_id existing = roomId ∧ Db.b_status existing = Db.active ∧
       Db.b_check_in_date existing <= hi ∧ Db.b_check_out_date existing >= lo) ∧
  ((∀ id existing,
      Db.bookings db !! id = Some existing → Db.b_room_id existing = roomId →
      Db.b_status existing = Db.checked_out ∨ Db.b_status existing = Db.cancelled) →
   isAvailable = true).
Proof.
  intros Hf Hlo Hhi isAvailable.
  pose proof (checkRoomAvailability_false faults db roomId _ _ _ _ Hf Hlo Hhi) as Hspec.
  fold isAvailable in Hspec. unfold Db.blocks in Hspec.
  split; [exact Hspec|]. split.
  - rewrite <- Hspec. by destruct isAvailable.
  - intros Hdone. apply not_false_iff_true. intros Hav.
    apply Hspec in Hav as (id & existing & Hb & Hroom & Hactive & _).
    destruct (Hdone id existing Hb Hroom) as [Hs | Hs]; congruence.
Qed.

(** ** Case analysis of [handleSubmit] *)

(** Membership of a message in an explicit list of messages. *)
Ltac not_shown :=
  let H := fresh "Hin" in
  intros H;
  repeat (apply elem_of_cons in H as [H|H]; [discriminate H|]);
  by apply elem_of_nil in H.

Lemma bookingSchema_parse_inr f v :
  bookingSchema_parse f = inr v →
  Form.guest_id f = Some (Validated.guest_id v) ∧
  Form.room_id f = Some (Validated.room_id v) ∧
  Validated.check_in_date v = Form.check_in_date f ∧
  Validated.check_out_date v = Form.check_out_date f ∧
  Validated.check_in_time v = Form.check_in_time f ∧
  Validated.check_out_time v = Form.check_out_time f ∧
  Form.check_in_date f ≠ Blank ∧ Form.check_out_date f ≠ Blank ∧
  time_regex (Form.check_in_time f) = true ∧
  time_regex (Form.check_out_time f) = true.
Proof.
  unfold bookingSchema_parse. intros H.
  destruct (Form.guest_id f) as [guest|]; [|done].
  destruct (Form.room_id f) as [room|]; [|done].
  destruct (min_1 (Form.check_in_date f)) eqn:Hci; [|done].
  destruct (time_regex (Form.check_in_time f)) eqn:Hti; [|done].
  destruct (min_1 (Form.check_out_date f)) eqn:Hco; [|done].
  destruct (time_regex (Form.check_out_time f)) eqn:Hto; [|done].
  simpl in H. case_bool_decide; [|done]. simplify_eq/=.
  repeat split; try done.
  - by destruct (Form.check_in_date f).
  - by destruct (Form.check_out_date f).
Qed.

Lemma validateDates_shown clk checkIn checkOut :
  toast_created ∉ (validateDates clk checkIn checkOut).2.
Proof.
  unfold validateDates.
  destruct (js_lt _ _); [not_shown|]. destruct (js_le _ _); not_shown.
Qed.

Lemma validateDates_true clk checkIn checkOut :
  (validateDates clk checkIn checkOut).1 = true →
  js_lt (getTime clk checkIn) (Some (today_midnight clk)) = false ∧
  js_le (getTime clk checkOut) (getTime clk checkIn) = false.
Proof.
  unfold validateDates.
  destruct (js_lt _ _); [done|]. by destruct (js_le _ _).
Qed.

Lemma checkRoomAvailability_logged faults db roomId checkIn checkOut :
  toast_created ∉ (checkRoomAvailability faults db roomId checkIn checkOut).2.
Proof.
  unfold checkRoomAvailability.
  destruct (if select_fails faults then _ else _); not_shown.
Qed.

(** Either nothing is written and no success is shown, or the booking is
    inserted, the room update is sent, and success is shown. *)
Lemma handleSubmit_cases clk faults rooms formData db :
  let r := handleSubmit clk faults rooms formData db in
  (r.1 = db ∧ toast_created ∉ r.2) ∨
  (∃ v db1,
     bookingSchema_parse formData = inr v ∧
     (validateDates clk (Validated.check_in_date v) (Validated.check_out_date v)).1 = true ∧
     (checkRoomAvailability faults db (Validated.room_id v)
        (Validated.check_in_date v) (Validated.check_out_date v)).1 = true ∧
     insert_fails faults = false ∧
     Db.insert_booking clk (bookingData clk rooms v) db = Some db1 ∧
     r.1 = (if room_update_fails faults then db1
            else Db.update_room_status clk (Validated.room_id v) Db.occupied db1) ∧
     r.2 = [toast_created]).
Proof.
  unfold handleSubmit.
  destruct (bookingSchema_parse formData) as [issue|v] eqn:Hparse.
  { left. split; [done | not_shown]. }
  pose proof (validateDates_shown clk (Validated.check_in_date v)
                (Validated.check_out_date v)) as Hshown.
  destruct (validateDates _ _ _) as [valid shown] eqn:Hvd. destruct valid; simpl.
  2: { left. done. }
  pose proof (checkRoomAvailability_logged faults db (Validated.room_id v)
                (Validated.check_in_date v) (Validated.check_out_date v)) as Hlog.
  destruct (checkRoomAvailability _ _ _ _ _) as [isAvailable logged] eqn:Hcra.
  destruct isAvailable; simpl.
  2: { left. split; [done|]. simpl in Hlog. intros Hin.
       apply elem_of_app in Hin as [Hin|Hin]; [done | by revert Hin; not_shown]. }
  destruct (insert_fails faults) eqn:Hins.
  { left. split; [done | not_shown]. }
  destruct (Db.insert_booking _ _ _) as [db1|] eqn:Hdb1.
  2: { left. split; [done | not_shown]. }
  right. exists v, db1. rewrite Hvd, Hcra. repeat (split; [done|]). done.
Qed.

Lemma insert_booking_Some clk d db db1 :
  Db.insert_booking clk d db = Some db1 →
  ∃ ci co,
    Db.timestamptz_in (Db.i_check_in_date d) = Some ci ∧
    Db.timestamptz_in (Db.i_check_out_date d) = Some co ∧
    is_Some (Db.guests db !! Db.i_guest_id d) ∧
    is_Some (Db.rooms db !! Db.i_room_id d) ∧
    co > ci ∧ Db.numeric_10_2 (Db.i_total_price d) ∧
    Db.bookings db !! Db.gen_random_uuid db = None ∧
    Db.guests db1 = Db.guests db ∧ Db.rooms db1 = Db.rooms db ∧
    Db.bookings db1 =
      <[Db.gen_random_uuid db :=
          {| Db.b_guest_id := Db.i_guest_id d;
             Db.b_room_id := Db.i_room_id d;
             Db.b_check_in_date := ci;
             Db.b_check_out_date := co;
             Db.b_actual_check_out := None;
             Db.b_total_price := Db.i_total_price d;
             Db.b_status := Db.i_status d;
             Db.b_notes := Db.i_notes d;
             Db.b_created_by := None;
             Db.b_created_at := Some (db_now clk);
             Db.b_updated_at := Some (db_now clk) |}]> (Db.bookings db).
Proof.
  unfold Db.insert_booking. intros H.
  destruct (Db.timestamptz_in (Db.i_check_in_date d)) as [ci|]; [|done].
  destruct (Db.timestamptz_in (Db.i_check_out_date d)) as [co|]; [|done].
  case_bool_decide as Hok; [|done]. simplify_eq/=.
  destruct Hok as (Hg & Hr & Hlt & Hnum).
  exists ci, co. split_and!; try done.
  apply not_elem_of_dom. unfold Db.gen_random_uuid. apply is_fresh.
Qed.

Lemma checkRoomAvailability_spec_witness :
  (checkRoomAvailability no_faults Example.hotel_1 1 (ymd 2024 6 2) (ymd 2024 6 4)).1
    = false ∧
  (checkRoomAvailability no_faults Example.hotel_1 1 (ymd 2024 6 4) (ymd 2024 6 6)).1
    = true.
Proof.
  split.
  - destruct (checkRoomAvailability_spec no_faults Example.hotel_1 1
                (ymd 2024 6 2) (ymd 2024 6 4) _ _ eq_refl eq_refl eq_refl)
      as (Hfalse & _ & _).
    apply Hfalse. eexists 1%positive, _. split; [reflexivity|].
    vm_compute. intuition congruence.
  - destruct (checkRoomAvailability_spec no_faults Example.hotel_1 1
                (ymd 2024 6 4) (ymd 2024 6 6) _ _ eq_refl eq_refl eq_refl)
      as (_ & Htrue & _).
    apply Htrue. intros (id & existing & Hb & _ & _ & _ & Hout).
    apply elem_of_map_to_list in Hb.
    set (listed := map_to_list (Db.bookings Example.hotel_1)) in Hb.
    vm_compute in listed. subst listed.
    apply list_elem_of_singleton in Hb. simplify_eq.
    vm_compute in Hout. by apply Hout.
Defined.

(** ** Conflicts and failed availability reads *)

Lemma checkRoomAvailability_blocked faults db roomId checkIn checkOut lo hi id existing :
  Db.timestamptz_in checkIn = Some lo → Db.timestamptz_in checkOut = Some hi →
  Db.bookings db !! id = Some existing → Db.blocks roomId lo hi existing →
  (checkRoomAvailability faults db roomId checkIn checkOut).1 = false.
Proof.
  intros Hlo Hhi Hb Hblocks. destruct (select_fails faults) eqn:Hf.
  - unfold checkRoomAvailability. by rewrite Hf.
  - apply (checkRoomAvailability_false faults db roomId _ _ lo hi); eauto.
Qed.

Lemma checkRoomAvailability_down faults db roomId checkIn checkOut :
  select_fails faults = true →
  checkRoomAvailability faults db roomId checkIn checkOut
    = (false, [console_availability_error]).
Proof. intros Hf. unfold checkRoomAvailability. by rewrite Hf. Qed.

(** When the availability check answers false, nothing is written and the
    page shows that the room is reserved. *)
Lemma handleSubmit_unavailable clk faults rooms formData db v :
  bookingSchema_parse formData = inr v →
  (validateDates clk (Validated.check_in_date v) (Validated.check_out_date v)).1 = true →
  (checkRoomAvailability faults db (Validated.room_id v)
     (Validated.check_in_date v) (Validated.check_out_date v)).1 = false →
  handleSubmit clk faults rooms formData db =
    (db, (checkRoomAvailability faults db (Validated.room_id v)
            (Validated.check_in_date v) (Validated.check_out_date v)).2
         ++ [toast_room_reserved]).
Proof.
  intros Hparse Hvalid Hav. unfold handleSubmit. rewrite Hparse.
  destruct (validateDates _ _ _) as [valid shown]. simpl in Hvalid. subst valid.
  destruct (checkRoomAvailability _ _ _ _ _) as [isAvailable logged].
  simpl in Hav. by subst isAvailable.
Qed.

(** X27.  A request for a room that has an active booking which the
    checker's test finds overlapping the requested dates, each read as its
    midnight, writes nothing and is not reported as created; when the
    request passes validation it is answered by the conflict message (room
    already reserved for the period). *)
Theorem handleSubmit_conflict clk faults rooms formData db roomId lo hi id existing :
  Form.room_id formData = Some roomId →
  Db.timestamptz_in (Form.check_in_date formData) = Some lo →
  Db.timestamptz_in (Form.check_out_date formData) = Some hi →
  Db.bookings db !! id = Some existing →
  Db.b_room_id existing = roomId → Db.b_status existing = Db.active →
  Db.b_check_in_date existing <= hi → Db.b_check_out_date existing >= lo →
  let r := handleSubmit clk faults rooms formData db in
  r.1 = db ∧ (toast_created ∉ r.2) ∧
  (∀ v, bookingSchema_parse formData = inr v →
        (validateDates clk (Validated.check_in_date v)
           (Validated.check_out_date v)).1 = true →
        (toast_room_reserved ∈ r.2) ∧
        (select_fails faults = false → r.2 = [toast_room_reserved])).
Proof.
  intros Hroom Hlo Hhi Hb Hrid Hact Hin Hout r.
  assert (∀ v, bookingSchema_parse formData = inr v →
            (checkRoomAvailability faults db (Validated.room_id v)
               (Validated.check_in_date v) (Validated.check_out_date v)).1 = false)
    as Hblocked.
  { intros v Hparse.
    apply bookingSchema_parse_inr in Hparse as (_ & Hr & Hci & Hco & _).
    rewrite Hci, Hco.
    apply (checkRoomAvailability_blocked _ _ _ _ _ lo hi id existing); try done.
    rewrite Hroom in Hr. by simplify_eq. }
  split_and!.
  - destruct (handleSubmit_cases clk faults rooms formData db)
      as [[Hdb _] | (v & db1 & Hparse & _ & Hav & _)]; [done|].
    rewrite (Hblocked v Hparse) in Hav. done.
  - destruct (handleSubmit_cases clk faults rooms formData db)
      as [[_ Hno] | (v & db1 & Hparse & _ & Hav & _)]; [done|].
    rewrite (Hblocked v Hparse) in Hav. done.
  - intros v Hparse Hvalid. subst r.
    rewrite (handleSubmit_unavailable _ _ _ _ _ v Hparse Hvalid (Hblocked v Hparse)).
    simpl. split.
    + apply elem_of_app. right. left.
    + intros Hf. unfold checkRoomAvailability. rewrite Hf.
      destruct (Db.select_blocking _ _ _ _) eqn:Hsel; [done|].
      apply bookingSchema_parse_inr in Hparse as (_ & _ & Hci & Hco & _).
      unfold Db.select_blocking in Hsel. rewrite Hci, Hco, Hlo, Hhi in Hsel. done.
Qed.

Lemma handleSubmit_conflict_witness :
  handleSubmit Example.clk no_faults Example.rooms Example.stay_2 Example.hotel_1
    = (Example.hotel_1, [toast_room_reserved]).
Proof.
  pose proof (handleSubmit_conflict Example.clk no_faults Example.rooms
                Example.stay_2 Example.hotel_1 1%positive _ _ 1%positive _
                eq_refl eq_refl eq_refl eq_refl eq_refl eq_refl
                ltac:(vm_compute; congruence) ltac:(vm_compute; congruence))
    as (Hdb & _ & Hmsg).
  destruct (Hmsg _ eq_refl eq_refl) as [_ Hshown].
  rewrite (surjective_pairing (handleSubmit _ _ _ _ _)).
  by rewrite Hdb, (Hshown eq_refl).
Defined.

(** C3 fails on the code.  The interval a request asks for is the one
    [handleSubmit] stores, the dates with their times of day; the checker is
    handed the dates alone and reads them as midnight.  Room 101 holds the
    active stay A, which arrives on 2024-06-12 at 08:00.  The request for
    stay B, leaving on 2024-06-12 at 12:00, overlaps A under the checker's
    test, yet it is found available, announced as created, and written. *)
Theorem conflicting_request_created :
  ∃ existing lo hi,
    Db.bookings Example.hotel_A !! 1%positive = Some existing ∧
    Some (Db.b_room_id existing) = Form.room_id Example.stay_B ∧
    Db.b_status existing = Db.active ∧
    Db.timestamptz_in
      (date_T_time (Form.check_in_date Example.stay_B)
         (Form.check_in_time Example.stay_B)) = Some lo ∧
    Db.timestamptz_in
      (date_T_time (Form.check_out_date Example.stay_B)
         (Form.check_out_time Example.stay_B)) = Some hi ∧
    Db.b_check_in_date existing <= hi ∧ Db.b_check_out_date existing >= lo ∧
    (handleSubmit Example.clk no_faults Example.rooms Example.stay_B Example.hotel_A).2
      = [toast_created] ∧
    (toast_room_reserved ∉
       (handleSubmit Example.clk no_faults Example.rooms Example.stay_B
          Example.hotel_A).2) ∧
    size (Db.bookings Example.hotel_A) = 1%nat ∧
    size (Db.bookings
            (handleSubmit Example.clk no_faults Example.rooms Example.stay_B
               Example.hotel_A).1) = 2%nat ∧
    (∃ new,
       Db.bookings
         (handleSubmit Example.clk no_faults Example.rooms Example.stay_B
            Example.hotel_A).1 !! 2%positive = Some new ∧
       Db.b_status new = Db.active ∧ Db.b_room_id new = Db.b_room_id existing ∧
       Db.b_check_in_date new = lo ∧ Db.b_check_out_date new = hi).
Proof.
  eexists _, _, _. split; [reflexivity|].
  split_and!; try reflexivity.
  - by vm_compute.
  - by vm_compute.
  - intros Hin. by vm_compute in Hin; apply list_elem_of_singleton in Hin.
  - eexists. split; [reflexivity|]. by vm_compute.
Qed.

(** C7 as stated fails: with the store down and the room free, the checker
    hands its caller the very value it returns for a room that is taken, and
    the user is shown the same message. *)
Lemma availability_failure_conflated :
  Db.bookings Example.hotel = ∅ ∧
  (checkRoomAvailability Example.select_down Example.hotel 1
     (ymd 2024 6 2) (ymd 2024 6 4)).1 = false ∧
  (checkRoomAvailability no_faults Example.hotel_1 1
     (ymd 2024 6 2) (ymd 2024 6 4)).1 = false ∧
  toasts (handleSubmit Example.clk Example.select_down Example.rooms
            Example.stay_2 Example.hotel).2 = [toast_room_reserved] ∧
  toasts (handleSubmit Example.clk no_faults Example.rooms
            Example.stay_2 Example.hotel_1).2 = [toast_room_reserved].
Proof. vm_compute. done. Qed.

(** C7, amended.  When the availability read fails, the checker logs the
    error to the console and returns false, the value it also returns for an
    unavailable room; [handleSubmit] then writes nothing, reports no
    creation, and (the input being valid) shows the message of a reserved
    room: a failed read is never taken for "available". *)
Theorem availability_read_failure clk faults rooms formData db :
  select_fails faults = true →
  (∀ roomId checkIn checkOut,
     checkRoomAvailability faults db roomId checkIn checkOut
       = (false, [console_availability_error])) ∧
  let r := handleSubmit clk faults rooms formData db in
  r.1 = db ∧ (toast_created ∉ r.2) ∧
  (∀ v, bookingSchema_parse formData = inr v →
        (validateDates clk (Validated.check_in_date v)
           (Validated.check_out_date v)).1 = true →
        r.2 = [console_availability_error; toast_room_reserved]).
Proof.
  intros Hf. split.
  { intros. by apply checkRoomAvailability_down. }
  intros r. split_and!.
  - destruct (handleSubmit_cases clk faults rooms formData db)
      as [[Hdb _] | (v & db1 & _ & _ & Hav & _)]; [done|].
    by rewrite checkRoomAvailability_down in Hav.
  - destruct (handleSubmit_cases clk faults rooms formData db)
      as [[_ Hno] | (v & db1 & _ & _ & Hav & _)]; [done|].
    by rewrite checkRoomAvailability_down in Hav.
  - intros v Hparse Hvalid. subst r.
    rewrite (handleSubmit_unavailable _ _ _ _ _ v Hparse Hvalid).
    + by rewrite checkRoomAvailability_down.
    + by rewrite checkRoomAvailability_down.
Qed.

Lemma availability_read_failure_witness :
  handleSubmit Example.clk Example.select_down Example.rooms
    Example.stay_1 Example.hotel
  = (Example.hotel, [console_availability_error; toast_room_reserved]).
Proof.
  destruct (availability_read_failure Example.clk Example.select_down
              Example.rooms Example.stay_1 Example.hotel eq_refl)
    as (_ & Hdb & _ & Hmsg).
  rewrite (surjective_pairing (handleSubmit _ _ _ _ _)).
  by rewrite Hdb, (Hmsg _ eq_refl eq_refl).
Defined.

(** ** What a successful submission writes *)

Lemma update_room_status_bookings clk id s db :
  Db.bookings (Db.update_room_status clk id s db) = Db.bookings db.
Proof. done. Qed.

Lemma update_room_status_guests clk id s db :
  Db.guests (Db.update_room_status clk id s db) = Db.guests db.
Proof. done. Qed.

(** The row a successful [handleSubmit] adds, and the store it leaves. *)
Lemma handleSubmit_created clk faults rooms formData db :
  let r := handleSubmit clk faults rooms formData db in
  toast_created ∈ r.2 →
  ∃ v ci co,
    bookingSchema_parse formData = inr v ∧
    (validateDates clk (Validated.check_in_date v) (Validated.check_out_date v)).1 = true ∧
    (checkRoomAvailability faults db (Validated.room_id v)
       (Validated.check_in_date v) (Validated.check_out_date v)).1 = true ∧
    Db.timestamptz_in (date_T_time (Validated.check_in_date v)
                         (Validated.check_in_time v)) = Some ci ∧
    Db.timestamptz_in (date_T_time (Validated.check_out_date v)
                         (Validated.check_out_time v)) = Some co ∧
    is_Some (Db.guests db !! Validated.guest_id v) ∧
    is_Some (Db.rooms db !! Validated.room_id v) ∧
    Db.bookings db !! Db.gen_random_uuid db = None ∧
    r.2 = [toast_created] ∧
    Db.guests r.1 = Db.guests db ∧
    Db.rooms r.1 =
      (if room_update_fails faults then Db.rooms db
       else alter (Db.set_room_status clk Db.occupied) (Validated.room_id v)
              (Db.rooms db)) ∧
    Db.bookings r.1 =
      <[Db.gen_random_uuid db :=
          {| Db.b_guest_id := Validated.guest_id v;
             Db.b_room_id := Validated.room_id v;
             Db.b_check_in_date := ci;
             Db.b_check_out_date := co;
             Db.b_actual_check_out := None;
             Db.b_total_price :=
               calculateTotalPrice clk rooms (Validated.room_id v)
                 (Validated.check_in_date v) (Validated.check_out_date v);
             Db.b_status := Db.active;
             Db.b_notes := notes_or_null (Validated.notes v);
             Db.b_created_by := None;
             Db.b_created_at := Some (db_now clk);
             Db.b_updated_at := Some (db_now clk) |}]> (Db.bookings db).
Proof.
  intros r Hin.
  destruct (handleSubmit_cases clk faults rooms formData db)
    as [[_ Hno] | (v & db1 & Hparse & Hvalid & Hav & _ & Hins & Hdb & Hmsg)];
    [done|].
  apply insert_booking_Some in Hins
    as (ci & co & Hci & Hco & Hg & Hr & _ & _ & Hfresh & Hgs & Hrs & Hbs).
  cbn [bookingData Db.i_guest_id Db.i_room_id Db.i_check_in_date
       Db.i_check_out_date Db.i_notes Db.i_total_price Db.i_status] in *.
  exists v, ci, co. fold r in Hdb, Hmsg. rewrite Hdb.
  split_and!; try done;
    destruct (room_update_fails faults); simpl; by rewrite ?Hgs, ?Hrs, ?Hbs.
Qed.

Lemma calculateTotalPrice_nonneg clk rooms roomId checkIn checkOut :
  (validateDates clk checkIn checkOut).1 = true →
  (∀ room, room ∈ rooms → Room.id room = roomId → 0 <= Room.price_per_night room) →
  0 <= calculateTotalPrice clk rooms roomId checkIn checkOut.
Proof.
  intros Hvalid Hprice. apply validateDates_true in Hvalid as [_ Hle].
  unfold calculateTotalPrice.
  destruct (find_room rooms roomId) as [room|] eqn:Hroom; [|done].
  apply find_room_Some in Hroom as [Hin Hid].
  specialize (Hprice room Hin Hid).
  destruct checkIn, checkOut; simpl in *; try done;
    apply bool_decide_eq_false in Hle;
    match goal with
    | |- 0 <= Math_ceil_div ?a _ * _ =>
        pose proof (Math_ceil_div_pos a msPerDay msPerDay_pos ltac:(lia)); nia
    end.
Qed.

Lemma Math_ceil_div_nonneg (a b : Z) : 0 < b → - b < a → 0 <= Math_ceil_div a b.
Proof.
  intros Hb Ha. pose proof (Math_ceil_div_bounds a b Hb) as [_ Hle]. nia.
Qed.

(** A price computed for dates the store accepts as an interval is not
    negative either, whatever the page checked. *)
Lemma calculateTotalPrice_nonneg_stored clk rooms roomId checkIn checkOut ci co :
  - msPerDay < utc_offset clk < msPerDay →
  Db.timestamptz_in checkIn = Some ci → Db.timestamptz_in checkOut = Some co →
  co > ci →
  (∀ room, room ∈ rooms → Room.id room = roomId → 0 <= Room.price_per_night room) →
  0 <= calculateTotalPrice clk rooms roomId checkIn checkOut.
Proof.
  intros Hoff Hci Hco Hlt Hprice. unfold calculateTotalPrice.
  destruct (find_room rooms roomId) as [room|] eqn:Hroom; [|done].
  apply find_room_Some in Hroom as [Hin Hid].
  specialize (Hprice room Hin Hid).
  destruct checkIn, checkOut; simplify_eq/=;
    match goal with
    | |- 0 <= Math_ceil_div ?a _ * _ =>
        pose proof (Math_ceil_div_nonneg a msPerDay msPerDay_pos ltac:(lia)); nia
    end.
Qed.

Lemma Legacy_handleSubmit_total_price clk faults rooms formData db id row :
  - msPerDay < utc_offset clk < msPerDay →
  (∀ room, room ∈ rooms → Some (Room.id room) = Legacy.room_id formData →
           0 <= Room.price_per_night room) →
  Db.bookings db !! id = None →
  Db.bookings (Legacy.handleSubmit clk faults rooms formData db).1 !! id = Some row →
  0 <= Db.b_total_price row ∧
  ∃ roomId, Legacy.room_id formData = Some roomId ∧
    Db.b_total_price row =
      calculateTotalPrice clk rooms roomId
        (Legacy.check_in_date formData) (Legacy.check_out_date formData).
Proof.
  intros Hoff Hprice Hold Hnew. unfold Legacy.handleSubmit in Hnew.
  destruct (insert_fails faults); [simpl in Hnew; congruence|].
  destruct (Legacy.guest_id formData) as [guest|]; [|simpl in Hnew; congruence].
  destruct (Legacy.room_id formData) as [roomId|] eqn:Hrid;
    [|simpl in Hnew; congruence].
  destruct (Db.insert_booking _ _ _) as [db1|] eqn:Hins;
    [|simpl in Hnew; congruence].
  apply insert_booking_Some in Hins
    as (ci & co & Hci & Hco & _ & _ & Hlt & _ & _ & _ & _ & Hbs).
  simpl in Hci, Hco, Hbs.
  assert (Db.bookings db1 !! id = Some row) as Hrow.
  { by destruct (room_update_fails faults). }
  rewrite Hbs in Hrow.
  apply lookup_insert_Some in Hrow as [[_ <-] | [_ Hrow]]; [|congruence].
  simpl. split; [|eauto].
  apply (calculateTotalPrice_nonneg_stored _ _ _ _ _ ci co); try done.
  intros room Hin Hid. apply Hprice; [done | by rewrite Hid].
Qed.

(** C9.  A booking row that [handleSubmit] adds to the store carries the price
    computed by [calculateTotalPrice] from the submitted room and dates, and
    this price is not negative when the nightly price of the selected room,
    as the page lists it, is not negative.  The same holds of the earlier
    revision of [handleSubmit], which sends the form unchecked: the store
    refuses an interval that is not positive. *)
Theorem handleSubmit_total_price clk faults rooms db id row :
  Db.bookings db !! id = None →
  (∀ formData,
     (∀ room, room ∈ rooms → Some (Room.id room) = Form.room_id formData →
              0 <= Room.price_per_night room) →
     Db.bookings (handleSubmit clk faults rooms formData db).1 !! id = Some row →
     0 <= Db.b_total_price row ∧
     ∃ v, bookingSchema_parse formData = inr v ∧
          Db.b_total_price row =
            calculateTotalPrice clk rooms (Validated.room_id v)
              (Validated.check_in_date v) (Validated.check_out_date v)) ∧
  (∀ formData,
     - msPerDay < utc_offset clk < msPerDay →
     (∀ room, room ∈ rooms → Some (Room.id room) = Legacy.room_id formData →
              0 <= Room.price_per_night room) →
     Db.bookings (Legacy.handleSubmit clk faults rooms formData db).1 !! id = Some row →
     0 <= Db.b_total_price row ∧
     ∃ roomId, Legacy.room_id formData = Some roomId ∧
       Db.b_total_price row =
         calculateTotalPrice clk rooms roomId
           (Legacy.check_in_date formData) (Legacy.check_out_date formData)).
Proof.
  intros Hold. split.
  - intros formData Hprice Hnew.
    destruct (handleSubmit_cases clk faults rooms formData db)
      as [[Hdb _] | (v & db1 & Hparse & _ & _ & _ & _ & _ & Hmsg)].
    { rewrite Hdb in Hnew. congruence. }
    destruct (handleSubmit_created clk faults rooms formData db)
      as (v' & ci & co & Hparse' & Hvalid & _ & _ & _ & _ & _ & _ & _ & _ & _ & Hbs).
    { rewrite Hmsg. left. }
    rewrite Hbs in Hnew.
    apply lookup_insert_Some in Hnew as [[_ <-] | [_ Hnew]]; [|congruence].
    simpl. split; [|eauto].
    apply calculateTotalPrice_nonneg; [done|].
    intros room Hin Hid. apply Hprice; [done|].
    apply bookingSchema_parse_inr in Hparse' as (_ & -> & _). by rewrite Hid.
  - intros formData Hoff Hprice Hnew.
    by apply (Legacy_handleSubmit_total_price clk faults rooms formData db id).
Qed.

Lemma handleSubmit_total_price_witness :
  ∃ row, Db.bookings Example.hotel_1 !! 1%positive = Some row ∧
         Db.b_total_price row = 40000 ∧ 0 <= Db.b_total_price row.
Proof.
  eexists. split; [reflexivity|]. split; [reflexivity|].
  refine (proj1 (proj1 (handleSubmit_total_price Example.clk no_faults
                   Example.rooms Example.hotel 1%positive _ eq_refl)
                   Example.stay_1 _ eq_refl)).
  intros room Hin _. apply list_elem_of_singleton in Hin. by subst room.
Defined.

(** C10 as stated fails: the update of the selected room also moves its
    [updated_at] column (trigger [update_rooms_updated_at]). *)
Lemma room_updated_at_changes :
  (handleSubmit Example.clk no_faults Example.rooms Example.stay_1 Example.hotel).2
    = [toast_created] ∧
  Db.r_updated_at <$> Db.rooms Example.hotel !! 1%positive = Some (Some 0) ∧
  Db.r_updated_at <$> Db.rooms Example.hotel_1 !! 1%positive
    = Some (Some 1716206400000).
Proof. vm_compute. done. Qed.

Lemma set_room_status_frame clk s room :
  room_frame room (Db.set_room_status clk s room).
Proof. by repeat split. Qed.

Lemma room_frame_refl room : room_frame room room.
Proof. by repeat split. Qed.

(** C10, amended.  A successful [handleSubmit] adds exactly one row to
    [bookings] and leaves every row that was there as it was; it leaves
    [guests] as it was, and every room other than the selected one; of the
    selected room it changes no column other than [status] and
    [updated_at]. *)
Theorem handleSubmit_frame clk faults rooms formData db :
  let r := handleSubmit clk faults rooms formData db in
  toast_created ∈ r.2 →
  ∃ roomId id row,
    Form.room_id formData = Some roomId ∧
    Db.bookings db !! id = None ∧
    Db.bookings r.1 = <[id := row]> (Db.bookings db) ∧
    size (Db.bookings r.1) = S (size (Db.bookings db)) ∧
    (∀ i b, Db.bookings db !! i = Some b → Db.bookings r.1 !! i = Some b) ∧
    Db.guests r.1 = Db.guests db ∧
    (∀ i, i ≠ roomId → Db.rooms r.1 !! i = Db.rooms db !! i) ∧
    (∃ room room',
       Db.rooms db !! roomId = Some room ∧ Db.rooms r.1 !! roomId = Some room' ∧
       room_frame room room').
Proof.
  intros r Hin.
  destruct (handleSubmit_created clk faults rooms formData db Hin)
    as (v & ci & co & Hparse & _ & _ & _ & _ & _ & [room Hroom] & Hfresh & _
        & Hgs & Hrs & Hbs).
  fold r in Hgs, Hrs, Hbs.
  apply bookingSchema_parse_inr in Hparse as (_ & Hrid & _).
  eexists (Validated.room_id v), (Db.gen_random_uuid db), _.
  split_and!; try done.
  - rewrite Hbs. by apply map_size_insert_None.
  - intros i b Hb. rewrite Hbs. rewrite lookup_insert_ne; [done|]. congruence.
  - intros i Hne. rewrite Hrs. destruct (room_update_fails faults); [done|].
    by rewrite lookup_alter_ne.
  - rewrite Hrs. destruct (room_update_fails faults).
    + exists room, room. split_and!; [done | done | apply room_frame_refl].
    + exists room, (Db.set_room_status clk Db.occupied room). split_and!.
      * done.
      * by rewrite lookup_alter_eq, Hroom.
      * apply set_room_status_frame.
Qed.

Lemma handleSubmit_frame_witness :
  Db.guests Example.hotel_1 = Db.guests Example.hotel ∧
  size (Db.bookings Example.hotel_1) = 1%nat.
Proof.
  destruct (handleSubmit_frame Example.clk no_faults Example.rooms
              Example.stay_1 Example.hotel)
    as (roomId & id & row & _ & _ & _ & Hsize & _ & Hgs & _).
  { vm_compute. left. }
  split; [exact Hgs | exact Hsize].
Defined.

(** ** Check-out *)

Lemma handleCheckOut_done clk faults booking db :
  booking_update_fails faults = false →
  handleCheckOut clk faults true booking db =
    (let db1 := Db.update_booking_checked_out clk (Booking.id booking) (now clk) db in
     if room_update_fails faults then db1
     else Db.update_room_status clk (Booking.room_id booking) Db.cleaning db1,
     [toast_checked_out]).
Proof. intros Hf. unfold handleCheckOut. by rewrite Hf. Qed.

Lemma handleCheckOut_bookings clk faults confirmed booking db :
  Db.bookings (handleCheckOut clk faults confirmed booking db).1 = Db.bookings db ∨
  Db.bookings (handleCheckOut clk faults confirmed booking db).1 =
    alter (Db.set_checked_out clk (now clk)) (Booking.id booking) (Db.bookings db).
Proof.
  unfold handleCheckOut. destruct confirmed; [|by left].
  destruct (booking_update_fails faults); [by left|].
  right. by destruct (room_update_fails faults).
Qed.

(** C5.  Checking out a booking whose row is active marks the row checked
    out, stamps [actual_check_out] with the current time, and then sets the
    status of the booking's room to cleaning (not to available). *)
Theorem handleCheckOut_active clk faults booking db row room :
  booking_update_fails faults = false → room_update_fails faults = false →
  Db.bookings db !! Booking.id booking = Some row →
  Db.b_status row = Db.active →
  Booking.room_id booking = Db.b_room_id row →
  Db.rooms db !! Db.b_room_id row = Some room →
  let r := handleCheckOut clk faults true booking db in
  r.2 = [toast_checked_out] ∧
  r.1 = Db.update_room_status clk (Db.b_room_id row) Db.cleaning
          (Db.update_booking_checked_out clk (Booking.id booking) (now clk) db) ∧
  (∃ row', Db.bookings r.1 !! Booking.id booking = Some row' ∧
           Db.b_status row' = Db.checked_out ∧
           Db.b_actual_check_out row' = Some (now clk)) ∧
  (∃ room', Db.rooms r.1 !! Db.b_room_id row = Some room' ∧
            Db.r_status room' = Db.cleaning ∧
            Db.r_status room' ≠ Db.available).
Proof.
  intros Hfb Hfr Hrow Hactive Hrid Hroom r. subst r.
  rewrite (handleCheckOut_done _ _ _ _ Hfb), Hfr, Hrid. simpl.
  split_and!; try done.
  - exists (Db.set_checked_out clk (now clk) row).
    by rewrite lookup_alter_eq, Hrow.
  - exists (Db.set_room_status clk Db.cleaning room).
    by rewrite lookup_alter_eq, Hroom.
Qed.

Lemma handleCheckOut_active_witness :
  Example.checked_out_once.2 = [toast_checked_out] ∧
  (∃ room', Db.rooms Example.checked_out_once.1 !! 1%positive = Some room' ∧
            Db.r_status room' = Db.cleaning ∧ Db.r_status room' ≠ Db.available).
Proof.
  destruct (handleCheckOut_active Example.clk_3rd no_faults Example.listed_1
              Example.hotel_1 _ _ eq_refl eq_refl eq_refl eq_refl eq_refl eq_refl)
    as (Hmsg & _ & _ & Hroom).
  split; [exact Hmsg | exact Hroom].
Defined.

Lemma listed_1_loaded :
  booking_of_row 1 <$> Db.bookings Example.hotel_1 !! 1%positive
    = Some Example.listed_1.
Proof. reflexivity. Qed.

(** C6 as stated fails: from a page that still lists the booking as active,
    a second check-out is carried out like the first.  It reports success,
    not an error, and writes [actual_check_out] again. *)
Lemma second_check_out_succeeds :
  check_out_button Example.listed_1 = true ∧
  Example.checked_out_once.2 = [toast_checked_out] ∧
  Example.checked_out_twice.2 = [toast_checked_out] ∧
  Db.b_actual_check_out <$> Db.bookings Example.checked_out_once.1 !! 1%positive
    = Some (Some (now Example.clk_3rd)) ∧
  Db.b_actual_check_out <$> Db.bookings Example.checked_out_twice.1 !! 1%positive
    = Some (Some (now Example.clk_5th)) ∧
  now Example.clk_3rd ≠ now Example.clk_5th.
Proof. vm_compute. by split_and!. Qed.

Lemma set_checked_out_twice clk1 clk2 t1 t2 row :
  Db.set_checked_out clk2 t2 (Db.set_checked_out clk1 t1 row)
    = Db.set_checked_out clk2 t2 row.
Proof. done. Qed.

Lemma handleSubmit_keeps_active_not_checked_out clk faults rooms formData db :
  active_not_checked_out db →
  active_not_checked_out (handleSubmit clk faults rooms formData db).1.
Proof.
  intros Hinv.
  destruct (handleSubmit_cases clk faults rooms formData db)
    as [[-> _] | (v & db1 & _ & _ & _ & _ & _ & _ & Hmsg)]; [done|].
  destruct (handleSubmit_created clk faults rooms formData db)
    as (v' & ci & co & _ & _ & _ & _ & _ & _ & _ & _ & _ & _ & _ & Hbs).
  { rewrite Hmsg. left. }
  intros i b Hb Hactive. rewrite Hbs in Hb.
  apply lookup_insert_Some in Hb as [[_ <-] | [_ Hb]]; [done|].
  by apply (Hinv i).
Qed.

Lemma handleCheckOut_keeps_active_not_checked_out clk faults confirmed booking db :
  active_not_checked_out db →
  active_not_checked_out (handleCheckOut clk faults confirmed booking db).1.
Proof.
  intros Hinv i b Hb Hactive.
  destruct (handleCheckOut_bookings clk faults confirmed booking db) as [Hbs | Hbs];
    rewrite Hbs in Hb.
  - by apply (Hinv i).
  - apply lookup_alter_Some in Hb as [(_ & b0 & _ & ->) | [_ Hb]].
    + done.
    + by apply (Hinv i).
Qed.

Lemma step_keeps_active_not_checked_out db db' :
  step db db' → active_not_checked_out db → active_not_checked_out db'.
Proof.
  destruct 1 as [clk faults rooms formData db _ | clk faults confirmed booking db _].
  - apply handleSubmit_keeps_active_not_checked_out.
  - apply handleCheckOut_keeps_active_not_checked_out.
Qed.

(** C6, amended.  The check-out button is shown only on rows listed as
    active, and [handleCheckOut] itself does not look at the status: called
    twice on the same booking it succeeds both times, and the second call
    overwrites [actual_check_out] with its own time.  Every operation keeps
    [actual_check_out] null on the rows whose status is active. *)
Theorem handleCheckOut_twice clk1 clk2 faults booking db row :
  booking_update_fails faults = false →
  Db.bookings db !! Booking.id booking = Some row →
  let first := handleCheckOut clk1 faults true booking db in
  let second := handleCheckOut clk2 faults true booking first.1 in
  first.2 = [toast_checked_out] ∧
  second.2 = [toast_checked_out] ∧
  Db.bookings first.1 !! Booking.id booking
    = Some (Db.set_checked_out clk1 (now clk1) row) ∧
  Db.bookings second.1 !! Booking.id booking
    = Some (Db.set_checked_out clk2 (now clk2) row) ∧
  (∀ b, check_out_button b = true ↔ Booking.status b = Db.active) ∧
  (∀ db0 db1, step db0 db1 →
              active_not_checked_out db0 → active_not_checked_out db1).
Proof.
  intros Hf Hrow first second.
  assert (Db.bookings first.1 !! Booking.id booking
            = Some (Db.set_checked_out clk1 (now clk1) row)) as Hfirst.
  { subst first. rewrite (handleCheckOut_done _ _ _ _ Hf).
    destruct (room_update_fails faults); simpl; by rewrite lookup_alter_eq, Hrow. }
  split_and!.
  - subst first. by rewrite (handleCheckOut_done _ _ _ _ Hf).
  - subst second. by rewrite (handleCheckOut_done _ _ _ _ Hf).
  - done.
  - subst second. rewrite (handleCheckOut_done _ _ _ _ Hf).
    destruct (room_update_fails faults); simpl;
      by rewrite lookup_alter_eq, Hfirst.
  - intros b. unfold check_out_button. apply bool_decide_eq_true.
  - apply step_keeps_active_not_checked_out.
Qed.

Lemma handleCheckOut_twice_witness :
  Example.checked_out_twice.2 = [toast_checked_out] ∧
  Db.b_actual_check_out <$> Db.bookings Example.checked_out_twice.1 !! 1%positive
    = Some (Some (now Example.clk_5th)).
Proof.
  destruct (handleCheckOut_twice Example.clk_3rd Example.clk_5th no_faults
              Example.listed_1 Example.hotel_1 _ eq_refl eq_refl)
    as (_ & Hmsg & _ & Hrow & _).
  split; [exact Hmsg|].
  change (Booking.id Example.listed_1) with 1%positive in Hrow.
  unfold Example.checked_out_twice, Example.checked_out_once. by rewrite Hrow.
Defined.

(** ** Double booking *)

(** Every form of the example selects room 101, which the page lists as
    available. *)
Lemma Example_room_offered guest from at_in to at_out :
  room_offered Example.rooms (Example.form guest from at_in to at_out).
Proof.
  intros id Hid. simpl in Hid. simplify_eq.
  exists (room_of_row 1 Example.room101). split; [|done].
  apply list_elem_of_filter. split; [done | left].
Qed.

(** C1 fails on the code.  The checker compares stored timestamps with the
    requested dates at midnight, while [handleSubmit] stores the dates with
    their times of day.  Stay A (arrival 2024-06-12 at 08:00) is booked
    first; stay B (departure 2024-06-12 at 12:00) is then found available,
    because A starts after midnight of the 12th.  Both are active on room
    101 and overlap under the checker's own test. *)
Theorem double_booking_reachable :
  no_active_bookings Example.hotel ∧
  rtc step Example.hotel Example.hotel_AB ∧
  (∃ A B,
     Db.bookings Example.hotel_AB !! 1%positive = Some A ∧
     Db.bookings Example.hotel_AB !! 2%positive = Some B ∧
     Db.b_status A = Db.active ∧ Db.b_status B = Db.active ∧
     Db.b_room_id A = Db.b_room_id B ∧ overlap A B) ∧
  ¬ no_double_booking Example.hotel_AB.
Proof.
  assert (∃ A B,
     Db.bookings Example.hotel_AB !! 1%positive = Some A ∧
     Db.bookings Example.hotel_AB !! 2%positive = Some B ∧
     Db.b_status A = Db.active ∧ Db.b_status B = Db.active ∧
     Db.b_room_id A = Db.b_room_id B ∧ overlap A B) as Hpair.
  { eexists _, _. split; [reflexivity|]. split; [reflexivity|].
    vm_compute. split_and!; congruence. }
  split_and!.
  - intros i b Hb. cbn [Example.hotel Db.bookings] in Hb.
    by rewrite lookup_empty in Hb.
  - eapply rtc_l; [apply (step_CreateBooking Example.clk no_faults
                            Example.rooms Example.stay_A), Example_room_offered|].
    eapply rtc_l; [apply (step_CreateBooking Example.clk no_faults
                            Example.rooms Example.stay_B), Example_room_offered|].
    apply rtc_refl.
  - exact Hpair.
  - intros Hinv. destruct Hpair as (A & B & HA & HB & HsA & HsB & Hroom & Hov).
    by apply (Hinv 1%positive 2%positive A B).
Qed.

(** ** Creating a booking *)

(** What [validateDates] accepts, in calendar days: east of Greenwich (and
    on it) a check-in from today on; west of it a check-in from tomorrow
    on, because the check-in date is read as midnight UTC and compared with
    local midnight. *)
Lemma validateDates_east clk d_in d_out :
  0 <= utc_offset clk < msPerDay →
  (validateDates clk (ISODate d_in) (ISODate d_out)).1 = true ↔
  (now clk + utc_offset clk) / msPerDay <= d_in ∧ d_in < d_out.
Proof.
  intros Hoff. unfold validateDates, today_midnight. simpl.
  set (today := (now clk + utc_offset clk) / msPerDay).
  change msPerDay with 86400000 in *.
  repeat case_bool_decide; simpl; split; try done; lia.
Qed.

Lemma validateDates_west clk d_in d_out :
  - msPerDay < utc_offset clk < 0 →
  (validateDates clk (ISODate d_in) (ISODate d_out)).1 = true ↔
  (now clk + utc_offset clk) / msPerDay < d_in ∧ d_in < d_out.
Proof.
  intros Hoff. unfold validateDates, today_midnight. simpl.
  set (today := (now clk + utc_offset clk) / msPerDay).
  change msPerDay with 86400000 in *.
  repeat case_bool_decide; simpl; split; try done; lia.
Qed.

Lemma time_regex_true t :
  time_regex t = true →
  ∃ h m, t = HHMM h m ∧ 0 <= (h * 60 + m) * msPerMinute < msPerDay.
Proof.
  destruct t as [|h m]; [done|]. simpl. intros H.
  apply bool_decide_eq_true in H. exists h, m. split; [done|].
  change msPerMinute with 60000. change msPerDay with 86400000. lia.
Qed.

(** X6.  A request that passes the schema and [validateDates], for a room
    none of whose bookings the checker's filter finds, with guest and room
    in the store, a total within [DECIMAL(10,2)] and the store answering,
    is carried out: one active booking with no actual check-out and the
    computed price is added, the room becomes occupied, success is shown. *)
Lemma handleSubmit_creates clk faults rooms formData db v d_in d_out room :
  bookingSchema_parse formData = inr v →
  Validated.check_in_date v = ISODate d_in →
  Validated.check_out_date v = ISODate d_out →
  (validateDates clk (ISODate d_in) (ISODate d_out)).1 = true →
  select_fails faults = false → insert_fails faults = false →
  room_update_fails faults = false →
  (∀ id existing, Db.bookings db !! id = Some existing →
     ¬ Db.blocks (Validated.room_id v) (d_in * msPerDay) (d_out * msPerDay) existing) →
  is_Some (Db.guests db !! Validated.guest_id v) →
  Db.rooms db !! Validated.room_id v = Some room →
  Db.numeric_10_2
    (calculateTotalPrice clk rooms (Validated.room_id v) (ISODate d_in) (ISODate d_out)) →
  let r := handleSubmit clk faults rooms formData db in
  r.2 = [toast_created] ∧
  Db.guests r.1 = Db.guests db ∧
  Db.rooms r.1 = <[Validated.room_id v := Db.set_room_status clk Db.occupied room]>
                   (Db.rooms db) ∧
  ∃ id row,
    Db.bookings db !! id = None ∧
    Db.bookings r.1 = <[id := row]> (Db.bookings db) ∧
    Db.b_guest_id row = Validated.guest_id v ∧
    Db.b_room_id row = Validated.room_id v ∧
    Db.b_status row = Db.active ∧
    Db.b_actual_check_out row = None ∧
    Db.b_total_price row =
      calculateTotalPrice clk rooms (Validated.room_id v) (ISODate d_in) (ISODate d_out).
Proof.
  intros Hparse Hin Hout Hvalid Hfs Hfi Hfr Hfree Hguest Hroom Hnum r.
  pose proof (bookingSchema_parse_inr _ _ Hparse)
    as (_ & _ & _ & _ & Hti & Hto & _ & _ & Hri & Hro).
  rewrite <- Hti in Hri. rewrite <- Hto in Hro.
  apply time_regex_true in Hri as (hi & mi & Htin & Hrin).
  apply time_regex_true in Hro as (ho & mo & Htout & Hrout).
  assert ((checkRoomAvailability faults db (Validated.room_id v)
             (ISODate d_in) (ISODate d_out)).1 = true) as Hav.
  { apply not_false_iff_true. intros Hno.
    apply (checkRoomAvailability_false faults db _ (ISODate d_in) (ISODate d_out)
             (d_in * msPerDay) (d_out * msPerDay) Hfs eq_refl eq_refl) in Hno
      as (id & existing & Hb & Hblocks).
    by apply (Hfree id existing). }
  assert (d_in < d_out) as Hlt.
  { apply validateDates_true in Hvalid as [_ Hle]. simpl in Hle.
    apply bool_decide_eq_false in Hle. change msPerDay with 86400000 in Hle. lia. }
  subst r. unfold handleSubmit. rewrite Hparse, Hin, Hout.
  destruct (validateDates _ _ _) as [valid shown]. simpl in Hvalid. subst valid.
  destruct (checkRoomAvailability _ _ _ _ _) as [isAvailable logged].
  simpl in Hav. subst isAvailable. simpl. rewrite Hfi, Hfr.
  unfold Db.insert_booking, bookingData. simpl. rewrite Hin, Hout, Htin, Htout.
  simpl. rewrite bool_decide_eq_true_2.
  2: { split_and!; [done | by rewrite Hroom | | done].
       change msPerDay with 86400000 in *. lia. }
  simpl. split_and!; try done.
  - apply map_eq. intros i. rewrite lookup_alter, lookup_insert.
    case_decide; [subst i; by rewrite Hroom | done].
  - eexists (Db.gen_random_uuid db), _. split_and!; try done.
    apply not_elem_of_dom. unfold Db.gen_random_uuid. apply is_fresh.
Qed.

(** C2 fails on the code.  In a browser west of Greenwich a check-in on the
    current date, which the date field itself offers as its minimum
    ([getTodayMinDate]), is refused as being in the past, although guest and
    room exist, check-out is later than check-in and the room has no booking
    at all: nothing is created. *)
Theorem same_day_check_in_rejected :
  is_Some (Db.guests Example.hotel !! 1%positive) ∧
  is_Some (Db.rooms Example.hotel !! 1%positive) ∧
  Form.guest_id Example.stay_1 = Some 1%positive ∧
  Form.room_id Example.stay_1 = Some 1%positive ∧
  Form.check_in_date Example.stay_1 = getTodayMinDate Example.clk_west ∧
  Form.check_in_date Example.stay_1 = ymd 2024 6 1 ∧
  Form.check_out_date Example.stay_1 = ymd 2024 6 3 ∧
  Db.bookings Example.hotel = ∅ ∧
  handleSubmit Example.clk_west no_faults Example.rooms Example.stay_1 Example.hotel
    = (Example.hotel, [toast_check_in_past]) ∧
  handleSubmit Example.clk no_faults Example.rooms Example.stay_1 Example.hotel
    = (Example.hotel_1, [toast_created]).
Proof.
  split_and!; try by vm_compute.
  - by eexists.
  - by eexists.
Qed.

(** ** House times *)

(** When every stay arrives at one time of day and leaves at an earlier one
    (the form's defaults are 14:00 and 12:00), the dates the checker compares
    do separate the stored intervals, and no double booking arises: the
    double booking above needs an arrival at or before the departure time. *)

Lemma checkRoomAvailability_true faults db roomId checkIn checkOut :
  (checkRoomAvailability faults db roomId checkIn checkOut).1 = true →
  ∃ lo hi,
    Db.timestamptz_in checkIn = Some lo ∧ Db.timestamptz_in checkOut = Some hi ∧
    ∀ id existing, Db.bookings db !! id = Some existing →
                   ¬ Db.blocks roomId lo hi existing.
Proof.
  intros Hav. destruct (select_fails faults) eqn:Hf.
  { by rewrite checkRoomAvailability_down in Hav. }
  destruct (Db.timestamptz_in checkIn) as [lo|] eqn:Hlo; cycle 1.
  { unfold checkRoomAvailability, Db.select_blocking in Hav.
    rewrite Hf, Hlo in Hav. by destruct (Db.timestamptz_in checkOut). }
  destruct (Db.timestamptz_in checkOut) as [hi|] eqn:Hhi; cycle 1.
  { unfold checkRoomAvailability, Db.select_blocking in Hav.
    by rewrite Hf, Hhi in Hav. }
  exists lo, hi. split_and!; [done..|].
  intros id existing Hb Hblocks.
  assert ((checkRoomAvailability faults db roomId checkIn checkOut).1 = false)
    as Hno by (apply (checkRoomAvailability_false _ _ _ _ _ lo hi); eauto).
  congruence.
Qed.

Lemma date_T_time_Some date time ts :
  Db.timestamptz_in (date_T_time date time) = Some ts →
  ∃ d h m, date = ISODate d ∧ time = HHMM h m ∧
           ts = d * msPerDay + (h * 60 + m) * msPerMinute.
Proof.
  destruct date as [|d|d h' m'], time as [|h m]; simpl; try done.
  intros [= <-]. by exists d, h, m.
Qed.

Section HouseTimes.

Variables (h_in m_in h_out m_out : Z).

Let t_in : Z := (h_in * 60 + m_in) * msPerMinute.
Let t_out : Z := (h_out * 60 + m_out) * msPerMinute.

Hypothesis arrival_after_departure : t_out < t_in.

Lemma overlap_sym b1 b2 : overlap b1 b2 → overlap b2 b1.
Proof. unfold overlap. lia. Qed.

Lemma house_times_apart roomId d_in d_out existing new :
  0 <= t_in < msPerDay → 0 <= t_out →
  keeps_house_times t_in t_out existing →
  Db.b_room_id existing = roomId → Db.b_status existing = Db.active →
  ¬ Db.blocks roomId (d_in * msPerDay) (d_out * msPerDay) existing →
  Db.b_check_in_date new = d_in * msPerDay + t_in →
  Db.b_check_out_date new = d_out * msPerDay + t_out →
  ¬ overlap existing new.
Proof.
  intros Hin Hout (d1 & d2 & He1 & He2) Hroom Hact Hfree Hn1 Hn2 [Ho1 Ho2].
  apply Hfree. unfold Db.blocks. split_and!; [done | done | |];
    rewrite ?He1, ?He2, ?Hn1, ?Hn2 in *;
    change msPerDay with 86400000 in *; lia.
Qed.

Lemma handleSubmit_keeps_house_inv clk faults rooms formData db :
  Form.check_in_time formData = HHMM h_in m_in →
  Form.check_out_time formData = HHMM h_out m_out →
  house_inv t_in t_out db →
  house_inv t_in t_out (handleSubmit clk faults rooms formData db).1.
Proof.
  intros Htin Htout [Hnd Hht].
  destruct (handleSubmit_cases clk faults rooms formData db)
    as [[-> _] | (v0 & db1 & _ & _ & _ & _ & _ & _ & Hmsg)]; [done|].
  destruct (handleSubmit_created clk faults rooms formData db)
    as (v & ci & co & Hparse & _ & Hav & Hci & Hco & _ & _ & Hfresh & _ & _ & _ & Hbs).
  { rewrite Hmsg. left. }
  pose proof (bookingSchema_parse_inr _ _ Hparse)
    as (_ & _ & _ & _ & Hvti & Hvto & _ & _ & Hri & Hro).
  rewrite Htin in Hri, Hvti. rewrite Htout in Hro, Hvto.
  apply time_regex_true in Hri as (h1 & m1 & [= <- <-] & Hr1).
  apply time_regex_true in Hro as (h2 & m2 & [= <- <-] & Hr2).
  fold t_in in Hr1. fold t_out in Hr2.
  rewrite Hvti in Hci. rewrite Hvto in Hco.
  apply date_T_time_Some in Hci as (d_in & h1 & m1 & Hdin & [= <- <-] & ->).
  apply date_T_time_Some in Hco as (d_out & h2 & m2 & Hdout & [= <- <-] & ->).
  fold t_in in Hbs. fold t_out in Hbs.
  apply checkRoomAvailability_true in Hav as (lo & hi & Hlo & Hhi & Hfree).
  rewrite Hdin in Hlo. rewrite Hdout in Hhi. simpl in Hlo, Hhi. simplify_eq.
  set (new := Db.mkBooking _ _ _ _ _ _ _ _ _ _ _) in Hbs.
  assert (∀ i b, Db.bookings db !! i = Some b → Db.b_status b = Db.active →
                 Db.b_room_id b = Validated.room_id v → ¬ overlap b new) as Hapart.
  { intros i b Hb Hact Hroom.
    apply (house_times_apart (Validated.room_id v) d_in d_out); eauto; lia. }
  split.
  - intros i j b1 b2 Hij Hb1 Hb2 Ha1 Ha2 Hroom. rewrite Hbs in Hb1, Hb2.
    apply lookup_insert_Some in Hb1 as [[<- <-] | [Hi Hb1]];
      apply lookup_insert_Some in Hb2 as [[<- <-] | [Hj Hb2]].
    + done.
    + intros Hov. apply overlap_sym in Hov. by apply (Hapart j b2).
    + by apply (Hapart i b1).
    + by apply (Hnd i j).
  - intros i b Hb Hact. rewrite Hbs in Hb.
    apply lookup_insert_Some in Hb as [[_ <-] | [_ Hb]]; [|by apply (Hht i)].
    by exists d_in, d_out.
Qed.

Lemma handleCheckOut_keeps_house_inv clk faults confirmed booking db :
  house_inv t_in t_out db →
  house_inv t_in t_out (handleCheckOut clk faults confirmed booking db).1.
Proof.
  intros [Hnd Hht].
  destruct (handleCheckOut_bookings clk faults confirmed booking db) as [Hbs | Hbs].
  { split.
    - intros i j b1 b2. rewrite Hbs. apply Hnd.
    - intros i b. rewrite Hbs. apply Hht. }
  assert (∀ i b, Db.bookings (handleCheckOut clk faults confirmed booking db).1 !! i
                   = Some b → Db.b_status b = Db.active →
                 Db.bookings db !! i = Some b) as Hold.
  { intros i b Hb Hact. rewrite Hbs in Hb.
    by apply lookup_alter_Some in Hb as [(_ & b0 & _ & ->) | [_ Hb]]. }
  split.
  - intros i j b1 b2 Hij Hb1 Hb2 Ha1 Ha2. apply (Hnd i j); auto.
  - intros i b Hb Hact. apply (Hht i); auto.
Qed.

Lemma house_step_keeps_house_inv db db' :
  house_step h_in m_in h_out m_out db db' →
  house_inv t_in t_out db → house_inv t_in t_out db'.
Proof.
  destruct 1 as [clk faults rooms formData db Hti Hto
                | clk faults confirmed booking db].
  - by apply handleSubmit_keeps_house_inv.
  - by apply handleCheckOut_keeps_house_inv.
Qed.

(** X13.  From a store without active bookings, submissions whose forms all
    carry one arrival time and one earlier departure time (such as the
    14:00 and 12:00 [resetForm] puts in the form), mixed with check-outs,
    never produce a double booking. *)
Lemma house_times_no_double_booking db0 db :
  no_active_bookings db0 →
  rtc (house_step h_in m_in h_out m_out) db0 db → no_double_booking db.
Proof.
  intros Hnone Hrun.
  assert (house_inv t_in t_out db0) as Hinv.
  { split.
    - intros i j b1 b2 _ Hb1 _ Ha1. by destruct (Hnone i b1 Hb1).
    - intros i b Hb Ha. by destruct (Hnone i b Hb). }
  clear Hnone. induction Hrun as [db | db0 db1 db2 Hstep _ IH].
  - by destruct Hinv.
  - apply IH. by apply (house_step_keeps_house_inv db0).
Qed.

End HouseTimes.

(** ** Fresh pages *)

(** The form offers a room only while the store has it as available.  As long
    as every form is filled on a freshly loaded page and the room updates go
    through, a room with an active booking is never offered, and no double
    booking arises whatever the times of day: the double booking above needs
    a page that lists room 101 as available after stay A has occupied it. *)

Lemma loadRooms_offered db formData id :
  room_offered (loadRooms db) formData → Form.room_id formData = Some id →
  ∃ r, Db.rooms db !! id = Some r ∧ Db.r_status r = Db.available.
Proof.
  intros Hoff Hid. destruct (Hoff id Hid) as (room & Hin & <-).
  apply list_elem_of_filter in Hin as [Hav Hin].
  apply list_elem_of_fmap in Hin as ([i r] & -> & Hin).
  apply elem_of_map_to_list in Hin. by exists r.
Qed.

Lemma handleSubmit_keeps_fresh_inv clk faults formData db :
  room_update_fails faults = false →
  room_offered (loadRooms db) formData →
  fresh_inv db →
  fresh_inv (handleSubmit clk faults (loadRooms db) formData db).1.
Proof.
  intros Hfr Hoff [Hnd Hocc].
  destruct (handleSubmit_cases clk faults (loadRooms db) formData db)
    as [[-> _] | (v0 & db1 & _ & _ & _ & _ & _ & _ & Hmsg)]; [done|].
  destruct (handleSubmit_created clk faults (loadRooms db) formData db)
    as (v & ci & co & Hparse & _ & _ & _ & _ & _ & _ & _ & _ & _ & Hrs & Hbs).
  { rewrite Hmsg. left. }
  rewrite Hfr in Hrs.
  apply bookingSchema_parse_inr in Hparse as (_ & Hrid & _).
  destruct (loadRooms_offered db formData _ Hoff Hrid) as (r0 & Hr0 & Hav0).
  assert (∀ i b, Db.bookings db !! i = Some b → Db.b_status b = Db.active →
                 Db.b_room_id b ≠ Validated.room_id v) as Hfree.
  { intros i b Hb Hact Hroom. rewrite <- Hroom in Hr0.
    by destruct (Hocc i b r0). }
  split.
  - intros i j b1 b2 Hb1 Hb2 Ha1 Ha2 Hroom. rewrite Hbs in Hb1, Hb2.
    apply lookup_insert_Some in Hb1 as [[Hi Heq1] | [Hi Hb1]];
      apply lookup_insert_Some in Hb2 as [[Hj Heq2] | [Hj Hb2]].
    + congruence.
    + subst b1. simpl in Hroom. by destruct (Hfree j b2).
    + subst b2. simpl in Hroom. by destruct (Hfree i b1).
    + by apply (Hnd i j b1 b2).
  - intros i b r Hb Hact Hr. rewrite Hbs in Hb. rewrite Hrs in Hr.
    apply lookup_insert_Some in Hb as [[_ <-] | [_ Hb]].
    + simpl in Hr. rewrite lookup_alter_eq, Hr0 in Hr. by simplify_eq/=.
    + rewrite lookup_alter_ne in Hr by (by apply not_eq_sym, (Hfree i b)).
      by apply (Hocc i b r).
Qed.

Lemma handleCheckOut_keeps_fresh_inv clk faults confirmed booking db :
  fresh_inv db → fresh_inv (handleCheckOut clk faults confirmed booking db).1.
Proof.
  intros [Hnd Hocc].
  assert (∀ i b, Db.bookings (handleCheckOut clk faults confirmed booking db).1 !! i
                   = Some b → Db.b_status b = Db.active →
                 Db.bookings db !! i = Some b) as Hold.
  { intros i b Hb Hact.
    destruct (handleCheckOut_bookings clk faults confirmed booking db) as [Hbs | Hbs];
      rewrite Hbs in Hb; [done|].
    by apply lookup_alter_Some in Hb as [(_ & b0 & _ & ->) | [_ Hb]]. }
  split.
  - intros i j b1 b2 Hb1 Hb2 Ha1 Ha2. apply (Hnd i j); auto.
  - intros i b r Hb Hact Hr. specialize (Hold i b Hb Hact).
    unfold handleCheckOut in Hr.
    destruct confirmed; simpl in Hr; [|by apply (Hocc i b r)].
    destruct (booking_update_fails faults); simpl in Hr; [by apply (Hocc i b r)|].
    destruct (room_update_fails faults); simpl in Hr; [by apply (Hocc i b r)|].
    apply lookup_alter_Some in Hr as [(_ & r0 & _ & ->) | [_ Hr]]; [done|].
    by apply (Hocc i b r).
Qed.

(** X14.  From a store without active bookings, with every submission made
    from a page that has just loaded its room list and the room update
    reaching the store, mixed with check-outs, no room ever has two active
    bookings, whatever their dates and times of day, and no room with an
    active booking is available; in particular there is no double
    booking. *)
Theorem fresh_pages_no_double_booking db0 db :
  no_active_bookings db0 → rtc fresh_step db0 db →
  one_active_per_room db ∧ booked_rooms_unavailable db ∧ no_double_booking db.
Proof.
  intros Hnone Hrun.
  assert (fresh_inv db0) as Hinv.
  { split.
    - intros i j b1 b2 Hb1 _ Ha1. by destruct (Hnone i b1 Hb1).
    - intros i b r Hb Ha. by destruct (Hnone i b Hb). }
  clear Hnone.
  assert (fresh_inv db) as [Hone Hbooked].
  { induction Hrun as [db | db0 db1 db2 Hstep _ IH]; [done|].
    apply IH. destruct Hstep as [clk faults formData db0 Hfr Hoff
                                | clk faults confirmed booking db0].
    - by apply handleSubmit_keeps_fresh_inv.
    - by apply handleCheckOut_keeps_fresh_inv. }
  split_and!; [done | done |].
  intros i j b1 b2 Hij Hb1 Hb2 Ha1 Ha2 Hroom _.
  by apply Hij, (Hone i j b1 b2).
Qed.

(** * Further properties of the pages *)

(** ** Prices *)

Lemma Math_ceil_div_mono (a a' b : Z) :
  0 < b → a <= a' → Math_ceil_div a b <= Math_ceil_div a' b.
Proof.
  intros Hb Hle. unfold Math_ceil_div.
  pose proof (Z.div_le_mono (- a') (- a) b Hb ltac:(lia)). lia.
Qed.

(** X1.  For a room whose listed nightly price is not negative, a stay that
    lies within another one (it starts no earlier and ends no later) never
    costs more. *)
Theorem calculateTotalPrice_monotone clk rooms roomId
    checkIn checkOut checkIn' checkOut' in_ms out_ms in_ms' out_ms' :
  (∀ room, room ∈ rooms → Room.id room = roomId → 0 <= Room.price_per_night room) →
  getTime clk checkIn = Some in_ms → getTime clk checkOut = Some out_ms →
  getTime clk checkIn' = Some in_ms' → getTime clk checkOut' = Some out_ms' →
  in_ms <= in_ms' → out_ms' <= out_ms →
  calculateTotalPrice clk rooms roomId checkIn' checkOut'
    <= calculateTotalPrice clk rooms roomId checkIn checkOut.
Proof.
  intros Hprice Hin Hout Hin' Hout' Hle_in Hle_out.
  destruct (find_room rooms roomId) as [room|] eqn:Hroom.
  - rewrite (calculateTotalPrice_eq clk rooms roomId checkIn checkOut room in_ms out_ms),
      (calculateTotalPrice_eq clk rooms roomId checkIn' checkOut' room in_ms' out_ms')
      by done.
    apply find_room_Some in Hroom as [Hel Hid].
    specialize (Hprice room Hel Hid).
    pose proof (Math_ceil_div_mono (out_ms' - in_ms') (out_ms - in_ms) msPerDay
                  msPerDay_pos ltac:(lia)).
    nia.
  - unfold calculateTotalPrice. by rewrite Hroom.
Qed.

Lemma calculateTotalPrice_monotone_witness :
  calculateTotalPrice Example.clk Example.rooms 1 (ymd 2024 6 2) (ISODateTime 19877 9 0)
    <= calculateTotalPrice Example.clk Example.rooms 1 (ymd 2024 6 1) (ymd 2024 6 4).
Proof.
  eapply (calculateTotalPrice_monotone Example.clk Example.rooms 1
            (ymd 2024 6 1) (ymd 2024 6 4) (ymd 2024 6 2) (ISODateTime 19877 9 0)).
  - intros room Hin _. apply list_elem_of_singleton in Hin. by subst room.
  - reflexivity.
  - reflexivity.
  - reflexivity.
  - reflexivity.
  - by vm_compute.
  - by vm_compute.
Defined.

(** X2.  For dates with years of four digits, the total [handleSubmit]
    sends to the store is the number of calendar days between the two date
    fields times the listed nightly price: the times of day of the form and
    the browser's clock and time zone play no part in it, and nothing is
    rounded. *)
Theorem bookingData_total_price clk rooms v room d_in d_out :
  find_room rooms (Validated.room_id v) = Some room →
  Validated.check_in_date v = ISODate d_in →
  Validated.check_out_date v = ISODate d_out →
  four_digit_year d_in → four_digit_year d_out →
  Db.i_total_price (bookingData clk rooms v)
    = (d_out - d_in) * Room.price_per_night room.
Proof.
  intros Hroom Hin Hout _ _. unfold bookingData. simpl. rewrite Hin, Hout.
  rewrite (calculateTotalPrice_eq _ _ _ _ _ room (d_in * msPerDay) (d_out * msPerDay))
    by done.
  replace (d_out * msPerDay - d_in * msPerDay) with ((d_out - d_in) * msPerDay) by lia.
  by rewrite Math_ceil_div_exact by apply msPerDay_pos.
Qed.

Lemma bookingData_total_price_witness :
  Db.i_total_price
    (bookingData Example.clk_west Example.rooms
       (Validated.mk 1 1 (ISODate 10) (HHMM 23 59) (ISODate 13) (HHMM 0 1) ""))
  = 3 * 20000.
Proof.
  exact (bookingData_total_price Example.clk_west Example.rooms
           (Validated.mk 1 1 (ISODate 10) (HHMM 23 59) (ISODate 13) (HHMM 0 1) "")
           (room_of_row 1 Example.room101) 10 13 eq_refl eq_refl eq_refl
           ltac:(split; by vm_compute) ltac:(split; by vm_compute)).
Defined.

(** ** Dates *)

(** X3.  In calendar days, [validateDates] accepts a check-out date later
    than the check-in date together with a check-in date from today on when
    the browser is on or east of Greenwich, and from tomorrow on when it is
    west of it. *)
Theorem validateDates_calendar clk d_in d_out :
  - msPerDay < utc_offset clk < msPerDay →
  (validateDates clk (ISODate d_in) (ISODate d_out)).1 = true ↔
  ((0 <= utc_offset clk ∧ (now clk + utc_offset clk) / msPerDay <= d_in) ∨
   (utc_offset clk < 0 ∧ (now clk + utc_offset clk) / msPerDay < d_in)) ∧
  d_in < d_out.
Proof.
  intros Hoff. destruct (decide (0 <= utc_offset clk)) as [Heast | Hwest].
  - rewrite validateDates_east by lia. intuition lia.
  - rewrite validateDates_west by lia. intuition lia.
Qed.

Lemma validateDates_calendar_witness :
  (validateDates Example.clk_west (ymd 2024 6 2) (ymd 2024 6 3)).1 = true.
Proof.
  apply (proj2 (validateDates_calendar Example.clk_west
                  (days_from_civil 2024 6 2) (days_from_civil 2024 6 3)
                  ltac:(by vm_compute))).
  split; [right|]; by vm_compute.
Defined.

(** X4.  The minimum the check-in field offers, today's date, passes
    [validateDates] exactly when the browser is on or east of Greenwich (and
    the check-out date is later). *)
Theorem todays_date_validates clk d_out :
  - msPerDay < utc_offset clk < msPerDay →
  (validateDates clk (getTodayMinDate clk) (ISODate d_out)).1 = true ↔
  0 <= utc_offset clk ∧ (now clk + utc_offset clk) / msPerDay < d_out.
Proof.
  intros Hoff. unfold getTodayMinDate.
  destruct (decide (0 <= utc_offset clk)) as [Heast | Hwest].
  - rewrite validateDates_east by lia. intuition lia.
  - rewrite validateDates_west by lia. intuition lia.
Qed.

Lemma todays_date_validates_witness :
  (validateDates Tour.clk_june_1 (getTodayMinDate Tour.clk_june_1) (ymd 2024 6 3)).1
    = true ∧
  (validateDates Tour.clk_june_1_west (getTodayMinDate Tour.clk_june_1_west)
     (ymd 2024 6 3)).1 = false.
Proof.
  split.
  - apply (proj2 (todays_date_validates Tour.clk_june_1 (days_from_civil 2024 6 3)
                    ltac:(by vm_compute))).
    by vm_compute.
  - apply not_true_iff_false. intros Hvalid.
    apply (proj1 (todays_date_validates Tour.clk_june_1_west
                    (days_from_civil 2024 6 3) ltac:(by vm_compute))) in Hvalid
      as [Heast _].
    by vm_compute in Heast.
Defined.

(** ** Availability in calendar days *)

Lemma day_lt_iff (ts d : Z) : ts / msPerDay < d ↔ ts < d * msPerDay.
Proof.
  pose proof (Z.div_mod ts msPerDay ltac:(done)) as Hdm.
  pose proof (Z.mod_pos_bound ts msPerDay msPerDay_pos) as Hm.
  change msPerDay with 86400000 in *. lia.
Qed.

Lemma day_ge_iff (ts d : Z) : d <= ts / msPerDay ↔ ts >= d * msPerDay.
Proof.
  pose proof (Z.div_mod ts msPerDay ltac:(done)) as Hdm.
  pose proof (Z.mod_pos_bound ts msPerDay msPerDay_pos) as Hm.
  change msPerDay with 86400000 in *. lia.
Qed.

(** X5.  When the store answers, a room is unavailable for the dates
    [d_in] to [d_out] exactly when one of its active bookings ends on
    [d_in] or later and starts before [d_out] (or at midnight of [d_out]
    precisely).  The test is not symmetric: a stay that ends on the
    requested first day blocks the request, a stay that starts during the
    requested last day does not. *)
Theorem checkRoomAvailability_calendar faults db roomId d_in d_out :
  select_fails faults = false →
  (checkRoomAvailability faults db roomId (ISODate d_in) (ISODate d_out)).1 = false ↔
  ∃ id existing,
    Db.bookings db !! id = Some existing ∧
    Db.b_room_id existing = roomId ∧ Db.b_status existing = Db.active ∧
    (Db.b_check_in_date existing / msPerDay < d_out ∨
     Db.b_check_in_date existing = d_out * msPerDay) ∧
    d_in <= Db.b_check_out_date existing / msPerDay.
Proof.
  intros Hf.
  rewrite (checkRoomAvailability_false faults db roomId (ISODate d_in) (ISODate d_out)
             (d_in * msPerDay) (d_out * msPerDay) Hf eq_refl eq_refl).
  unfold Db.blocks.
  split; intros (id & existing & Hb & Hroom & Hact & Hci & Hco);
    exists id, existing; split_and!; try done.
  - destruct (decide (Db.b_check_in_date existing = d_out * msPerDay));
      [by right | left]. apply day_lt_iff. lia.
  - by apply day_ge_iff.
  - destruct Hci as [Hci | ->]; [apply day_lt_iff in Hci|]; lia.
  - by apply day_ge_iff.
Qed.

Lemma checkRoomAvailability_calendar_witness :
  (checkRoomAvailability no_faults Example.hotel_A 1 (ymd 2024 6 14) (ymd 2024 6 16)).1
    = false ∧
  (checkRoomAvailability no_faults Example.hotel_A 1 (ymd 2024 6 10) (ymd 2024 6 12)).1
    = true.
Proof.
  split.
  - apply (proj2 (checkRoomAvailability_calendar no_faults Example.hotel_A 1
                    (days_from_civil 2024 6 14) (days_from_civil 2024 6 16) eq_refl)).
    eexists 1%positive, _. split; [reflexivity|]. by vm_compute; split_and!; [..|left|].
  - apply not_false_iff_true. intros Hno.
    apply (proj1 (checkRoomAvailability_calendar no_faults Example.hotel_A 1
                    (days_from_civil 2024 6 10) (days_from_civil 2024 6 12) eq_refl))
      in Hno as (id & existing & Hb & _ & _ & Hci & _).
    apply elem_of_map_to_list in Hb.
    set (listed := map_to_list (Db.bookings Example.hotel_A)) in Hb.
    vm_compute in listed. subst listed.
    apply list_elem_of_singleton in Hb. simplify_eq.
    vm_compute in Hci. by destruct Hci.
Defined.

(** ** Submissions *)

Lemma handleSubmit_creates_witness :
  (handleSubmit Example.clk no_faults Example.rooms Example.stay_1 Example.hotel).2
    = [toast_created] ∧
  Db.r_status <$> Db.rooms Example.hotel_1 !! 1%positive = Some Db.occupied.
Proof.
  destruct (handleSubmit_creates Example.clk no_faults Example.rooms Example.stay_1
              Example.hotel _ (days_from_civil 2024 6 1) (days_from_civil 2024 6 3)
              Example.room101 eq_refl eq_refl eq_refl eq_refl eq_refl eq_refl eq_refl)
    as (Hmsg & _ & Hrooms & _).
  - intros id existing Hb. cbn [Example.hotel Db.bookings] in Hb.
    by rewrite lookup_empty in Hb.
  - by eexists.
  - reflexivity.
  - by vm_compute.
  - split; [exact Hmsg|]. unfold Example.hotel_1. rewrite Hrooms.
    by rewrite lookup_insert_eq.
Defined.

Lemma toasts_app shown shown' : toasts (shown ++ shown') = toasts shown ++ toasts shown'.
Proof. apply List.filter_app. Qed.

Lemma handleSubmit_shows_one clk faults rooms formData db :
  length (toasts (handleSubmit clk faults rooms formData db).2) = 1%nat.
Proof.
  unfold handleSubmit.
  destruct (bookingSchema_parse formData) as [issue|v]; [done|].
  unfold validateDates.
  destruct (js_lt _ _); [done|]. destruct (js_le _ _); [done|]. simpl.
  unfold checkRoomAvailability.
  destruct (if select_fails faults then _ else _) as [data|]; [|done]. simpl.
  case_bool_decide; simpl; [|done].
  destruct (if insert_fails faults then _ else _); done.
Qed.

(** X7.  The toasts of a submission, [loadData] included.  Either the
    creation is not announced: then exactly one toast is shown and the store
    is left as it was.  Or the creation toast is shown and [bookings] has
    grown by one row: then the load-error toast follows exactly when the
    read of [bookings] by the [loadData] that the success branch starts
    fails, and nothing else is shown. *)
Theorem handleSubmit_toasts clk faults bookings_read_fails rooms formData db :
  ((toast_created ∉
      (handleSubmit_loadData clk faults bookings_read_fails rooms formData db).2) ∧
   length (toasts
      (handleSubmit_loadData clk faults bookings_read_fails rooms formData db).2)
     = 1%nat ∧
   (handleSubmit_loadData clk faults bookings_read_fails rooms formData db).1 = db) ∨
  (toasts (handleSubmit_loadData clk faults bookings_read_fails rooms formData db).2
     = toast_created :: (if bookings_read_fails then [toast_load_failed] else []) ∧
   size (Db.bookings
           (handleSubmit_loadData clk faults bookings_read_fails rooms formData db).1)
     = S (size (Db.bookings db))).
Proof.
  unfold handleSubmit_loadData. simpl.
  destruct (handleSubmit_cases clk faults rooms formData db)
    as [[Hdb Hno] | (v & db1 & _ & _ & _ & _ & _ & _ & Hmsg)].
  - left. rewrite bool_decide_eq_false_2 by done. rewrite app_nil_r.
    split_and!; [done | apply handleSubmit_shows_one | done].
  - right. rewrite Hmsg. rewrite bool_decide_eq_true_2 by left. split.
    + unfold loadData. by destruct bookings_read_fails.
    + destruct (handleSubmit_created clk faults rooms formData db)
        as (v' & ci & co & _ & _ & _ & _ & _ & _ & _ & Hfresh & _ & _ & _ & Hbs).
      { rewrite Hmsg. left. }
      rewrite Hbs. by apply map_size_insert_None.
Qed.

Lemma handleSubmit_toasts_witness :
  toasts (handleSubmit_loadData Example.clk no_faults true Example.rooms
            Example.stay_1 Example.hotel).2
    = [toast_created; toast_load_failed] ∧
  toasts (handleSubmit_loadData Example.clk no_faults true Example.rooms
            Example.stay_2 Example.hotel_1).2
    = [toast_room_reserved].
Proof.
  split.
  - destruct (handleSubmit_toasts Example.clk no_faults true Example.rooms
                Example.stay_1 Example.hotel) as [(Hno & _) | [Hshown _]]; [|done].
    destruct Hno. vm_compute. left.
  - destruct (handleSubmit_toasts Example.clk no_faults true Example.rooms
                Example.stay_2 Example.hotel_1) as [(_ & _ & _) | [_ Hsize]].
    + by vm_compute.
    + by vm_compute in Hsize.
Defined.

(** X8.  When the selected guest or the selected room has no row in the
    store any more, a submission writes nothing and reports no creation; if
    it got as far as the insert, it shows the creation error. *)
Theorem handleSubmit_missing_reference clk faults rooms formData db v :
  bookingSchema_parse formData = inr v →
  Db.guests db !! Validated.guest_id v = None ∨
  Db.rooms db !! Validated.room_id v = None →
  (handleSubmit clk faults rooms formData db).1 = db ∧
  (toast_created ∉ (handleSubmit clk faults rooms formData db).2) ∧
  ((validateDates clk (Validated.check_in_date v) (Validated.check_out_date v)).1 = true →
   (checkRoomAvailability faults db (Validated.room_id v)
      (Validated.check_in_date v) (Validated.check_out_date v)).1 = true →
   (handleSubmit clk faults rooms formData db).2
     = [toast_create_failed; console_insert_error]).
Proof.
  intros Hparse Hmissing.
  assert (toast_created ∉ (handleSubmit clk faults rooms formData db).2) as Hno.
  { intros Hin.
    destruct (handleSubmit_created clk faults rooms formData db Hin)
      as (v' & ci & co & Hparse' & _ & _ & _ & _ & [g Hg] & [r Hr] & _).
    rewrite Hparse in Hparse'. simplify_eq. destruct Hmissing; congruence. }
  split_and!; [|done|].
  - by destruct (handleSubmit_cases clk faults rooms formData db)
      as [[Hdb _] | (v' & db1 & _ & _ & _ & _ & _ & _ & Hmsg)];
      [|destruct Hno; rewrite Hmsg; left].
  - intros Hvalid Hav. revert Hno. unfold handleSubmit. rewrite Hparse.
    destruct (validateDates _ _ _) as [valid shown]. simpl in Hvalid. subst valid.
    destruct (checkRoomAvailability _ _ _ _ _) as [isAvailable logged].
    simpl in Hav. subst isAvailable. simpl.
    destruct (if insert_fails faults then _ else _); [|done].
    intros Hno. destruct Hno. left.
Qed.

Lemma handleSubmit_missing_reference_witness :
  handleSubmit Example.clk no_faults Example.rooms
    (Example.form 7 (ymd 2024 6 1) (HHMM 14 0) (ymd 2024 6 3) (HHMM 12 0))
    Example.hotel
  = (Example.hotel, [toast_create_failed; console_insert_error]).
Proof.
  destruct (handleSubmit_missing_reference Example.clk no_faults Example.rooms
              (Example.form 7 (ymd 2024 6 1) (HHMM 14 0) (ymd 2024 6 3) (HHMM 12 0))
              Example.hotel _ eq_refl (or_introl eq_refl))
    as (Hdb & _ & Hmsg).
  rewrite (surjective_pairing (handleSubmit _ _ _ _ _)).
  by rewrite Hdb, (Hmsg eq_refl eq_refl).
Defined.

(** X9.  A booking submitted from a page whose room list lacks the selected
    room (the list is empty after a failed read of the rooms) is stored
    with a total price of 0. *)
Theorem handleSubmit_unlisted_room clk faults rooms formData db id row :
  (∀ room, room ∈ rooms → Some (Room.id room) ≠ Form.room_id formData) →
  Db.bookings db !! id = None →
  Db.bookings (handleSubmit clk faults rooms formData db).1 !! id = Some row →
  Db.b_total_price row = 0.
Proof.
  intros Hunlisted Hold Hnew.
  destruct (handleSubmit_cases clk faults rooms formData db)
    as [[Hdb _] | (v & db1 & Hparse & _ & _ & _ & _ & _ & Hmsg)].
  { rewrite Hdb in Hnew. congruence. }
  destruct (handleSubmit_created clk faults rooms formData db)
    as (v' & ci & co & Hparse' & _ & _ & _ & _ & _ & _ & _ & _ & _ & _ & Hbs).
  { rewrite Hmsg. left. }
  rewrite Hbs in Hnew.
  apply lookup_insert_Some in Hnew as [[_ <-] | [_ Hnew]]; [|congruence].
  simpl. unfold calculateTotalPrice.
  destruct (find_room rooms (Validated.room_id v')) as [room|] eqn:Hroom; [|done].
  apply find_room_Some in Hroom as [Hin Hid].
  apply bookingSchema_parse_inr in Hparse' as (_ & Hrid & _).
  destruct (Hunlisted room Hin). by rewrite Hid.
Qed.

Lemma handleSubmit_unlisted_room_witness :
  Db.b_total_price <$>
    Db.bookings (handleSubmit Example.clk no_faults [] Example.stay_1 Example.hotel).1
      !! 1%positive
  = Some 0.
Proof.
  destruct (Db.bookings (handleSubmit Example.clk no_faults [] Example.stay_1
                           Example.hotel).1 !! 1%positive) as [row|] eqn:Hrow;
    [|by vm_compute in Hrow].
  simpl. f_equal.
  apply (handleSubmit_unlisted_room Example.clk no_faults [] Example.stay_1
           Example.hotel 1%positive row); [|reflexivity|exact Hrow].
  intros room Hin. by apply elem_of_nil in Hin.
Defined.

(** ** Check-out: frame and edge cases *)


(** X11.  Checking out a booking that the store no longer has (the page
    lists it still) reports success: no booking changes, and the room the
    page object names is set to cleaning all the same. *)
Theorem handleCheckOut_missing_booking clk faults booking db room :
  booking_update_fails faults = false → room_update_fails faults = false →
  Db.bookings db !! Booking.id booking = None →
  Db.rooms db !! Booking.room_id booking = Some room →
  (handleCheckOut clk faults true booking db).2 = [toast_checked_out] ∧
  Db.bookings (handleCheckOut clk faults true booking db).1 = Db.bookings db ∧
  Db.rooms (handleCheckOut clk faults true booking db).1 !! Booking.room_id booking
    = Some (Db.set_room_status clk Db.cleaning room).
Proof.
  intros Hfb Hfr Hgone Hroom.
  rewrite (handleCheckOut_done _ _ _ _ Hfb), Hfr. simpl. split_and!; [done| |].
  - apply map_eq. intros i. rewrite lookup_alter. case_decide; [|done].
    subst i. by rewrite Hgone.
  - by rewrite lookup_alter_eq, Hroom.
Qed.

Lemma handleCheckOut_missing_booking_witness :
  (handleCheckOut Example.clk_3rd no_faults true Tour.listed_gone Example.hotel_1).2
    = [toast_checked_out] ∧
  Db.bookings (handleCheckOut Example.clk_3rd no_faults true Tour.listed_gone
                 Example.hotel_1).1 = Db.bookings Example.hotel_1 ∧
  Db.r_status <$>
    Db.rooms (handleCheckOut Example.clk_3rd no_faults true Tour.listed_gone
                Example.hotel_1).1 !! 1%positive = Some Db.cleaning.
Proof.
  destruct (handleCheckOut_missing_booking Example.clk_3rd no_faults Tour.listed_gone
              Example.hotel_1 _ eq_refl eq_refl eq_refl eq_refl)
    as (Hmsg & Hbs & Hroom).
  split_and!; [exact Hmsg | exact Hbs |].
  change (Booking.room_id Tour.listed_gone) with 1%positive in Hroom.
  by rewrite Hroom.
Defined.

(** X12.  [handleCheckOut] does not look at the other bookings of the room:
    when another booking of the same room is active, it stays active and
    the room is set to cleaning nevertheless. *)
Theorem handleCheckOut_ignores_other_bookings clk faults booking db j other room :
  booking_update_fails faults = false → room_update_fails faults = false →
  j ≠ Booking.id booking →
  Db.bookings db !! j = Some other →
  Db.b_status other = Db.active →
  Db.b_room_id other = Booking.room_id booking →
  Db.rooms db !! Booking.room_id booking = Some room →
  Db.bookings (handleCheckOut clk faults true booking db).1 !! j = Some other ∧
  Db.r_status <$>
    Db.rooms (handleCheckOut clk faults true booking db).1 !! Db.b_room_id other
    = Some Db.cleaning.
Proof.
  intros Hfb Hfr Hne Hother Hact Hsame Hroom.
  rewrite (handleCheckOut_done _ _ _ _ Hfb), Hfr, Hsame. simpl. split.
  - by rewrite lookup_alter_ne.
  - by rewrite lookup_alter_eq, Hroom.
Qed.

Lemma handleCheckOut_ignores_other_bookings_witness :
  Db.b_status <$>
    Db.bookings (handleCheckOut Example.clk_3rd no_faults true Example.listed_1
                   Example.hotel_AB).1 !! 2%positive = Some Db.active ∧
  Db.r_status <$>
    Db.rooms (handleCheckOut Example.clk_3rd no_faults true Example.listed_1
                Example.hotel_AB).1 !! 1%positive = Some Db.cleaning.
Proof.
  destruct (Db.bookings Example.hotel_AB !! 2%positive) as [other|] eqn:Hother;
    [|by vm_compute in Hother].
  destruct (handleCheckOut_ignores_other_bookings Example.clk_3rd no_faults
              Example.listed_1 Example.hotel_AB 2%positive other
              (Db.set_room_status Example.clk Db.occupied
                 (Db.set_room_status Example.clk Db.occupied Example.room101))
              eq_refl eq_refl)
    as (Hkept & Hroom).
  - done.
  - exact Hother.
  - vm_compute in Hother. by simplify_eq.
  - vm_compute in Hother. by simplify_eq.
  - reflexivity.
  - split.
    + rewrite Hkept. simpl. vm_compute in Hother. by simplify_eq.
    + vm_compute in Hother. simplify_eq. exact Hroom.
Defined.

(** ** What sequences of operations keep *)

Lemma house_times_no_double_booking_witness :
  Form.check_in_time Tour.later_stay = Form.check_in_time resetForm ∧
  Form.check_out_time Tour.later_stay = Form.check_out_time resetForm ∧
  size (filter (λ ib, Db.b_status ib.2 = Db.active ∧ Db.b_room_id ib.2 = 1%positive)
          (Db.bookings Tour.hotel_two_stays)) = 2%nat ∧
  no_double_booking Tour.hotel_two_stays.
Proof.
  split; [reflexivity|]. split; [reflexivity|]. split; [by vm_compute|].
  apply (house_times_no_double_booking 14 0 12 0 ltac:(by vm_compute) Example.hotel).
  - intros i b Hb. cbn [Example.hotel Db.bookings] in Hb.
    by rewrite lookup_empty in Hb.
  - eapply rtc_l.
    + by apply (house_CreateBooking 14 0 12 0 Example.clk no_faults
                  (loadRooms Example.hotel) Tour.default_stay Example.hotel).
    + apply rtc_once.
      by apply (house_CreateBooking 14 0 12 0 Example.clk no_faults Example.rooms
                  Tour.later_stay Tour.hotel_default).
Defined.

Lemma offered_by_loadRooms db formData id r :
  Form.room_id formData = Some id →
  Db.rooms db !! id = Some r → Db.r_status r = Db.available →
  room_offered (loadRooms db) formData.
Proof.
  intros Hid Hr Hav id' Hid'. rewrite Hid in Hid'. simplify_eq.
  exists (room_of_row id' r). split; [|done].
  apply list_elem_of_filter. split; [done|].
  apply list_elem_of_fmap. exists (id', r). split; [done|].
  by apply elem_of_map_to_list.
Qed.

Lemma fresh_pages_no_double_booking_witness :
  size (filter (λ ib, Db.b_status ib.2 = Db.active) (Db.bookings Tour.two_rooms_2))
    = 2%nat ∧
  availableRooms (loadRooms Tour.two_rooms_2) = [] ∧
  one_active_per_room Tour.two_rooms_2 ∧
  booked_rooms_unavailable Tour.two_rooms_2.
Proof.
  split; [by vm_compute|]. split; [by vm_compute|].
  destruct (fresh_pages_no_double_booking Tour.two_rooms Tour.two_rooms_2)
    as (Hone & Hbooked & _); [| |by split].
  - intros i b Hb. cbn [Tour.two_rooms Db.bookings] in Hb.
    by rewrite lookup_empty in Hb.
  - eapply rtc_l.
    + apply (fresh_CreateBooking Example.clk no_faults Tour.default_stay Tour.two_rooms);
        [reflexivity|].
      by apply (offered_by_loadRooms _ _ 1%positive Example.room101).
    + apply rtc_once.
      apply (fresh_CreateBooking Example.clk no_faults Tour.stay_102 Tour.two_rooms_1);
        [reflexivity|].
      by apply (offered_by_loadRooms _ _ 2%positive Tour.room102).
Defined.

Lemma Legacy_handleSubmit_cases clk faults rooms formData db :
  (Legacy.handleSubmit clk faults rooms formData db).1 = db ∨
  ∃ room d db1,
    Legacy.room_id formData = Some room ∧
    Db.insert_booking clk d db = Some db1 ∧
    (Legacy.handleSubmit clk faults rooms formData db).1 =
      (if room_update_fails faults then db1
       else Db.update_room_status clk room Db.occupied db1).
Proof.
  unfold Legacy.handleSubmit.
  destruct (insert_fails faults); [by left|].
  destruct (Legacy.guest_id formData) as [guest|]; [|by left].
  destruct (Legacy.room_id formData) as [room|]; [|by left].
  destruct (Db.insert_booking _ _ _) as [db1|] eqn:Hins; [|by left].
  right. eexists room, _, db1. split_and!; [done | exact Hins | done].
Qed.

Lemma booking_frame_refl b : booking_frame b b.
Proof. by repeat split. Qed.

Lemma booking_frame_trans b1 b2 b3 :
  booking_frame b1 b2 → booking_frame b2 b3 → booking_frame b1 b3.
Proof. unfold booking_frame. intuition congruence. Qed.

Lemma room_frame_trans r1 r2 r3 : room_frame r1 r2 → room_frame r2 r3 → room_frame r1 r3.
Proof. unfold room_frame. intuition congruence. Qed.

Lemma insert_then_occupy clk d db db1 room (fails : bool) :
  Db.insert_booking clk d db = Some db1 →
  grown_from db (if fails then db1 else Db.update_room_status clk room Db.occupied db1).
Proof.
  intros Hins.
  apply insert_booking_Some in Hins
    as (ci & co & _ & _ & _ & _ & _ & _ & Hfresh & Hgs & Hrs & Hbs).
  split_and!.
  - by destruct fails.
  - intros i b Hb.
    assert (Db.bookings (if fails then db1
                         else Db.update_room_status clk room Db.occupied db1)
            = Db.bookings db1) as -> by (by destruct fails).
    rewrite Hbs, lookup_insert_ne; [done | congruence].
  - intros i r Hr. destruct fails; simpl.
    + exists r. rewrite Hrs. split_and!; [done | apply room_frame_refl | done].
    + rewrite Hrs. destruct (decide (i = room)) as [-> | Hne].
      * exists (Db.set_room_status clk Db.occupied r).
        rewrite lookup_alter_eq, Hr. by repeat split.
      * exists r. rewrite lookup_alter_ne by done.
        split_and!; [done | apply room_frame_refl | done].
Qed.

Lemma grown_from_refl db : grown_from db db.
Proof.
  split_and!; [done | done |]. intros i r Hr. exists r.
  split_and!; [done | apply room_frame_refl | done].
Qed.

Lemma handleSubmit_grown_from clk faults rooms formData db :
  grown_from db (handleSubmit clk faults rooms formData db).1.
Proof.
  destruct (handleSubmit_cases clk faults rooms formData db)
    as [[-> _] | (v & db1 & _ & _ & _ & _ & Hins & -> & _)].
  - apply grown_from_refl.
  - by apply (insert_then_occupy clk (bookingData clk rooms v)).
Qed.

Lemma Legacy_handleSubmit_grown_from clk faults rooms formData db :
  grown_from db (Legacy.handleSubmit clk faults rooms formData db).1.
Proof.
  destruct (Legacy_handleSubmit_cases clk faults rooms formData db)
    as [-> | (room & d & db1 & _ & Hins & ->)].
  - apply grown_from_refl.
  - by apply (insert_then_occupy clk d).
Qed.

Lemma lifecycle_step_rooms db db' i r :
  lifecycle_step db db' → Db.rooms db !! i = Some r →
  ∃ r', Db.rooms db' !! i = Some r' ∧ room_frame r r' ∧
        (Db.r_status r ≠ Db.available → Db.r_status r' ≠ Db.available).
Proof.
  intros Hstep Hr.
  destruct Hstep as [clk faults rooms formData db | clk faults rooms formData db
                    | clk faults confirmed booking db].
  - by apply (handleSubmit_grown_from clk faults rooms formData db).
  - by apply (Legacy_handleSubmit_grown_from clk faults rooms formData db).
  - unfold handleCheckOut. destruct confirmed; simpl;
      [|exists r; split_and!; [done | apply room_frame_refl | done]].
    destruct (booking_update_fails faults); simpl;
      [exists r; split_and!; [done | apply room_frame_refl | done]|].
    destruct (room_update_fails faults); simpl;
      [exists r; split_and!; [done | apply room_frame_refl | done]|].
    destruct (decide (i = Booking.room_id booking)) as [-> | Hne].
    + exists (Db.set_room_status clk Db.cleaning r).
      rewrite lookup_alter_eq, Hr. by repeat split.
    + exists r. rewrite lookup_alter_ne by done.
      split_and!; [done | apply room_frame_refl | done].
Qed.

(** X15.  Through any sequence of submissions and check-outs a room keeps
    its row and every column other than [status] and [updated_at], and no
    operation makes a room available: a room that is occupied, cleaning or
    under maintenance stays unavailable, so a freshly loaded form never
    offers it again. *)
Theorem rooms_stay_unavailable db db' i r :
  rtc lifecycle_step db db' → Db.rooms db !! i = Some r →
  ∃ r', Db.rooms db' !! i = Some r' ∧ room_frame r r' ∧
        (Db.r_status r ≠ Db.available →
         Db.r_status r' ≠ Db.available ∧
         ∀ room, room ∈ availableRooms (loadRooms db') → Room.id room ≠ i).
Proof.
  intros Hrun. revert r. induction Hrun as [db | db db1 db2 Hstep _ IH]; intros r Hr.
  - exists r. split_and!; [done | apply room_frame_refl |].
    intros Hna. split; [done|]. intros room Hin Hid.
    apply list_elem_of_filter in Hin as [Hav Hin].
    apply list_elem_of_fmap in Hin as ([k r0] & -> & Hin).
    apply elem_of_map_to_list in Hin. simpl in *. by simplify_eq.
  - destruct (lifecycle_step_rooms db db1 i r Hstep Hr) as (r1 & Hr1 & Hf1 & Hs1).
    destruct (IH r1 Hr1) as (r2 & Hr2 & Hf2 & Hs2).
    exists r2. split_and!; [done | by eapply room_frame_trans |].
    intros Hna. by apply Hs2, Hs1.
Qed.

Lemma rooms_stay_unavailable_witness :
  ∃ r', Db.rooms Example.checked_out_once.1 !! 1%positive = Some r' ∧
        Db.r_price_per_night r' = 20000 ∧
        ∀ room, room ∈ availableRooms (loadRooms Example.checked_out_once.1) →
                Room.id room ≠ 1%positive.
Proof.
  destruct (rooms_stay_unavailable Example.hotel_1 Example.checked_out_once.1
              1%positive
              (Db.set_room_status Example.clk Db.occupied Example.room101))
    as (r' & Hr' & Hframe & Hna).
  - apply rtc_once.
    apply (lifecycle_CheckOut Example.clk_3rd no_faults true Example.listed_1
             Example.hotel_1).
  - reflexivity.
  - exists r'. split; [exact Hr'|]. split.
    + destruct Hframe as (_ & _ & _ & _ & Hprice & _). exact Hprice.
    + apply Hna. discriminate.
Defined.

Lemma lifecycle_step_bookings db db' i b :
  lifecycle_step db db' → Db.bookings db !! i = Some b →
  ∃ b', Db.bookings db' !! i = Some b' ∧ booking_frame b b' ∧
        (Db.b_status b ≠ Db.active → Db.b_status b' ≠ Db.active) ∧
        (is_Some (Db.b_actual_check_out b) → is_Some (Db.b_actual_check_out b')).
Proof.
  intros Hstep Hb.
  destruct Hstep as [clk faults rooms formData db | clk faults rooms formData db
                    | clk faults confirmed booking db].
  - exists b. split_and!; [|apply booking_frame_refl|done|done].
    by apply (handleSubmit_grown_from clk faults rooms formData db).
  - exists b. split_and!; [|apply booking_frame_refl|done|done].
    by apply (Legacy_handleSubmit_grown_from clk faults rooms formData db).
  - destruct (handleCheckOut_bookings clk faults confirmed booking db) as [Hbs | Hbs];
      rewrite Hbs.
    + exists b. split_and!; [done|apply booking_frame_refl|done|done].
    + destruct (decide (i = Booking.id booking)) as [-> | Hne].
      * exists (Db.set_checked_out clk (now clk) b).
        rewrite lookup_alter_eq, Hb. split_and!; [done| by repeat split |done|by eexists].
      * exists b. rewrite lookup_alter_ne by done.
        split_and!; [done|apply booking_frame_refl|done|done].
Qed.

(** X16.  Through any sequence of submissions and check-outs a booking row
    stays in the store with its guest, room, dates, total price and notes;
    a booking that is no longer active never becomes active again, and an
    actual check-out, once set, is never cleared. *)
Theorem bookings_persist db db' i b :
  rtc lifecycle_step db db' → Db.bookings db !! i = Some b →
  ∃ b', Db.bookings db' !! i = Some b' ∧ booking_frame b b' ∧
        (Db.b_status b ≠ Db.active → Db.b_status b' ≠ Db.active) ∧
        (is_Some (Db.b_actual_check_out b) → is_Some (Db.b_actual_check_out b')).
Proof.
  intros Hrun. revert b. induction Hrun as [db | db db1 db2 Hstep _ IH]; intros b Hb.
  - exists b. split_and!; [done | apply booking_frame_refl | done | done].
  - destruct (lifecycle_step_bookings db db1 i b Hstep Hb) as (b1 & Hb1 & Hf1 & Hs1 & Ha1).
    destruct (IH b1 Hb1) as (b2 & Hb2 & Hf2 & Hs2 & Ha2).
    exists b2. split_and!; [done | by eapply booking_frame_trans | auto | auto].
Qed.

Lemma bookings_persist_witness :
  ∃ b', Db.bookings Example.checked_out_twice.1 !! 1%positive = Some b' ∧
        Db.b_total_price b' = 40000 ∧ Db.b_status b' ≠ Db.active.
Proof.
  destruct (Db.bookings Example.checked_out_once.1 !! 1%positive) as [b|] eqn:Hb;
    [|by vm_compute in Hb].
  destruct (bookings_persist Example.checked_out_once.1 Example.checked_out_twice.1
              1%positive b) as (b' & Hb' & Hframe & Hs & _).
  - apply rtc_once.
    apply (lifecycle_CheckOut Example.clk_5th no_faults true Example.listed_1
             Example.checked_out_once.1).
  - exact Hb.
  - exists b'. split; [exact Hb'|]. vm_compute in Hb. simplify_eq. split.
    + destruct Hframe as (_ & _ & _ & _ & Hprice & _). exact Hprice.
    + apply Hs. discriminate.
Defined.

(** ** A created booking, read back by the page *)

(** The row a submission adds, in terms of the form. *)
Lemma handleSubmit_new_row clk faults rooms formData db id row :
  Db.bookings db !! id = None →
  Db.bookings (handleSubmit clk faults rooms formData db).1 !! id = Some row →
  ∃ guest room d_in h_in m_in d_out h_out m_out,
    Form.guest_id formData = Some guest ∧ Form.room_id formData = Some room ∧
    Form.check_in_date formData = ISODate d_in ∧
    Form.check_in_time formData = HHMM h_in m_in ∧
    Form.check_out_date formData = ISODate d_out ∧
    Form.check_out_time formData = HHMM h_out m_out ∧
    (0 <= h_in <= 23 ∧ 0 <= m_in <= 59) ∧ (0 <= h_out <= 23 ∧ 0 <= m_out <= 59) ∧
    Db.b_guest_id row = guest ∧ Db.b_room_id row = room ∧
    Db.b_check_in_date row = d_in * msPerDay + (h_in * 60 + m_in) * msPerMinute ∧
    Db.b_check_out_date row = d_out * msPerDay + (h_out * 60 + m_out) * msPerMinute ∧
    Db.b_actual_check_out row = None ∧ Db.b_status row = Db.active ∧
    Db.b_total_price row
      = calculateTotalPrice clk rooms room (ISODate d_in) (ISODate d_out).
Proof.
  intros Hold Hnew.
  destruct (handleSubmit_cases clk faults rooms formData db)
    as [[Hdb _] | (v0 & db1 & _ & _ & _ & _ & _ & _ & Hmsg)].
  { rewrite Hdb in Hnew. congruence. }
  destruct (handleSubmit_created clk faults rooms formData db)
    as (v & ci & co & Hparse & _ & _ & Hci & Hco & _ & _ & _ & _ & _ & _ & Hbs).
  { rewrite Hmsg. left. }
  rewrite Hbs in Hnew.
  apply lookup_insert_Some in Hnew as [[_ <-] | [_ Hnew]]; [|congruence].
  apply bookingSchema_parse_inr in Hparse
    as (Hg & Hr & Hvci & Hvco & Hvti & Hvto & _ & _ & Hri & Hro).
  apply date_T_time_Some in Hci as (d_in & h_in & m_in & Hdin & Htin & ->).
  apply date_T_time_Some in Hco as (d_out & h_out & m_out & Hdout & Htout & ->).
  rewrite <- Hvti, Htin in Hri. rewrite <- Hvto, Htout in Hro. simpl in Hri, Hro.
  apply bool_decide_eq_true in Hri. apply bool_decide_eq_true in Hro.
  exists (Validated.guest_id v), (Validated.room_id v), d_in, h_in, m_in, d_out, h_out, m_out.
  simpl. rewrite Hdin, Hdout. split_and!; try done; try congruence; lia.
Qed.

Lemma iso_date_part_of_day d h m :
  0 <= h <= 23 → 0 <= m <= 59 →
  iso_date_part (d * msPerDay + (h * 60 + m) * msPerMinute) = ISODate d.
Proof.
  intros Hh Hm. unfold iso_date_part. f_equal.
  change msPerDay with 86400000. change msPerMinute with 60000.
  Z.to_euclidean_division_equations. lia.
Qed.

Lemma loads_bookings_elem db bookings id row :
  loads_bookings db bookings → Db.bookings db !! id = Some row →
  booking_of_row id row ∈ bookings.
Proof.
  intros (rows & Hperm & _ & ->) Hrow.
  apply list_elem_of_fmap. exists (id, row). split; [done|].
  rewrite Hperm. by apply elem_of_map_to_list.
Qed.

(** X17.  A booking a submission has added is, on the next load of the page,
    in the list with the guest and room of the form, the computed price, no
    actual check-out and a check-out button; it is counted among today's
    check-ins (check-outs) exactly when the check-in (check-out) date of
    the form is the browser's current date, and exactly then its row
    carries the arrival badge. *)
Theorem created_booking_listed clk faults rooms formData db id row clk' bookings :
  Db.bookings db !! id = None →
  Db.bookings (handleSubmit clk faults rooms formData db).1 !! id = Some row →
  loads_bookings (handleSubmit clk faults rooms formData db).1 bookings →
  (booking_of_row id row ∈ bookings) ∧
  check_out_button (booking_of_row id row) = true ∧
  Some (Booking.guest_id (booking_of_row id row)) = Form.guest_id formData ∧
  Some (Booking.room_id (booking_of_row id row)) = Form.room_id formData ∧
  Booking.total_price (booking_of_row id row)
    = calculateTotalPrice clk rooms (Booking.room_id (booking_of_row id row))
        (Form.check_in_date formData) (Form.check_out_date formData) ∧
  Booking.actual_check_out (booking_of_row id row) = None ∧
  (booking_of_row id row ∈ todayCheckIns clk' bookings ↔
   Form.check_in_date formData = getTodayMinDate clk') ∧
  (booking_of_row id row ∈ todayCheckOuts clk' bookings ↔
   Form.check_out_date formData = getTodayMinDate clk') ∧
  (arrival_badge clk' (booking_of_row id row) = true ↔
   Form.check_in_date formData = getTodayMinDate clk').
Proof.
  intros Hold Hnew Hloads.
  pose proof (loads_bookings_elem _ _ _ _ Hloads Hnew) as Hin.
  destruct (handleSubmit_new_row clk faults rooms formData db id row Hold Hnew)
    as (guest & room & d_in & h_in & m_in & d_out & h_out & m_out
        & Hg & Hr & Hdin & Htin & Hdout & Htout & [Hhi Hmi] & [Hho Hmo]
        & Hbg & Hbr & Hci & Hco & Hact & Hst & Hprice).
  assert (booking_of_row id row ∈ activeBookings bookings) as Hactive.
  { apply list_elem_of_filter. by split. }
  split_and!; simpl; try done.
  - by apply bool_decide_eq_true.
  - congruence.
  - congruence.
  - rewrite Hdin, Hdout, Hbr. done.
  - unfold todayCheckIns. rewrite list_elem_of_filter. simpl.
    rewrite Hci, iso_date_part_of_day, Hdin by done. tauto.
  - unfold todayCheckOuts. rewrite list_elem_of_filter. simpl.
    rewrite Hco, iso_date_part_of_day, Hdout by done. tauto.
  - unfold arrival_badge. rewrite bool_decide_eq_true. simpl.
    by rewrite Hci, iso_date_part_of_day, Hdin by done.
Qed.

Lemma created_booking_listed_witness :
  Example.listed_1 ∈ todayCheckIns Tour.clk_june_1 Tour.listed ∧
  ¬ (Example.listed_1 ∈ todayCheckOuts Tour.clk_june_1 Tour.listed).
Proof.
  destruct (Db.bookings Example.hotel_1 !! 1%positive) as [row|] eqn:Hrow;
    [|by vm_compute in Hrow].
  assert (booking_of_row 1 row = Example.listed_1) as Hview.
  { vm_compute in Hrow. by simplify_eq. }
  destruct (created_booking_listed Example.clk no_faults Example.rooms Example.stay_1
              Example.hotel 1%positive row Tour.clk_june_1 Tour.listed eq_refl Hrow)
    as (_ & _ & _ & _ & _ & _ & Hin & Hout & _).
  - exists (map_to_list (Db.bookings Example.hotel_1)). split_and!; [done| |].
    + replace (map_to_list (Db.bookings Example.hotel_1)) with [(1%positive, row)].
      * repeat constructor.
      * vm_compute in Hrow. simplify_eq. by vm_compute.
    + vm_compute in Hrow. simplify_eq. by vm_compute.
  - rewrite Hview in Hin, Hout. split.
    + apply Hin. by vm_compute.
    + intros Hel. apply Hout in Hel. by vm_compute in Hel.
Defined.

Lemma format_minutes clk ts N :
  ts + utc_offset clk = N * msPerMinute →
  ∃ d h m, format_day_hour_minute clk ts = (d, h, m) ∧
           0 <= h < 24 ∧ 0 <= m < 60 ∧ d * 1440 + h * 60 + m = N.
Proof.
  intros HN. unfold format_day_hour_minute. rewrite HN.
  change msPerDay with 86400000. change msPerMinute with 60000.
  eexists _, _, _. split; [reflexivity|].
  Z.to_euclidean_division_equations. lia.
Qed.

(** X18.  The check-in cell of a created booking shows the date and time of
    the form moved by the browser's offset from UTC: in a browser [o]
    minutes ahead of UTC the minute shown is the entered minute plus [o],
    counted from midnight of the entered date.  The cell shows what was
    entered exactly when the offset is zero. *)
Theorem created_booking_check_in_cell clk faults rooms formData db id row clk' o d h m :
  Db.bookings db !! id = None →
  Db.bookings (handleSubmit clk faults rooms formData db).1 !! id = Some row →
  Form.check_in_date formData = ISODate d →
  Form.check_in_time formData = HHMM h m →
  utc_offset clk' = o * msPerMinute →
  (∃ d' h' m',
     check_in_cell clk' (booking_of_row id row) = (d', h', m') ∧
     0 <= h' < 24 ∧ 0 <= m' < 60 ∧
     d' * 1440 + h' * 60 + m' = d * 1440 + h * 60 + m + o) ∧
  (check_in_cell clk' (booking_of_row id row) = (d, h, m) ↔ o = 0).
Proof.
  intros Hold Hnew Hd Ht Ho.
  destruct (handleSubmit_new_row clk faults rooms formData db id row Hold Hnew)
    as (guest & room & d_in & h_in & m_in & d_out & h_out & m_out
        & _ & _ & Hdin & Htin & _ & _ & [Hhi Hmi] & _ & _ & _ & Hci & _).
  rewrite Hd in Hdin. rewrite Ht in Htin. simplify_eq.
  destruct (format_minutes clk' (Db.b_check_in_date row)
              (d_in * 1440 + h_in * 60 + m_in + o))
    as (d' & h' & m' & Hcell & Hh' & Hm' & Hsum).
  { rewrite Hci, Ho. change msPerDay with 86400000. change msPerMinute with 60000. lia. }
  unfold check_in_cell. simpl. rewrite Hcell. split.
  - by exists d', h', m'.
  - split.
    + intros [= -> -> ->]. lia.
    + intros ->. f_equal; [f_equal|]; lia.
Qed.

Lemma created_booking_check_in_cell_witness :
  check_in_cell Tour.clk_june_1 Example.listed_1 = (days_from_civil 2024 6 1, 14, 0) ∧
  check_in_cell Tour.clk_june_1_west Example.listed_1 ≠ (days_from_civil 2024 6 1, 14, 0).
Proof.
  destruct (Db.bookings Example.hotel_1 !! 1%positive) as [row|] eqn:Hrow;
    [|by vm_compute in Hrow].
  assert (booking_of_row 1 row = Example.listed_1) as Hview.
  { vm_compute in Hrow. by simplify_eq. }
  split.
  - destruct (created_booking_check_in_cell Example.clk no_faults Example.rooms
                Example.stay_1 Example.hotel 1%positive row Tour.clk_june_1 0
                (days_from_civil 2024 6 1) 14 0 eq_refl Hrow eq_refl eq_refl eq_refl)
      as [_ Hiff].
    rewrite Hview in Hiff. by apply Hiff.
  - destruct (created_booking_check_in_cell Example.clk no_faults Example.rooms
                Example.stay_1 Example.hotel 1%positive row Tour.clk_june_1_west (-180)
                (days_from_civil 2024 6 1) 14 0 eq_refl Hrow eq_refl eq_refl eq_refl)
      as [_ Hiff].
    rewrite Hview in Hiff. intros Hcell. by apply Hiff in Hcell.
Defined.

(** ** The dashboard's counters *)

Section Counting.

Context {A : Type} (P : positive * A → Prop) `{!∀ x, Decision (P x)}.

Lemma size_filter_to_list (m : gmap positive A) :
  size (filter P m) = length (filter P (map_to_list m)).
Proof.
  induction m as [|i x m Hi IH] using map_ind.
  - by rewrite map_filter_empty, map_size_empty, map_to_list_empty.
  - rewrite (map_to_list_insert m i x Hi), filter_cons, map_filter_insert.
    destruct (decide (P (i, x))).
    + rewrite map_size_insert_None; [by rewrite IH|].
      apply map_lookup_filter_None. by left.
    + by rewrite delete_id.
Qed.

Lemma size_filter_insert_fresh (m : gmap positive A) i x :
  m !! i = None → P (i, x) → size (filter P (<[i:=x]> m)) = S (size (filter P m)).
Proof.
  intros Hi HP. rewrite map_filter_insert_True by done.
  apply map_size_insert_None, map_lookup_filter_None. by left.
Qed.

Lemma size_filter_insert_fresh_not (m : gmap positive A) i x :
  m !! i = None → ¬ P (i, x) → size (filter P (<[i:=x]> m)) = size (filter P m).
Proof.
  intros Hi HP. rewrite map_filter_insert_False by done. by rewrite delete_id.
Qed.

Lemma size_filter_alter_out (m : gmap positive A) f i x :
  m !! i = Some x → P (i, x) → ¬ P (i, f x) →
  S (size (filter P (alter f i m))) = size (filter P m).
Proof.
  intros Hi HP HnP.
  rewrite (alter_alt_Some f m i x Hi), map_filter_insert_False, map_filter_delete by done.
  assert (filter P m !! i = Some x) as Hfi by (by apply map_lookup_filter_Some).
  rewrite map_size_delete_Some by eauto.
  assert (size (filter P m) ≠ 0%nat); [|lia].
  intros Hempty. apply map_size_empty_iff in Hempty.
  by rewrite Hempty, lookup_empty in Hfi.
Qed.

Lemma size_filter_alter_same (m : gmap positive A) f i :
  (∀ x, m !! i = Some x → ¬ P (i, x) ∧ ¬ P (i, f x)) →
  size (filter P (alter f i m)) = size (filter P m).
Proof.
  intros Hno. destruct (m !! i) as [x|] eqn:Hi.
  - destruct (Hno x eq_refl) as [HnP HnPf].
    rewrite (alter_alt_Some f m i x Hi).
    rewrite (map_filter_insert_False P m i (f x) HnPf), map_filter_delete.
    apply map_size_delete_None, map_lookup_filter_None. right.
    intros y Hy. by simplify_eq.
  - f_equal. f_equal. apply map_eq. intros j. rewrite lookup_alter.
    case_decide; [subst; by rewrite Hi | done].
Qed.

End Counting.

Lemma length_filter_fmap {A B} (P : A → Prop) (Q : B → Prop)
    `{!∀ x, Decision (P x)} `{!∀ y, Decision (Q y)} (f : A → B) (l : list A) :
  (∀ x, Q (f x) ↔ P x) → length (filter Q (f <$> l)) = length (filter P l).
Proof.
  intros HPQ. induction l as [|x l IH]; [done|].
  rewrite fmap_cons, !filter_cons.
  destruct (decide (Q (f x))) as [HQ | HQ], (decide (P x)) as [HP | HP];
    simpl; rewrite ?IH; try done; by destruct (HPQ x); intuition.
Qed.

#[local] Instance created_desc_dec x y : Decision (created_desc x y).
Proof.
  unfold created_desc.
  destruct (Db.b_created_at x.2), (Db.b_created_at y.2); apply _.
Defined.

#[local] Instance created_desc_total : Total created_desc.
Proof.
  intros x y. unfold created_desc.
  destruct (Db.b_created_at x.2), (Db.b_created_at y.2); try lia; tauto.
Qed.

(** [loadData] always has a list to set. *)
Lemma loads_bookings_exists db : ∃ bookings, loads_bookings db bookings.
Proof.
  eexists. exists (merge_sort created_desc (map_to_list (Db.bookings db))).
  split_and!; [apply merge_sort_Permutation | apply Sorted_merge_sort, _ | done].
Qed.

(** X19.  When its requests are answered, the dashboard's count of active
    bookings is the number of rows the bookings page lists as active, its
    count of available rooms is the number of rooms the booking form
    offers, and it is at most the total number of rooms. *)
Theorem loadStats_matches_pages db bookings :
  loads_bookings db bookings →
  Dashboard.activeBookings (Dashboard.loadStats Dashboard.all_answered db)
    = length (activeBookings bookings) ∧
  Dashboard.availableRooms (Dashboard.loadStats Dashboard.all_answered db)
    = length (availableRooms (loadRooms db)) ∧
  (Dashboard.availableRooms (Dashboard.loadStats Dashboard.all_answered db)
    ≤ Dashboard.totalRooms (Dashboard.loadStats Dashboard.all_answered db))%nat.
Proof.
  intros (rows & Hperm & _ & ->). simpl. split_and!.
  - rewrite size_filter_to_list. unfold activeBookings.
    rewrite (length_filter_fmap
               (λ ib : positive * Db.booking, Db.b_status ib.2 = Db.active)
               (λ b, Booking.status b = Db.active)
               (λ ir, booking_of_row ir.1 ir.2)) by done.
    by rewrite Hperm.
  - rewrite size_filter_to_list. unfold availableRooms, loadRooms.
    by rewrite (length_filter_fmap
                  (λ ir : positive * Db.room, Db.r_status ir.2 = Db.available)
                  (λ r, Room.status r = Db.available)
                  (λ ir, room_of_row ir.1 ir.2)).
  - apply map_subseteq_size, map_filter_subseteq.
Qed.

Lemma loadStats_matches_pages_witness :
  Dashboard.activeBookings (Dashboard.loadStats Dashboard.all_answered Example.hotel_1)
    = length (activeBookings Tour.listed).
Proof.
  refine (proj1 (loadStats_matches_pages Example.hotel_1 Tour.listed _)).
  exists (map_to_list (Db.bookings Example.hotel_1)). split_and!; [done| |].
  - replace (map_to_list (Db.bookings Example.hotel_1))
      with [(1%positive, default (Db.mkBooking 1 1 0 0 None 0 Db.active None None None None)
                           (Db.bookings Example.hotel_1 !! 1%positive))]
      by (by vm_compute).
    repeat constructor.
  - by vm_compute.
Defined.

(** X20.  After a submission that shows the creation toast, with the room
    update answered, for a room the store had as available, the dashboard
    counts one active booking more and one available room less; guests and
    rooms are as many as before. *)
Theorem loadStats_after_create clk faults rooms formData db roomId room :
  toast_created ∈ (handleSubmit clk faults rooms formData db).2 →
  room_update_fails faults = false →
  Form.room_id formData = Some roomId →
  Db.rooms db !! roomId = Some room → Db.r_status room = Db.available →
  Dashboard.activeBookings
    (Dashboard.loadStats Dashboard.all_answered (handleSubmit clk faults rooms formData db).1)
    = S (Dashboard.activeBookings (Dashboard.loadStats Dashboard.all_answered db)) ∧
  S (Dashboard.availableRooms
       (Dashboard.loadStats Dashboard.all_answered (handleSubmit clk faults rooms formData db).1))
    = Dashboard.availableRooms (Dashboard.loadStats Dashboard.all_answered db) ∧
  Dashboard.totalRooms
    (Dashboard.loadStats Dashboard.all_answered (handleSubmit clk faults rooms formData db).1)
    = Dashboard.totalRooms (Dashboard.loadStats Dashboard.all_answered db) ∧
  Dashboard.totalGuests
    (Dashboard.loadStats Dashboard.all_answered (handleSubmit clk faults rooms formData db).1)
    = Dashboard.totalGuests (Dashboard.loadStats Dashboard.all_answered db).
Proof.
  intros Hin Hfr Hrid Hroom Hav.
  destruct (handleSubmit_created clk faults rooms formData db Hin)
    as (v & ci & co & Hparse & _ & _ & _ & _ & _ & _ & Hfresh & _ & Hgs & Hrs & Hbs).
  rewrite Hfr in Hrs.
  apply bookingSchema_parse_inr in Hparse as (_ & Hrid' & _).
  rewrite Hrid in Hrid'. simplify_eq.
  simpl. rewrite Hgs, Hrs, Hbs. split_and!; [| | |done].
  - by apply size_filter_insert_fresh.
  - by apply (size_filter_alter_out _ _ _ _ room).
  - rewrite <- !length_map_to_list.
    rewrite (alter_alt_Some _ _ _ room Hroom).
    rewrite !length_map_to_list. apply map_size_insert_Some. eauto.
Qed.

Lemma loadStats_after_create_witness :
  Dashboard.loadStats Dashboard.all_answered Example.hotel = Dashboard.mkStats 2 1 1 0 ∧
  Dashboard.activeBookings (Dashboard.loadStats Dashboard.all_answered Example.hotel_1)
    = 1%nat ∧
  Dashboard.availableRooms (Dashboard.loadStats Dashboard.all_answered Example.hotel_1)
    = 0%nat.
Proof.
  destruct (loadStats_after_create Example.clk no_faults Example.rooms Example.stay_1
              Example.hotel 1%positive Example.room101)
    as (Hactive & Havailable & _).
  - by vm_compute; left.
  - reflexivity.
  - reflexivity.
  - reflexivity.
  - reflexivity.
  - assert (Dashboard.loadStats Dashboard.all_answered Example.hotel
            = Dashboard.mkStats 2 1 1 0) as Hbefore by (by vm_compute).
    rewrite Hbefore in Hactive, Havailable.
    split_and!; [done | exact Hactive | exact (Nat.succ_inj _ 0%nat Havailable)].
Defined.

(** X21.  After the check-out of an active booking, with both updates
    answered, the dashboard counts one active booking less; the count of
    available rooms does not rise, and it stays the same when the room was
    not available. *)
Theorem loadStats_after_check_out clk faults booking db row room :
  booking_update_fails faults = false → room_update_fails faults = false →
  Db.bookings db !! Booking.id booking = Some row →
  Db.b_status row = Db.active →
  Db.rooms db !! Booking.room_id booking = Some room →
  S (Dashboard.activeBookings
       (Dashboard.loadStats Dashboard.all_answered
          (handleCheckOut clk faults true booking db).1))
    = Dashboard.activeBookings (Dashboard.loadStats Dashboard.all_answered db) ∧
  (Dashboard.availableRooms
     (Dashboard.loadStats Dashboard.all_answered
        (handleCheckOut clk faults true booking db).1)
   ≤ Dashboard.availableRooms (Dashboard.loadStats Dashboard.all_answered db))%nat ∧
  (Db.r_status room ≠ Db.available →
   Dashboard.availableRooms
     (Dashboard.loadStats Dashboard.all_answered
        (handleCheckOut clk faults true booking db).1)
   = Dashboard.availableRooms (Dashboard.loadStats Dashboard.all_answered db)).
Proof.
  intros Hfb Hfr Hrow Hact Hroom.
  rewrite (handleCheckOut_done _ _ _ _ Hfb), Hfr. simpl.
  split_and!.
  - by apply (size_filter_alter_out _ _ _ _ row).
  - destruct (decide (Db.r_status room = Db.available)) as [Hav | Hna].
    + pose proof (size_filter_alter_out
                    (λ ir : positive * Db.room, Db.r_status ir.2 = Db.available)
                    (Db.rooms db) (Db.set_room_status clk Db.cleaning)
                    (Booking.room_id booking) room Hroom Hav ltac:(done)).
      lia.
    + rewrite size_filter_alter_same; [done|]. intros x Hx. by simplify_eq.
  - intros Hna. apply size_filter_alter_same. intros x Hx. by simplify_eq.
Qed.

Lemma loadStats_after_check_out_witness :
  Dashboard.activeBookings
    (Dashboard.loadStats Dashboard.all_answered Example.checked_out_once.1) = 0%nat ∧
  Dashboard.availableRooms
    (Dashboard.loadStats Dashboard.all_answered Example.checked_out_once.1) = 0%nat.
Proof.
  destruct (Db.bookings Example.hotel_1 !! 1%positive) as [row|] eqn:Hrow;
    [|by vm_compute in Hrow].
  destruct (loadStats_after_check_out Example.clk_3rd no_faults Example.listed_1
              Example.hotel_1 row
              (Db.set_room_status Example.clk Db.occupied Example.room101)
              eq_refl eq_refl Hrow)
    as (Hactive & _ & Havailable).
  - vm_compute in Hrow. by simplify_eq.
  - reflexivity.
  - assert (Dashboard.loadStats Dashboard.all_answered Example.hotel_1
            = Dashboard.mkStats 2 1 0 1) as Hbefore by (by vm_compute).
    rewrite Hbefore in Hactive, Havailable.
    split; [exact (Nat.succ_inj _ 0%nat Hactive)|]. by apply Havailable.
Defined.

(** ** Deleting rooms and guests *)

(** X22.  A confirmed, answered deletion of a room removes the room and,
    with it, every booking of that room, active ones included; the other
    rooms, the other bookings and the guests are untouched.  A deletion
    that is declined or fails changes nothing. *)
Theorem RoomsPage_handleDelete_cascade fails confirmed id db :
  ((RoomsPage.toast_deleted ∈ (RoomsPage.handleDelete fails confirmed id db).2) →
   Db.rooms (RoomsPage.handleDelete fails confirmed id db).1 !! id = None ∧
   (∀ j, j ≠ id → Db.rooms (RoomsPage.handleDelete fails confirmed id db).1 !! j
                  = Db.rooms db !! j) ∧
   (∀ i b, Db.bookings (RoomsPage.handleDelete fails confirmed id db).1 !! i = Some b ↔
           Db.bookings db !! i = Some b ∧ Db.b_room_id b ≠ id) ∧
   Db.guests (RoomsPage.handleDelete fails confirmed id db).1 = Db.guests db) ∧
  ((RoomsPage.toast_deleted ∉ (RoomsPage.handleDelete fails confirmed id db).2) →
   (RoomsPage.handleDelete fails confirmed id db).1 = db).
Proof.
  unfold RoomsPage.handleDelete.
  destruct confirmed; simpl.
  2: { split; [|done]. intros Hin. by apply elem_of_nil in Hin. }
  destruct fails; simpl.
  { split; [|done]. intros Hin. apply list_elem_of_singleton in Hin. discriminate. }
  split.
  - intros _. split_and!.
    + apply lookup_delete_eq.
    + intros j Hne. by apply lookup_delete_ne.
    + intros i b. by rewrite map_lookup_filter_Some.
    + done.
  - intros Hno. destruct Hno. left.
Qed.

(** X23.  A confirmed, answered deletion of a guest removes the guest's
    bookings but touches no room: a room all of whose bookings were this
    guest's is left without any booking and with the status it had, so a
    room the guest occupied stays occupied. *)
Theorem GuestsPage_handleDelete_orphans id db i b room :
  Db.bookings db !! i = Some b → Db.b_guest_id b = id →
  Db.rooms db !! Db.b_room_id b = Some room →
  (∀ j b', Db.bookings db !! j = Some b' → Db.b_room_id b' = Db.b_room_id b →
           Db.b_guest_id b' = id) →
  (GuestsPage.handleDelete false true id db).2 = [GuestsPage.toast_deleted] ∧
  Db.guests (GuestsPage.handleDelete false true id db).1 !! id = None ∧
  Db.rooms (GuestsPage.handleDelete false true id db).1 = Db.rooms db ∧
  Db.rooms (GuestsPage.handleDelete false true id db).1 !! Db.b_room_id b = Some room ∧
  (∀ j b', Db.bookings (GuestsPage.handleDelete false true id db).1 !! j = Some b' →
           Db.b_room_id b' ≠ Db.b_room_id b) ∧
  (∀ j b', Db.bookings (GuestsPage.handleDelete false true id db).1 !! j = Some b' ↔
           Db.bookings db !! j = Some b' ∧ Db.b_guest_id b' ≠ id).
Proof.
  intros Hb Hguest Hroom Honly. simpl. split_and!; try done.
  - apply lookup_delete_eq.
  - intros j b' Hb' Hsame.
    apply map_lookup_filter_Some in Hb' as [Hb' Hne]. simpl in Hne.
    by destruct Hne; apply (Honly j b').
  - intros j b'. by rewrite map_lookup_filter_Some.
Qed.

Lemma GuestsPage_handleDelete_orphans_witness :
  Db.bookings (GuestsPage.handleDelete false true 1 Example.hotel_1).1 = ∅ ∧
  Db.r_status <$>
    Db.rooms (GuestsPage.handleDelete false true 1 Example.hotel_1).1 !! 1%positive
    = Some Db.occupied.
Proof.
  destruct (Db.bookings Example.hotel_1 !! 1%positive) as [b|] eqn:Hb;
    [|by vm_compute in Hb].
  assert (Db.b_guest_id b = 1%positive ∧ Db.b_room_id b = 1%positive) as [Hg Hr].
  { vm_compute in Hb. by simplify_eq. }
  destruct (GuestsPage_handleDelete_orphans 1%positive Example.hotel_1 1%positive b
              (Db.set_room_status Example.clk Db.occupied Example.room101) Hb Hg)
    as (_ & _ & _ & Hroom & Hnone & _).
  - by rewrite Hr.
  - intros j b' Hb' _. apply elem_of_map_to_list in Hb'.
    set (listed := map_to_list (Db.bookings Example.hotel_1)) in Hb'.
    vm_compute in listed. subst listed.
    apply list_elem_of_singleton in Hb'. by simplify_eq.
  - rewrite Hr in Hroom, Hnone. split; [|by rewrite Hroom].
    apply map_empty. intros j.
    destruct (Db.bookings (GuestsPage.handleDelete false true 1 Example.hotel_1).1 !! j)
      as [b'|] eqn:Hb'; [|done].
    exfalso. apply (Hnone j b' Hb').
    apply map_lookup_filter_Some in Hb' as [Hb' _].
    apply elem_of_map_to_list in Hb'.
    set (listed := map_to_list (Db.bookings Example.hotel_1)) in Hb'.
    vm_compute in listed. subst listed.
    apply list_elem_of_singleton in Hb'. by simplify_eq.
Defined.

(** ** Referential integrity *)

Lemma insert_then_occupy_integrity clk d db db1 room (fails : bool) :
  Db.insert_booking clk d db = Some db1 →
  referential_integrity db →
  referential_integrity
    (if fails then db1 else Db.update_room_status clk room Db.occupied db1).
Proof.
  intros Hins Hri.
  apply insert_booking_Some in Hins
    as (ci & co & _ & _ & Hg & Hr & _ & _ & Hfresh & Hgs & Hrs & Hbs).
  assert (referential_integrity db1) as Hri1.
  { intros i b Hb. rewrite Hbs in Hb. rewrite Hgs, Hrs.
    apply lookup_insert_Some in Hb as [[_ <-] | [_ Hb]]; [done | by apply (Hri i)]. }
  destruct fails; [done|].
  intros i b Hb. simpl in *. destruct (Hri1 i b Hb) as [Hgb Hrb].
  split; [done|]. by apply lookup_alter_is_Some.
Qed.

Lemma handleCheckOut_integrity clk faults confirmed booking db :
  referential_integrity db →
  referential_integrity (handleCheckOut clk faults confirmed booking db).1.
Proof.
  intros Hri. unfold handleCheckOut. destruct confirmed; [|done].
  destruct (booking_update_fails faults); [done|].
  assert (referential_integrity
            (Db.update_booking_checked_out clk (Booking.id booking) (now clk) db))
    as Hri1.
  { intros i b' Hb'. simpl in *.
    apply lookup_alter_Some in Hb' as [(_ & b0 & Hb0 & ->) | [_ Hb']].
    - exact (Hri i b0 Hb0).
    - exact (Hri i b' Hb'). }
  destruct (room_update_fails faults); [done|].
  intros i b Hb. destruct (Hri1 i b Hb) as [Hg Hr]. simpl in *.
  split; [done|]. by apply lookup_alter_is_Some.
Qed.

Lemma page_step_integrity db db' :
  page_step db db' → referential_integrity db → referential_integrity db'.
Proof.
  intros Hstep Hri.
  destruct Hstep as [clk faults rooms formData db | clk faults rooms formData db
                    | clk faults confirmed booking db
                    | fails confirmed id db | fails confirmed id db].
  - destruct (handleSubmit_cases clk faults rooms formData db)
      as [[Heq _] | (v & db1 & _ & _ & _ & _ & Hins & Heq & _)];
      rewrite Heq; [done|].
    exact (insert_then_occupy_integrity clk _ db db1 _ _ Hins Hri).
  - destruct (Legacy_handleSubmit_cases clk faults rooms formData db)
      as [Heq | (room & d & db1 & _ & Hins & Heq)]; rewrite Heq; [done|].
    exact (insert_then_occupy_integrity clk d db db1 _ _ Hins Hri).
  - by apply handleCheckOut_integrity.
  - unfold RoomsPage.handleDelete. destruct confirmed; [|done].
    destruct fails; [done|]. simpl. intros i b Hb. simpl in *.
    apply map_lookup_filter_Some in Hb as [Hb Hne]. simpl in Hne.
    destruct (Hri i b Hb) as [Hg Hr]. split; [done|].
    by rewrite lookup_delete_ne.
  - unfold GuestsPage.handleDelete. destruct confirmed; [|done].
    destruct fails; [done|]. simpl. intros i b Hb. simpl in *.
    apply map_lookup_filter_Some in Hb as [Hb Hne]. simpl in Hne.
    destruct (Hri i b Hb) as [Hg Hr]. split; [|done].
    by rewrite lookup_delete_ne.
Qed.

(** X24.  Whatever the pages do (submissions of either revision of the
    bookings page, check-outs, deletions of rooms and of guests, with any
    page state and any failures), every booking of the store keeps
    referring to a guest and a room that exist. *)
Theorem referential_integrity_kept db db' :
  rtc page_step db db' → referential_integrity db → referential_integrity db'.
Proof.
  induction 1 as [db | db db1 db2 Hstep _ IH]; [done|].
  intros Hri. by apply IH, (page_step_integrity db).
Qed.

Lemma referential_integrity_kept_witness :
  referential_integrity (RoomsPage.handleDelete false true 1 Example.hotel_AB).1.
Proof.
  apply (referential_integrity_kept Example.hotel).
  - eapply rtc_l; [apply (page_CreateBooking Example.clk no_faults Example.rooms
                            Example.stay_A)|].
    eapply rtc_l; [apply (page_CreateBooking Example.clk no_faults Example.rooms
                            Example.stay_B)|].
    apply rtc_once. apply page_DeleteRoom.
  - intros i b Hb. cbn [Example.hotel Db.bookings] in Hb.
    by rewrite lookup_empty in Hb.
Defined.

(** ** The earlier revision of the page *)

(** X25.  The earlier [handleSubmit] checks neither the dates against today
    nor the room's bookings: whenever the selected guest and room exist,
    the store reads the two dates as an interval of positive length, the
    price fits the column and the store answers, it adds an active booking
    and occupies the room. *)
Theorem Legacy_handleSubmit_unchecked clk faults rooms formData db guest room r ci co :
  insert_fails faults = false → room_update_fails faults = false →
  Legacy.guest_id formData = Some guest → Legacy.room_id formData = Some room →
  is_Some (Db.guests db !! guest) → Db.rooms db !! room = Some r →
  Db.timestamptz_in (Legacy.check_in_date formData) = Some ci →
  Db.timestamptz_in (Legacy.check_out_date formData) = Some co →
  co > ci →
  Db.numeric_10_2
    (calculateTotalPrice clk rooms room
       (Legacy.check_in_date formData) (Legacy.check_out_date formData)) →
  (Legacy.handleSubmit clk faults rooms formData db).2 = [toast_created] ∧
  Db.r_status <$> Db.rooms (Legacy.handleSubmit clk faults rooms formData db).1 !! room
    = Some Db.occupied ∧
  ∃ id row,
    Db.bookings db !! id = None ∧
    Db.bookings (Legacy.handleSubmit clk faults rooms formData db).1
      = <[id := row]> (Db.bookings db) ∧
    Db.b_guest_id row = guest ∧ Db.b_room_id row = room ∧
    Db.b_check_in_date row = ci ∧ Db.b_check_out_date row = co ∧
    Db.b_status row = Db.active.
Proof.
  intros Hfi Hfr Hg Hr Hguest Hroom Hci Hco Hlt Hnum.
  unfold Legacy.handleSubmit. rewrite Hfi, Hfr, Hg, Hr.
  unfold Db.insert_booking. simpl. rewrite Hci, Hco.
  rewrite bool_decide_eq_true_2 by (split_and!; [done | by rewrite Hroom | done | done]).
  simpl. split_and!; [done | by rewrite lookup_alter_eq, Hroom |].
  eexists (Db.gen_random_uuid db), _. split_and!; try done.
  apply not_elem_of_dom. unfold Db.gen_random_uuid. apply is_fresh.
Qed.

Lemma Legacy_handleSubmit_unchecked_witness :
  (Legacy.handleSubmit Example.clk no_faults Example.rooms
     (Legacy.mkForm (Some 2%positive) (Some 1%positive) (ymd 2024 5 1) (ymd 2024 6 2) "")
     Example.hotel_1).2 = [toast_created] ∧
  size (Db.bookings
          (Legacy.handleSubmit Example.clk no_faults Example.rooms
             (Legacy.mkForm (Some 2%positive) (Some 1%positive) (ymd 2024 5 1)
                (ymd 2024 6 2) "")
             Example.hotel_1).1) = 2%nat.
Proof.
  destruct (Legacy_handleSubmit_unchecked Example.clk no_faults Example.rooms
              (Legacy.mkForm (Some 2%positive) (Some 1%positive) (ymd 2024 5 1)
                 (ymd 2024 6 2) "")
              Example.hotel_1 2%positive 1%positive
              (Db.set_room_status Example.clk Db.occupied Example.room101)
              (days_from_civil 2024 5 1 * msPerDay) (days_from_civil 2024 6 2 * msPerDay)
              eq_refl eq_refl eq_refl eq_refl)
    as (Hmsg & _ & id & row & Hfresh & Hbs & _).
  - by eexists.
  - reflexivity.
  - reflexivity.
  - reflexivity.
  - by vm_compute.
  - by vm_compute.
  - split; [exact Hmsg|]. rewrite Hbs.
    by rewrite (map_size_insert_None id row _ Hfresh).
Defined.

(** ** The list after a check-out *)

Lemma loads_bookings_inv db bookings b :
  loads_bookings db bookings → b ∈ bookings →
  ∃ row, Db.bookings db !! Booking.id b = Some row ∧ b = booking_of_row (Booking.id b) row.
Proof.
  intros (rows & Hperm & _ & ->) Hin.
  apply list_elem_of_fmap in Hin as ([id row] & -> & Hin).
  rewrite Hperm in Hin. apply elem_of_map_to_list in Hin.
  by exists row.
Qed.

(** X26.  After a check-out the store has carried out for a booking it
    holds, the next load of the page lists that booking under the
    checked-out filter and not under the active one, without a check-out
    button and without the departure badge, and its check-out cell shows
    the moment of the check-out instead of the planned date. *)
Theorem checked_out_booking_listed clk faults booking db clk' bookings :
  booking_update_fails faults = false →
  is_Some (Db.bookings db !! Booking.id booking) →
  loads_bookings (handleCheckOut clk faults true booking db).1 bookings →
  (∃ b, b ∈ filteredBookings filter_checked_out bookings ∧
        Booking.id b = Booking.id booking) ∧
  (∀ b, b ∈ bookings → Booking.id b = Booking.id booking →
     b ∈ filteredBookings filter_checked_out bookings ∧
     (b ∉ filteredBookings filter_active bookings) ∧
     (b ∉ activeBookings bookings) ∧
     check_out_button b = false ∧
     departure_badge clk' b = false ∧
     check_out_cell clk' b = format_day_hour_minute clk' (now clk)).
Proof.
  intros Hfb [row Hrow] Hloads.
  assert (Db.bookings (handleCheckOut clk faults true booking db).1 !! Booking.id booking
          = Some (Db.set_checked_out clk (now clk) row)) as Hnew.
  { unfold handleCheckOut. rewrite Hfb.
    destruct (room_update_fails faults); simpl; by rewrite lookup_alter_eq, Hrow. }
  assert (∀ b, b ∈ bookings → Booking.id b = Booking.id booking →
               Booking.status b = Db.checked_out ∧
               Booking.actual_check_out b = Some (now clk)) as Hview.
  { intros b Hin Hid.
    destruct (loads_bookings_inv _ _ _ Hloads Hin) as (row' & Hrow' & ->).
    simpl in Hid. rewrite Hid, Hnew in Hrow'. by simplify_eq. }
  split.
  - exists (booking_of_row (Booking.id booking) (Db.set_checked_out clk (now clk) row)).
    split; [|done]. apply list_elem_of_filter. split; [done|].
    by apply (loads_bookings_elem _ _ _ _ Hloads).
  - intros b Hin Hid. destruct (Hview b Hin Hid) as [Hst Hact].
    split_and!.
    + apply list_elem_of_filter. by split.
    + intros Hel. apply list_elem_of_filter in Hel as [Hel _]. simpl in Hel. congruence.
    + intros Hel. apply list_elem_of_filter in Hel as [Hel _]. simpl in Hel. congruence.
    + apply bool_decide_eq_false. congruence.
    + unfold departure_badge. apply andb_false_iff. right.
      apply bool_decide_eq_false. congruence.
    + unfold check_out_cell. by rewrite Hact.
Qed.

Lemma checked_out_booking_listed_witness :
  filteredBookings filter_checked_out Tour.listed_checked_out = Tour.listed_checked_out ∧
  filteredBookings filter_active Tour.listed_checked_out = [] ∧
  check_out_cell Example.clk_3rd <$> Tour.listed_checked_out
    = [(days_from_civil 2024 6 3, 11, 0)].
Proof.
  destruct (checked_out_booking_listed Example.clk_3rd no_faults Example.listed_1
              Example.hotel_1 Example.clk_3rd Tour.listed_checked_out eq_refl)
    as [_ Hall].
  - by vm_compute; eexists.
  - exists (map_to_list (Db.bookings Example.checked_out_once.1)).
    split_and!; [done| |].
    + set (rows := map_to_list _). vm_compute in rows. subst rows. repeat constructor.
    + set (rows := map_to_list _). vm_compute in rows. subst rows. by vm_compute.
  - destruct (Hall _ ltac:(left) eq_refl) as (_ & _ & _ & _ & _ & Hcell).
    split_and!; [by vm_compute | by vm_compute |].
    cbn [fmap list_fmap Tour.listed_checked_out]. rewrite Hcell. by vm_compute.
Defined.
